(** * GharintoLeap backend API test harness: a shallow embedding

    The harness (src/backend_test.py, src/focused_backend_test.py,
    src/backend_test_focused.py, src/marketplace_api_test.py) is Python code
    driving a remote HTTP server through [requests].  It is modelled here as:
    - Python values met by the code (JSON bodies, response dicts) as inductive
      types and records;
    - Python exceptions as a class tag and a message, with the part of the
      class hierarchy that the [except] clauses test;
    - the mutable tester object ([self.test_results]) together with the log of
      HTTP calls issued so far as an explicit [world], threaded by a small
      state-and-exception monad [PyM] (exceptions keep the state reached when
      they were raised, as Python's in-place mutation does);
    - the remote server as a field of the world: a function from the calls
      issued before and the current request to what [requests] does (raise an
      exception or return a response).  Console output is not modelled. *)

From Stdlib Require Import String Ascii List ZArith QArith Bool Lia.
From Stdlib Require Import DecimalString.
From Stdlib Require Import Permutation.
Import ListNotations.
Open Scope string_scope.
Open Scope Z_scope.
Set Warnings "-register-all".

(** ** Python values *)

(** JSON values as [json.loads] / [response.json()] return them (numbers are
    integers in this model). *)
Inductive json :=
| JNull
| JBool (b : bool)
| JNum (z : Z)
| JStr (s : string)
| JArr (l : list json)
| JObj (kvs : list (string * json)).

(** [response["data"]]: the parsed JSON body or the raw text. *)
Inductive pydata :=
| PJson (j : json)
| PText (s : string).

(** Python truthiness of a JSON value. *)
Definition json_truthy (j : json) : bool :=
  match j with
  | JNull => false
  | JBool b => b
  | JNum z => negb (z =? 0)
  | JStr s => negb (String.eqb s "")
  | JArr l => match l with [] => false | _ => true end
  | JObj kvs => match kvs with [] => false | _ => true end
  end.

Definition pydata_truthy (d : pydata) : bool :=
  match d with
  | PJson j => json_truthy j
  | PText s => negb (String.eqb s "")
  end.

Definition opt_truthy (v : option json) : bool :=
  match v with Some j => json_truthy j | None => false end.

(** Dictionary lookup on a parsed JSON object; [json.loads] keeps the last
    binding of a duplicated key, so the last one is returned. *)
Fixpoint dict_lookup (k : string) (kvs : list (string * json)) : option json :=
  match kvs with
  | [] => None
  | (k', v) :: rest =>
      match dict_lookup k rest with
      | Some w => Some w
      | None => if String.eqb k k' then Some v else None
      end
  end.

(** [str(n)] for an integer. *)
Definition zstr (z : Z) : string := NilZero.string_of_int (Z.to_int z).

(** [str(v)] of a JSON value (containers rendered without escaping). *)
Fixpoint py_str (j : json) : string :=
  match j with
  | JNull => "None"
  | JBool true => "True"
  | JBool false => "False"
  | JNum z => zstr z
  | JStr s => s
  | JArr l =>
      "[" ++ (fix go (l : list json) : string :=
                match l with
                | [] => ""
                | [x] => py_str x
                | x :: r => py_str x ++ ", " ++ go r
                end) l ++ "]"
  | JObj kvs =>
      "{" ++ (fix go (kvs : list (string * json)) : string :=
                match kvs with
                | [] => ""
                | [(k, v)] => "'" ++ k ++ "': " ++ py_str v
                | (k, v) :: r => "'" ++ k ++ "': " ++ py_str v ++ ", " ++ go r
                end) kvs ++ "}"
  end.

(** [str.upper()].  A Python [str] is represented by its UTF-8 encoding.
    [str.upper()] maps each character to its full upper-case form
    (Unicode 14.0, as in Python 3.11); [upper_table] lists every non-ASCII
    code point whose upper-case form differs from it, generated from
    [chr(c).upper()].  A byte that does not start a well-formed UTF-8
    sequence is kept as it is. *)
Definition ascii_upper (c : ascii) : ascii :=
  let n := nat_of_ascii c in
  if andb (Nat.leb 97 n) (Nat.leb n 122) then ascii_of_nat (n - 32) else c.

Definition upper_table : list (Z * list Z) :=
  [(181, [924]); (223, [83; 83]); (224, [192]); (225, [193]); (226, [194]); (227, [195]);
  (228, [196]); (229, [197]); (230, [198]); (231, [199]); (232, [200]); (233, [201]);
  (234, [202]); (235, [203]); (236, [204]); (237, [205]); (238, [206]); (239, [207]);
  (240, [208]); (241, [209]); (242, [210]); (243, [211]); (244, [212]); (245, [213]);
  (246, [214]); (248, [216]); (249, [217]); (250, [218]); (251, [219]); (252, [220]);
  (253, [221]); (254, [222]); (255, [376]); (257, [256]); (259, [258]); (261, [260]);
  (263, [262]); (265, [264]); (267, [266]); (269, [268]); (271, [270]); (273, [272]);
  (275, [274]); (277, [276]); (279, [278]); (281, [280]); (283, [282]); (285, [284]);
  (287, [286]); (289, [288]); (291, [290]); (293, [292]); (295, [294]); (297, [296]);
  (299, [298]); (301, [300]); (303, [302]); (305, [73]); (307, [306]); (309, [308]);
  (311, [310]); (314, [313]); (316, [315]); (318, [317]); (320, [319]); (322, [321]);
  (324, [323]); (326, [325]); (328, [327]); (329, [700; 78]); (331, [330]); (333, [332]);
  (335, [334]); (337, [336]); (339, [338]); (341, [340]); (343, [342]); (345, [344]);
  (347, [346]); (349, [348]); (351, [350]); (353, [352]); (355, [354]); (357, [356]);
  (359, [358]); (361, [360]); (363, [362]); (365, [364]); (367, [366]); (369, [368]);
  (371, [370]); (373, [372]); (375, [374]); (378, [377]); (380, [379]); (382, [381]);
  (383, [83]); (384, [579]); (387, [386]); (389, [388]); (392, [391]); (396, [395]);
  (402, [401]); (405, [502]); (409, [408]); (410, [573]); (414, [544]); (417, [416]);
  (419, [418]); (421, [420]); (424, [423]); (429, [428]); (432, [431]); (436, [435]);
  (438, [437]); (441, [440]); (445, [444]); (447, [503]); (453, [452]); (454, [452]);
  (456, [455]); (457, [455]); (459, [458]); (460, [458]); (462, [461]); (464, [463]);
  (466, [465]); (468, [467]); (470, [469]); (472, [471]); (474, [473]); (476, [475]);
  (477, [398]); (479, [478]); (481, [480]); (483, [482]); (485, [484]); (487, [486]);
  (489, [488]); (491, [490]); (493, [492]); (495, [494]); (496, [74; 780]); (498, [497]);
  (499, [497]); (501, [500]); (505, [504]); (507, [506]); (509, [508]); (511, [510]);
  (513, [512]); (515, [514]); (517, [516]); (519, [518]); (521, [520]); (523, [522]);
  (525, [524]); (527, [526]); (529, [528]); (531, [530]); (533, [532]); (535, [534]);
  (537, [536]); (539, [538]); (541, [540]); (543, [542]); (547, [546]); (549, [548]);
  (551, [550]); (553, [552]); (555, [554]); (557, [556]); (559, [558]); (561, [560]);
  (563, [562]); (572, [571]); (575, [11390]); (576, [11391]); (578, [577]); (583, [582]);
  (585, [584]); (587, [586]); (589, [588]); (591, [590]); (592, [11375]); (593, [11373]);
  (594, [11376]); (595, [385]); (596, [390]); (598, [393]); (599, [394]); (601, [399]);
  (603, [400]); (604, [42923]); (608, [403]); (609, [42924]); (611, [404]); (613, [42893]);
  (614, [42922]); (616, [407]); (617, [406]); (618, [42926]); (619, [11362]); (620, [42925]);
  (623, [412]); (625, [11374]); (626, [413]); (629, [415]); (637, [11364]); (640, [422]);
  (642, [42949]); (643, [425]); (647, [42929]); (648, [430]); (649, [580]); (650, [433]);
  (651, [434]); (652, [581]); (658, [439]); (669, [42930]); (670, [42928]); (837, [921]);
  (881, [880]); (883, [882]); (887, [886]); (891, [1021]); (892, [1022]); (893, [1023]);
  (912, [921; 776; 769]); (940, [902]); (941, [904]); (942, [905]); (943, [906]);
  (944, [933; 776; 769]); (945, [913]); (946, [914]); (947, [915]); (948, [916]); (949, [917]);
  (950, [918]); (951, [919]); (952, [920]); (953, [921]); (954, [922]); (955, [923]);
  (956, [924]); (957, [925]); (958, [926]); (959, [927]); (960, [928]); (961, [929]);
  (962, [931]); (963, [931]); (964, [932]); (965, [933]); (966, [934]); (967, [935]);
  (968, [936]); (969, [937]); (970, [938]); (971, [939]); (972, [908]); (973, [910]);
  (974, [911]); (976, [914]); (977, [920]); (981, [934]); (982, [928]); (983, [975]);
  (985, [984]); (987, [986]); (989, [988]); (991, [990]); (993, [992]); (995, [994]);
  (997, [996]); (999, [998]); (1001, [1000]); (1003, [1002]); (1005, [1004]); (1007, [1006]);
  (1008, [922]); (1009, [929]); (1010, [1017]); (1011, [895]); (1013, [917]); (1016, [1015]);
  (1019, [1018]); (1072, [1040]); (1073, [1041]); (1074, [1042]); (1075, [1043]);
  (1076, [1044]); (1077, [1045]); (1078, [1046]); (1079, [1047]); (1080, [1048]);
  (1081, [1049]); (1082, [1050]); (1083, [1051]); (1084, [1052]); (1085, [1053]);
  (1086, [1054]); (1087, [1055]); (1088, [1056]); (1089, [1057]); (1090, [1058]);
  (1091, [1059]); (1092, [1060]); (1093, [1061]); (1094, [1062]); (1095, [1063]);
  (1096, [1064]); (1097, [1065]); (1098, [1066]); (1099, [1067]); (1100, [1068]);
  (1101, [1069]); (1102, [1070]); (1103, [1071]); (1104, [1024]); (1105, [1025]);
  (1106, [1026]); (1107, [1027]); (1108, [1028]); (1109, [1029]); (1110, [1030]);
  (1111, [1031]); (1112, [1032]); (1113, [1033]); (1114, [1034]); (1115, [1035]);
  (1116, [1036]); (1117, [1037]); (1118, [1038]); (1119, [1039]); (1121, [1120]);
  (1123, [1122]); (1125, [1124]); (1127, [1126]); (1129, [1128]); (1131, [1130]);
  (1133, [1132]); (1135, [1134]); (1137, [1136]); (1139, [1138]); (1141, [1140]);
  (1143, [1142]); (1145, [1144]); (1147, [1146]); (1149, [1148]); (1151, [1150]);
  (1153, [1152]); (1163, [1162]); (1165, [1164]); (1167, [1166]); (1169, [1168]);
  (1171, [1170]); (1173, [1172]); (1175, [1174]); (1177, [1176]); (1179, [1178]);
  (1181, [1180]); (1183, [1182]); (1185, [1184]); (1187, [1186]); (1189, [1188]);
  (1191, [1190]); (1193, [1192]); (1195, [1194]); (1197, [1196]); (1199, [1198]);
  (1201, [1200]); (1203, [1202]); (1205, [1204]); (1207, [1206]); (1209, [1208]);
  (1211, [1210]); (1213, [1212]); (1215, [1214]); (1218, [1217]); (1220, [1219]);
  (1222, [1221]); (1224, [1223]); (1226, [1225]); (1228, [1227]); (1230, [1229]);
  (1231, [1216]); (1233, [1232]); (1235, [1234]); (1237, [1236]); (1239, [1238]);
  (1241, [1240]); (1243, [1242]); (1245, [1244]); (1247, [1246]); (1249, [1248]);
  (1251, [1250]); (1253, [1252]); (1255, [1254]); (1257, [1256]); (1259, [1258]);
  (1261, [1260]); (1263, [1262]); (1265, [1264]); (1267, [1266]); (1269, [1268]);
  (1271, [1270]); (1273, [1272]); (1275, [1274]); (1277, [1276]); (1279, [1278]);
  (1281, [1280]); (1283, [1282]); (1285, [1284]); (1287, [1286]); (1289, [1288]);
  (1291, [1290]); (1293, [1292]); (1295, [1294]); (1297, [1296]); (1299, [1298]);
  (1301, [1300]); (1303, [1302]); (1305, [1304]); (1307, [1306]); (1309, [1308]);
  (1311, [1310]); (1313, [1312]); (1315, [1314]); (1317, [1316]); (1319, [1318]);
  (1321, [1320]); (1323, [1322]); (1325, [1324]); (1327, [1326]); (1377, [1329]);
  (1378, [1330]); (1379, [1331]); (1380, [1332]); (1381, [1333]); (1382, [1334]);
  (1383, [1335]); (1384, [1336]); (1385, [1337]); (1386, [1338]); (1387, [1339]);
  (1388, [1340]); (1389, [1341]); (1390, [1342]); (1391, [1343]); (1392, [1344]);
  (1393, [1345]); (1394, [1346]); (1395, [1347]); (1396, [1348]); (1397, [1349]);
  (1398, [1350]); (1399, [1351]); (1400, [1352]); (1401, [1353]); (1402, [1354]);
  (1403, [1355]); (1404, [1356]); (1405, [1357]); (1406, [1358]); (1407, [1359]);
  (1408, [1360]); (1409, [1361]); (1410, [1362]); (1411, [1363]); (1412, [1364]);
  (1413, [1365]); (1414, [1366]); (1415, [1333; 1362]); (4304, [7312]); (4305, [7313]);
  (4306, [7314]); (4307, [7315]); (4308, [7316]); (4309, [7317]); (4310, [7318]);
  (4311, [7319]); (4312, [7320]); (4313, [7321]); (4314, [7322]); (4315, [7323]);
  (4316, [7324]); (4317, [7325]); (4318, [7326]); (4319, [7327]); (4320, [7328]);
  (4321, [7329]); (4322, [7330]); (4323, [7331]); (4324, [7332]); (4325, [7333]);
  (4326, [7334]); (4327, [7335]); (4328, [7336]); (4329, [7337]); (4330, [7338]);
  (4331, [7339]); (4332, [7340]); (4333, [7341]); (4334, [7342]); (4335, [7343]);
  (4336, [7344]); (4337, [7345]); (4338, [7346]); (4339, [7347]); (4340, [7348]);
  (4341, [7349]); (4342, [7350]); (4343, [7351]); (4344, [7352]); (4345, [7353]);
  (4346, [7354]); (4349, [7357]); (4350, [7358]); (4351, [7359]); (5112, [5104]);
  (5113, [5105]); (5114, [5106]); (5115, [5107]); (5116, [5108]); (5117, [5109]);
  (7296, [1042]); (7297, [1044]); (7298, [1054]); (7299, [1057]); (7300, [1058]);
  (7301, [1058]); (7302, [1066]); (7303, [1122]); (7304, [42570]); (7545, [42877]);
  (7549, [11363]); (7566, [42950]); (7681, [7680]); (7683, [7682]); (7685, [7684]);
  (7687, [7686]); (7689, [7688]); (7691, [7690]); (7693, [7692]); (7695, [7694]);
  (7697, [7696]); (7699, [7698]); (7701, [7700]); (7703, [7702]); (7705, [7704]);
  (7707, [7706]); (7709, [7708]); (7711, [7710]); (7713, [7712]); (7715, [7714]);
  (7717, [7716]); (7719, [7718]); (7721, [7720]); (7723, [7722]); (7725, [7724]);
  (7727, [7726]); (7729, [7728]); (7731, [7730]); (7733, [7732]); (7735, [7734]);
  (7737, [7736]); (7739, [7738]); (7741, [7740]); (7743, [7742]); (7745, [7744]);
  (7747, [7746]); (7749, [7748]); (7751, [7750]); (7753, [7752]); (7755, [7754]);
  (7757, [7756]); (7759, [7758]); (7761, [7760]); (7763, [7762]); (7765, [7764]);
  (7767, [7766]); (7769, [7768]); (7771, [7770]); (7773, [7772]); (7775, [7774]);
  (7777, [7776]); (7779, [7778]); (7781, [7780]); (7783, [7782]); (7785, [7784]);
  (7787, [7786]); (7789, [7788]); (7791, [7790]); (7793, [7792]); (7795, [7794]);
  (7797, [7796]); (7799, [7798]); (7801, [7800]); (7803, [7802]); (7805, [7804]);
  (7807, [7806]); (7809, [7808]); (7811, [7810]); (7813, [7812]); (7815, [7814]);
  (7817, [7816]); (7819, [7818]); (7821, [7820]); (7823, [7822]); (7825, [7824]);
  (7827, [7826]); (7829, [7828]); (7830, [72; 817]); (7831, [84; 776]); (7832, [87; 778]);
  (7833, [89; 778]); (7834, [65; 702]); (7835, [7776]); (7841, [7840]); (7843, [7842]);
  (7845, [7844]); (7847, [7846]); (7849, [7848]); (7851, [7850]); (7853, [7852]);
  (7855, [7854]); (7857, [7856]); (7859, [7858]); (7861, [7860]); (7863, [7862]);
  (7865, [7864]); (7867, [7866]); (7869, [7868]); (7871, [7870]); (7873, [7872]);
  (7875, [7874]); (7877, [7876]); (7879, [7878]); (7881, [7880]); (7883, [7882]);
  (7885, [7884]); (7887, [7886]); (7889, [7888]); (7891, [7890]); (7893, [7892]);
  (7895, [7894]); (7897, [7896]); (7899, [7898]); (7901, [7900]); (7903, [7902]);
  (7905, [7904]); (7907, [7906]); (7909, [7908]); (7911, [7910]); (7913, [7912]);
  (7915, [7914]); (7917, [7916]); (7919, [7918]); (7921, [7920]); (7923, [7922]);
  (7925, [7924]); (7927, [7926]); (7929, [7928]); (7931, [7930]); (7933, [7932]);
  (7935, [7934]); (7936, [7944]); (7937, [7945]); (7938, [7946]); (7939, [7947]);
  (7940, [7948]); (7941, [7949]); (7942, [7950]); (7943, [7951]); (7952, [7960]);
  (7953, [7961]); (7954, [7962]); (7955, [7963]); (7956, [7964]); (7957, [7965]);
  (7968, [7976]); (7969, [7977]); (7970, [7978]); (7971, [7979]); (7972, [7980]);
  (7973, [7981]); (7974, [7982]); (7975, [7983]); (7984, [7992]); (7985, [7993]);
  (7986, [7994]); (7987, [7995]); (7988, [7996]); (7989, [7997]); (7990, [7998]);
  (7991, [7999]); (8000, [8008]); (8001, [8009]); (8002, [8010]); (8003, [8011]);
  (8004, [8012]); (8005, [8013]); (8016, [933; 787]); (8017, [8025]); (8018, [933; 787; 768]);
  (8019, [8027]); (8020, [933; 787; 769]); (8021, [8029]); (8022, [933; 787; 834]);
  (8023, [8031]); (8032, [8040]); (8033, [8041]); (8034, [8042]); (8035, [8043]);
  (8036, [8044]); (8037, [8045]); (8038, [8046]); (8039, [8047]); (8048, [8122]);
  (8049, [8123]); (8050, [8136]); (8051, [8137]); (8052, [8138]); (8053, [8139]);
  (8054, [8154]); (8055, [8155]); (8056, [8184]); (8057, [8185]); (8058, [8170]);
  (8059, [8171]); (8060, [8186]); (8061, [8187]); (8064, [7944; 921]); (8065, [7945; 921]);
  (8066, [7946; 921]); (8067, [7947; 921]); (8068, [7948; 921]); (8069, [7949; 921]);
  (8070, [7950; 921]); (8071, [7951; 921]); (8072, [7944; 921]); (8073, [7945; 921]);
  (8074, [7946; 921]); (8075, [7947; 921]); (8076, [7948; 921]); (8077, [7949; 921]);
  (8078, [7950; 921]); (8079, [7951; 921]); (8080, [7976; 921]); (8081, [7977; 921]);
  (8082, [7978; 921]); (8083, [7979; 921]); (8084, [7980; 921]); (8085, [7981; 921]);
  (8086, [7982; 921]); (8087, [7983; 921]); (8088, [7976; 921]); (8089, [7977; 921]);
  (8090, [7978; 921]); (8091, [7979; 921]); (8092, [7980; 921]); (8093, [7981; 921]);
  (8094, [7982; 921]); (8095, [7983; 921]); (8096, [8040; 921]); (8097, [8041; 921]);
  (8098, [8042; 921]); (8099, [8043; 921]); (8100, [8044; 921]); (8101, [8045; 921]);
  (8102, [8046; 921]); (8103, [8047; 921]); (8104, [8040; 921]); (8105, [8041; 921]);
  (8106, [8042; 921]); (8107, [8043; 921]); (8108, [8044; 921]); (8109, [8045; 921]);
  (8110, [8046; 921]); (8111, [8047; 921]); (8112, [8120]); (8113, [8121]); (8114, [8122; 921]);
  (8115, [913; 921]); (8116, [902; 921]); (8118, [913; 834]); (8119, [913; 834; 921]);
  (8124, [913; 921]); (8126, [921]); (8130, [8138; 921]); (8131, [919; 921]);
  (8132, [905; 921]); (8134, [919; 834]); (8135, [919; 834; 921]); (8140, [919; 921]);
  (8144, [8152]); (8145, [8153]); (8146, [921; 776; 768]); (8147, [921; 776; 769]);
  (8150, [921; 834]); (8151, [921; 776; 834]); (8160, [8168]); (8161, [8169]);
  (8162, [933; 776; 768]); (8163, [933; 776; 769]); (8164, [929; 787]); (8165, [8172]);
  (8166, [933; 834]); (8167, [933; 776; 834]); (8178, [8186; 921]); (8179, [937; 921]);
  (8180, [911; 921]); (8182, [937; 834]); (8183, [937; 834; 921]); (8188, [937; 921]);
  (8526, [8498]); (8560, [8544]); (8561, [8545]); (8562, [8546]); (8563, [8547]);
  (8564, [8548]); (8565, [8549]); (8566, [8550]); (8567, [8551]); (8568, [8552]);
  (8569, [8553]); (8570, [8554]); (8571, [8555]); (8572, [8556]); (8573, [8557]);
  (8574, [8558]); (8575, [8559]); (8580, [8579]); (9424, [9398]); (9425, [9399]);
  (9426, [9400]); (9427, [9401]); (9428, [9402]); (9429, [9403]); (9430, [9404]);
  (9431, [9405]); (9432, [9406]); (9433, [9407]); (9434, [9408]); (9435, [9409]);
  (9436, [9410]); (9437, [9411]); (9438, [9412]); (9439, [9413]); (9440, [9414]);
  (9441, [9415]); (9442, [9416]); (9443, [9417]); (9444, [9418]); (9445, [9419]);
  (9446, [9420]); (9447, [9421]); (9448, [9422]); (9449, [9423]); (11312, [11264]);
  (11313, [11265]); (11314, [11266]); (11315, [11267]); (11316, [11268]); (11317, [11269]);
  (11318, [11270]); (11319, [11271]); (11320, [11272]); (11321, [11273]); (11322, [11274]);
  (11323, [11275]); (11324, [11276]); (11325, [11277]); (11326, [11278]); (11327, [11279]);
  (11328, [11280]); (11329, [11281]); (11330, [11282]); (11331, [11283]); (11332, [11284]);
  (11333, [11285]); (11334, [11286]); (11335, [11287]); (11336, [11288]); (11337, [11289]);
  (11338, [11290]); (11339, [11291]); (11340, [11292]); (11341, [11293]); (11342, [11294]);
  (11343, [11295]); (11344, [11296]); (11345, [11297]); (11346, [11298]); (11347, [11299]);
  (11348, [11300]); (11349, [11301]); (11350, [11302]); (11351, [11303]); (11352, [11304]);
  (11353, [11305]); (11354, [11306]); (11355, [11307]); (11356, [11308]); (11357, [11309]);
  (11358, [11310]); (11359, [11311]); (11361, [11360]); (11365, [570]); (11366, [574]);
  (11368, [11367]); (11370, [11369]); (11372, [11371]); (11379, [11378]); (11382, [11381]);
  (11393, [11392]); (11395, [11394]); (11397, [11396]); (11399, [11398]); (11401, [11400]);
  (11403, [11402]); (11405, [11404]); (11407, [11406]); (11409, [11408]); (11411, [11410]);
  (11413, [11412]); (11415, [11414]); (11417, [11416]); (11419, [11418]); (11421, [11420]);
  (11423, [11422]); (11425, [11424]); (11427, [11426]); (11429, [11428]); (11431, [11430]);
  (11433, [11432]); (11435, [11434]); (11437, [11436]); (11439, [11438]); (11441, [11440]);
  (11443, [11442]); (11445, [11444]); (11447, [11446]); (11449, [11448]); (11451, [11450]);
  (11453, [11452]); (11455, [11454]); (11457, [11456]); (11459, [11458]); (11461, [11460]);
  (11463, [11462]); (11465, [11464]); (11467, [11466]); (11469, [11468]); (11471, [11470]);
  (11473, [11472]); (11475, [11474]); (11477, [11476]); (11479, [11478]); (11481, [11480]);
  (11483, [11482]); (11485, [11484]); (11487, [11486]); (11489, [11488]); (11491, [11490]);
  (11500, [11499]); (11502, [11501]); (11507, [11506]); (11520, [4256]); (11521, [4257]);
  (11522, [4258]); (11523, [4259]); (11524, [4260]); (11525, [4261]); (11526, [4262]);
  (11527, [4263]); (11528, [4264]); (11529, [4265]); (11530, [4266]); (11531, [4267]);
  (11532, [4268]); (11533, [4269]); (11534, [4270]); (11535, [4271]); (11536, [4272]);
  (11537, [4273]); (11538, [4274]); (11539, [4275]); (11540, [4276]); (11541, [4277]);
  (11542, [4278]); (11543, [4279]); (11544, [4280]); (11545, [4281]); (11546, [4282]);
  (11547, [4283]); (11548, [4284]); (11549, [4285]); (11550, [4286]); (11551, [4287]);
  (11552, [4288]); (11553, [4289]); (11554, [4290]); (11555, [4291]); (11556, [4292]);
  (11557, [4293]); (11559, [4295]); (11565, [4301]); (42561, [42560]); (42563, [42562]);
  (42565, [42564]); (42567, [42566]); (42569, [42568]); (42571, [42570]); (42573, [42572]);
  (42575, [42574]); (42577, [42576]); (42579, [42578]); (42581, [42580]); (42583, [42582]);
  (42585, [42584]); (42587, [42586]); (42589, [42588]); (42591, [42590]); (42593, [42592]);
  (42595, [42594]); (42597, [42596]); (42599, [42598]); (42601, [42600]); (42603, [42602]);
  (42605, [42604]); (42625, [42624]); (42627, [42626]); (42629, [42628]); (42631, [42630]);
  (42633, [42632]); (42635, [42634]); (42637, [42636]); (42639, [42638]); (42641, [42640]);
  (42643, [42642]); (42645, [42644]); (42647, [42646]); (42649, [42648]); (42651, [42650]);
  (42787, [42786]); (42789, [42788]); (42791, [42790]); (42793, [42792]); (42795, [42794]);
  (42797, [42796]); (42799, [42798]); (42803, [42802]); (42805, [42804]); (42807, [42806]);
  (42809, [42808]); (42811, [42810]); (42813, [42812]); (42815, [42814]); (42817, [42816]);
  (42819, [42818]); (42821, [42820]); (42823, [42822]); (42825, [42824]); (42827, [42826]);
  (42829, [42828]); (42831, [42830]); (42833, [42832]); (42835, [42834]); (42837, [42836]);
  (42839, [42838]); (42841, [42840]); (42843, [42842]); (42845, [42844]); (42847, [42846]);
  (42849, [42848]); (42851, [42850]); (42853, [42852]); (42855, [42854]); (42857, [42856]);
  (42859, [42858]); (42861, [42860]); (42863, [42862]); (42874, [42873]); (42876, [42875]);
  (42879, [42878]); (42881, [42880]); (42883, [42882]); (42885, [42884]); (42887, [42886]);
  (42892, [42891]); (42897, [42896]); (42899, [42898]); (42900, [42948]); (42903, [42902]);
  (42905, [42904]); (42907, [42906]); (42909, [42908]); (42911, [42910]); (42913, [42912]);
  (42915, [42914]); (42917, [42916]); (42919, [42918]); (42921, [42920]); (42933, [42932]);
  (42935, [42934]); (42937, [42936]); (42939, [42938]); (42941, [42940]); (42943, [42942]);
  (42945, [42944]); (42947, [42946]); (42952, [42951]); (42954, [42953]); (42961, [42960]);
  (42967, [42966]); (42969, [42968]); (42998, [42997]); (43859, [42931]); (43888, [5024]);
  (43889, [5025]); (43890, [5026]); (43891, [5027]); (43892, [5028]); (43893, [5029]);
  (43894, [5030]); (43895, [5031]); (43896, [5032]); (43897, [5033]); (43898, [5034]);
  (43899, [5035]); (43900, [5036]); (43901, [5037]); (43902, [5038]); (43903, [5039]);
  (43904, [5040]); (43905, [5041]); (43906, [5042]); (43907, [5043]); (43908, [5044]);
  (43909, [5045]); (43910, [5046]); (43911, [5047]); (43912, [5048]); (43913, [5049]);
  (43914, [5050]); (43915, [5051]); (43916, [5052]); (43917, [5053]); (43918, [5054]);
  (43919, [5055]); (43920, [5056]); (43921, [5057]); (43922, [5058]); (43923, [5059]);
  (43924, [5060]); (43925, [5061]); (43926, [5062]); (43927, [5063]); (43928, [5064]);
  (43929, [5065]); (43930, [5066]); (43931, [5067]); (43932, [5068]); (43933, [5069]);
  (43934, [5070]); (43935, [5071]); (43936, [5072]); (43937, [5073]); (43938, [5074]);
  (43939, [5075]); (43940, [5076]); (43941, [5077]); (43942, [5078]); (43943, [5079]);
  (43944, [5080]); (43945, [5081]); (43946, [5082]); (43947, [5083]); (43948, [5084]);
  (43949, [5085]); (43950, [5086]); (43951, [5087]); (43952, [5088]); (43953, [5089]);
  (43954, [5090]); (43955, [5091]); (43956, [5092]); (43957, [5093]); (43958, [5094]);
  (43959, [5095]); (43960, [5096]); (43961, [5097]); (43962, [5098]); (43963, [5099]);
  (43964, [5100]); (43965, [5101]); (43966, [5102]); (43967, [5103]); (64256, [70; 70]);
  (64257, [70; 73]); (64258, [70; 76]); (64259, [70; 70; 73]); (64260, [70; 70; 76]);
  (64261, [83; 84]); (64262, [83; 84]); (64275, [1348; 1350]); (64276, [1348; 1333]);
  (64277, [1348; 1339]); (64278, [1358; 1350]); (64279, [1348; 1341]); (65345, [65313]);
  (65346, [65314]); (65347, [65315]); (65348, [65316]); (65349, [65317]); (65350, [65318]);
  (65351, [65319]); (65352, [65320]); (65353, [65321]); (65354, [65322]); (65355, [65323]);
  (65356, [65324]); (65357, [65325]); (65358, [65326]); (65359, [65327]); (65360, [65328]);
  (65361, [65329]); (65362, [65330]); (65363, [65331]); (65364, [65332]); (65365, [65333]);
  (65366, [65334]); (65367, [65335]); (65368, [65336]); (65369, [65337]); (65370, [65338]);
  (66600, [66560]); (66601, [66561]); (66602, [66562]); (66603, [66563]); (66604, [66564]);
  (66605, [66565]); (66606, [66566]); (66607, [66567]); (66608, [66568]); (66609, [66569]);
  (66610, [66570]); (66611, [66571]); (66612, [66572]); (66613, [66573]); (66614, [66574]);
  (66615, [66575]); (66616, [66576]); (66617, [66577]); (66618, [66578]); (66619, [66579]);
  (66620, [66580]); (66621, [66581]); (66622, [66582]); (66623, [66583]); (66624, [66584]);
  (66625, [66585]); (66626, [66586]); (66627, [66587]); (66628, [66588]); (66629, [66589]);
  (66630, [66590]); (66631, [66591]); (66632, [66592]); (66633, [66593]); (66634, [66594]);
  (66635, [66595]); (66636, [66596]); (66637, [66597]); (66638, [66598]); (66639, [66599]);
  (66776, [66736]); (66777, [66737]); (66778, [66738]); (66779, [66739]); (66780, [66740]);
  (66781, [66741]); (66782, [66742]); (66783, [66743]); (66784, [66744]); (66785, [66745]);
  (66786, [66746]); (66787, [66747]); (66788, [66748]); (66789, [66749]); (66790, [66750]);
  (66791, [66751]); (66792, [66752]); (66793, [66753]); (66794, [66754]); (66795, [66755]);
  (66796, [66756]); (66797, [66757]); (66798, [66758]); (66799, [66759]); (66800, [66760]);
  (66801, [66761]); (66802, [66762]); (66803, [66763]); (66804, [66764]); (66805, [66765]);
  (66806, [66766]); (66807, [66767]); (66808, [66768]); (66809, [66769]); (66810, [66770]);
  (66811, [66771]); (66967, [66928]); (66968, [66929]); (66969, [66930]); (66970, [66931]);
  (66971, [66932]); (66972, [66933]); (66973, [66934]); (66974, [66935]); (66975, [66936]);
  (66976, [66937]); (66977, [66938]); (66979, [66940]); (66980, [66941]); (66981, [66942]);
  (66982, [66943]); (66983, [66944]); (66984, [66945]); (66985, [66946]); (66986, [66947]);
  (66987, [66948]); (66988, [66949]); (66989, [66950]); (66990, [66951]); (66991, [66952]);
  (66992, [66953]); (66993, [66954]); (66995, [66956]); (66996, [66957]); (66997, [66958]);
  (66998, [66959]); (66999, [66960]); (67000, [66961]); (67001, [66962]); (67003, [66964]);
  (67004, [66965]); (68800, [68736]); (68801, [68737]); (68802, [68738]); (68803, [68739]);
  (68804, [68740]); (68805, [68741]); (68806, [68742]); (68807, [68743]); (68808, [68744]);
  (68809, [68745]); (68810, [68746]); (68811, [68747]); (68812, [68748]); (68813, [68749]);
  (68814, [68750]); (68815, [68751]); (68816, [68752]); (68817, [68753]); (68818, [68754]);
  (68819, [68755]); (68820, [68756]); (68821, [68757]); (68822, [68758]); (68823, [68759]);
  (68824, [68760]); (68825, [68761]); (68826, [68762]); (68827, [68763]); (68828, [68764]);
  (68829, [68765]); (68830, [68766]); (68831, [68767]); (68832, [68768]); (68833, [68769]);
  (68834, [68770]); (68835, [68771]); (68836, [68772]); (68837, [68773]); (68838, [68774]);
  (68839, [68775]); (68840, [68776]); (68841, [68777]); (68842, [68778]); (68843, [68779]);
  (68844, [68780]); (68845, [68781]); (68846, [68782]); (68847, [68783]); (68848, [68784]);
  (68849, [68785]); (68850, [68786]); (71872, [71840]); (71873, [71841]); (71874, [71842]);
  (71875, [71843]); (71876, [71844]); (71877, [71845]); (71878, [71846]); (71879, [71847]);
  (71880, [71848]); (71881, [71849]); (71882, [71850]); (71883, [71851]); (71884, [71852]);
  (71885, [71853]); (71886, [71854]); (71887, [71855]); (71888, [71856]); (71889, [71857]);
  (71890, [71858]); (71891, [71859]); (71892, [71860]); (71893, [71861]); (71894, [71862]);
  (71895, [71863]); (71896, [71864]); (71897, [71865]); (71898, [71866]); (71899, [71867]);
  (71900, [71868]); (71901, [71869]); (71902, [71870]); (71903, [71871]); (93792, [93760]);
  (93793, [93761]); (93794, [93762]); (93795, [93763]); (93796, [93764]); (93797, [93765]);
  (93798, [93766]); (93799, [93767]); (93800, [93768]); (93801, [93769]); (93802, [93770]);
  (93803, [93771]); (93804, [93772]); (93805, [93773]); (93806, [93774]); (93807, [93775]);
  (93808, [93776]); (93809, [93777]); (93810, [93778]); (93811, [93779]); (93812, [93780]);
  (93813, [93781]); (93814, [93782]); (93815, [93783]); (93816, [93784]); (93817, [93785]);
  (93818, [93786]); (93819, [93787]); (93820, [93788]); (93821, [93789]); (93822, [93790]);
  (93823, [93791]); (125218, [125184]); (125219, [125185]); (125220, [125186]);
  (125221, [125187]); (125222, [125188]); (125223, [125189]); (125224, [125190]);
  (125225, [125191]); (125226, [125192]); (125227, [125193]); (125228, [125194]);
  (125229, [125195]); (125230, [125196]); (125231, [125197]); (125232, [125198]);
  (125233, [125199]); (125234, [125200]); (125235, [125201]); (125236, [125202]);
  (125237, [125203]); (125238, [125204]); (125239, [125205]); (125240, [125206]);
  (125241, [125207]); (125242, [125208]); (125243, [125209]); (125244, [125210]);
  (125245, [125211]); (125246, [125212]); (125247, [125213]); (125248, [125214]);
  (125249, [125215]); (125250, [125216]); (125251, [125217])].

Definition byte_val (c : ascii) : Z := Z.of_nat (nat_of_ascii c).

Definition byte_of (z : Z) : ascii := ascii_of_nat (Z.to_nat z).

(** A UTF-8 continuation byte: 10xxxxxx. *)
Definition is_cont (c : ascii) : bool := (128 <=? byte_val c) && (byte_val c <? 192).

(** The UTF-8 encoding of one code point. *)
Definition utf8_encode (cp : Z) : string :=
  if cp <? 128 then String (byte_of cp) EmptyString
  else if cp <? 2048 then
    String (byte_of (192 + cp / 64)) (String (byte_of (128 + cp mod 64)) EmptyString)
  else if cp <? 65536 then
    String (byte_of (224 + cp / 4096))
      (String (byte_of (128 + (cp / 64) mod 64)) (String (byte_of (128 + cp mod 64)) EmptyString))
  else
    String (byte_of (240 + cp / 262144))
      (String (byte_of (128 + (cp / 4096) mod 64))
         (String (byte_of (128 + (cp / 64) mod 64)) (String (byte_of (128 + cp mod 64)) EmptyString))).

Fixpoint utf8_encode_all (cps : list Z) : string :=
  match cps with
  | [] => EmptyString
  | cp :: rest => utf8_encode cp ++ utf8_encode_all rest
  end.

Fixpoint table_lookup (cp : Z) (t : list (Z * list Z)) : option (list Z) :=
  match t with
  | [] => None
  | (k, v) :: rest => if Z.eqb k cp then Some v else table_lookup cp rest
  end.

(** The upper-case form of the code point [cp], decoded from the bytes
    [orig]; [lo] is the smallest code point a sequence of that length may
    encode, and an over-long or out-of-range sequence is kept as it is. *)
Definition upper_code_point (lo cp : Z) (orig : string) : string :=
  if (lo <=? cp) && (cp <=? 1114111) then
    match table_lookup cp upper_table with
    | Some us => utf8_encode_all us
    | None => orig
    end
  else orig.

Fixpoint upper (s : string) : string :=
  match s with
  | EmptyString => EmptyString
  | String c r =>
      match c with
      | Ascii _ _ _ _ _ _ _ false => String (ascii_upper c) (upper r)
      | _ =>
          let b0 := byte_val c in
          match r with
          | String c1 r1 =>
              if (192 <=? b0) && (b0 <? 224) && is_cont c1 then
                upper_code_point 128 ((b0 - 192) * 64 + (byte_val c1 - 128))
                  (String c (String c1 EmptyString)) ++ upper r1
              else
                match r1 with
                | String c2 r2 =>
                    if (224 <=? b0) && (b0 <? 240) && is_cont c1 && is_cont c2 then
                      upper_code_point 2048
                        ((b0 - 224) * 4096 + (byte_val c1 - 128) * 64 + (byte_val c2 - 128))
                        (String c (String c1 (String c2 EmptyString))) ++ upper r2
                    else
                      match r2 with
                      | String c3 r3 =>
                          if (240 <=? b0) && (b0 <? 248) && is_cont c1 && is_cont c2
                             && is_cont c3 then
                            upper_code_point 65536
                              ((b0 - 240) * 262144 + (byte_val c1 - 128) * 4096
                               + (byte_val c2 - 128) * 64 + (byte_val c3 - 128))
                              (String c (String c1 (String c2 (String c3 EmptyString))))
                              ++ upper r3
                          else String c (upper r)
                      | EmptyString => String c (upper r)
                      end
                | EmptyString => String c (upper r)
                end
          | EmptyString => String c (upper r)
          end
      end
  end.

(** ** Exceptions *)

(** The exception classes that matter to the handlers.  [ConnectTimeout]
    derives from both [Timeout] and [ConnectionError]; [KeyboardInterrupt]
    derives from [BaseException] only, so [except Exception] misses it. *)
Inductive exc_class :=
| Timeout
| ReadTimeout
| ConnectTimeout
| ConnectionError
| JSONDecodeError
| ValueError
| AttributeError
| KeyError
| UnboundLocalError
| ZeroDivisionError
| OtherException
| KeyboardInterrupt.

Record exc := mkExc { exc_cls : exc_class; exc_msg : string }.

Definition is_timeout (c : exc_class) : bool :=
  match c with Timeout | ReadTimeout | ConnectTimeout => true | _ => false end.

Definition is_connection_error (c : exc_class) : bool :=
  match c with ConnectionError | ConnectTimeout => true | _ => false end.

Definition is_exception (c : exc_class) : bool :=
  match c with KeyboardInterrupt => false | _ => true end.

(** ** HTTP *)

Record request := mkRequest {
  req_method : string;
  req_url : string;
  req_headers : list (string * string);
  req_json : option json;
  req_timeout : Z }.

Record response := mkResponse {
  status_code : Z;
  content : string;                 (* response.content *)
  content_type : option string;     (* response.headers.get('content-type') *)
  text : string;                    (* response.text *)
  parsed : string + json;           (* response.json(): inr j, or inl m when it raises
                                       JSONDecodeError with the decoder's message m *)
  resp_headers : list (string * string) }.

(** [requests.Response.ok]: [raise_for_status] raises for 4xx and 5xx only. *)
Definition resp_ok (s : Z) : bool := negb ((400 <=? s) && (s <? 600)).

(** The dict returned by [make_request]; the failure dict has no "data" and
    no "headers" key and the success dict no "error" key. *)
Record outcome := mkOutcome {
  o_status : Z;
  o_ok : bool;
  o_data : option pydata;
  o_error : option string;
  o_headers : option (list (string * string)) }.

Definition fail_outcome (msg : string) : outcome :=
  mkOutcome 0 false None (Some msg) None.

(** ** The tester state *)

Record test_result := mkResult { tr_name : string; tr_passed : bool; tr_details : string }.

(** [self.test_results = {"passed": 0, "failed": 0, "details": []}] *)
Record aggregate := mkAgg { passed : nat; failed : nat; details : list test_result }.

Definition init_agg : aggregate := mkAgg 0 0 [].

Record world := mkWorld {
  w_agg : aggregate;
  w_calls : list request;
  w_server : list request -> request -> exc + response }.

Definition set_agg (a : aggregate) (w : world) : world :=
  mkWorld a (w_calls w) (w_server w).

(** ** The state-and-exception monad *)

Definition PyM (A : Type) : Type := world -> (exc + A) * world.

Definition ret {A} (x : A) : PyM A := fun w => (inr x, w).
Definition bind {A B} (m : PyM A) (k : A -> PyM B) : PyM B :=
  fun w => match m w with
           | (inl e, w') => (inl e, w')
           | (inr x, w') => k x w'
           end.
Definition raise {A} (e : exc) : PyM A := fun w => (inl e, w).
Definition try_except {A} (m : PyM A) (h : exc -> PyM A) : PyM A :=
  fun w => match m w with
           | (inl e, w') => h e w'
           | (inr x, w') => (inr x, w')
           end.

Notation "x <- m ;; k" := (bind m (fun x => k))
  (at level 61, m at next level, right associativity).
Notation "m ;;; k" := (bind m (fun _ => k))
  (at level 61, right associativity).

(** Issue one HTTP call: it is appended to the call log and the server
    decides the result. *)
Definition send (r : request) : PyM response :=
  fun w => (w_server w (w_calls w) r,
            mkWorld (w_agg w) (w_calls w ++ [r]) (w_server w)).

(** ** [APITester.make_request] (backend_test.py 31-62; the method of
    focused_backend_test.py 25-56 is the same code) *)

Definition API_BASE := "http://localhost:4000".
Definition TIMEOUT : Z := 30.

Definition auth_headers (token : option string) : list (string * string) :=
  app [("Content-Type", "application/json")]
    (match token with
     | Some t => if String.eqb t "" then [] else [("Authorization", "Bearer " ++ t)]
     | None => []
     end).

(** [response.json() if response.content and content-type starts with
    'application/json' else response.text] *)
Definition decode_body (r : response) : PyM pydata :=
  let ctype := match content_type r with Some c => c | None => "" end in
  if negb (String.eqb (content r) "") && String.prefix "application/json" ctype then
    match parsed r with
    | inr j => ret (PJson j)
    | inl m => raise (mkExc JSONDecodeError m)
    end
  else ret (PText (text r)).

Definition make_request_handler (e : exc) : PyM outcome :=
  if is_timeout (exc_cls e) then ret (fail_outcome "Request timeout")
  else if is_connection_error (exc_cls e) then ret (fail_outcome "Connection error")
  else if is_exception (exc_cls e) then ret (fail_outcome (exc_msg e))
  else raise e.

Definition make_request (method endpoint : string) (data : option json)
    (token : option string) (timeout : Z) : PyM outcome :=
  try_except
    (let headers := auth_headers token in
     let url := API_BASE ++ endpoint in
     response <-
       (if String.eqb (upper method) "GET" then send (mkRequest "GET" url headers None timeout)
        else if String.eqb (upper method) "POST" then send (mkRequest "POST" url headers data timeout)
        else if String.eqb (upper method) "PUT" then send (mkRequest "PUT" url headers data timeout)
        else if String.eqb (upper method) "DELETE" then send (mkRequest "DELETE" url headers None timeout)
        else raise (mkExc ValueError ("Unsupported method: " ++ method)));;
     d <- decode_body response;;
     ret (mkOutcome (status_code response) (resp_ok (status_code response)) (Some d) None
                    (Some (resp_headers response))))
    make_request_handler.

(** ** [log_test] (backend_test.py 64-69; focused_backend_test.py 58-63) *)

(** [self.test_results["passed" if passed else "failed"] += 1] followed by
    the append of the result dict. *)
Definition record (a : aggregate) (name : string) (ok : bool) (det : string) : aggregate :=
  let a1 := if ok then mkAgg (S (passed a)) (failed a) (details a)
            else mkAgg (passed a) (S (failed a)) (details a) in
  mkAgg (passed a1) (failed a1) (details a1 ++ [mkResult name ok det]).

Definition log_test (name : string) (ok : bool) (det : string) : PyM unit :=
  fun w => (inr tt, set_agg (record (w_agg w) name ok det) w).

(** ** Reading the response dict *)

(** [resp["data"]]: a [KeyError] on the failure dict. *)
Definition get_data (o : outcome) : PyM pydata :=
  match o_data o with
  | Some d => ret d
  | None => raise (mkExc KeyError "'data'")
  end.

(** [data.get(key)]: only a dict has [.get]. *)
Definition py_get (d : pydata) (key : string) : PyM (option json) :=
  match d with
  | PJson (JObj kvs) => ret (dict_lookup key kvs)
  | PJson (JArr _) => raise (mkExc AttributeError "'list' object has no attribute 'get'")
  | PJson (JStr _) | PText _ => raise (mkExc AttributeError "'str' object has no attribute 'get'")
  | PJson (JNum _) => raise (mkExc AttributeError "'int' object has no attribute 'get'")
  | PJson (JBool _) => raise (mkExc AttributeError "'bool' object has no attribute 'get'")
  | PJson JNull => raise (mkExc AttributeError "'NoneType' object has no attribute 'get'")
  end.

(** [data[key]] *)
Definition py_index (d : pydata) (key : string) : PyM json :=
  v <- py_get d key;;
  match v with
  | Some j => ret j
  | None => raise (mkExc KeyError ("'" ++ key ++ "'"))
  end.

(** [resp["ok"] and resp["data"].get("id")], as the condition of an [if]. *)
Definition created_with_id (o : outcome) : PyM bool :=
  if o_ok o then (d <- get_data o;; v <- py_get d "id";; ret (opt_truthy v))
  else ret false.

Definition status_details (o : outcome) : string := "Status: " ++ zstr (o_status o).

(** ** Lifecycle chains of backend_test.py *)

(** The project payload of [test_project_management]; the two dates come from
    [datetime.now()]. *)
Definition new_project (start_date end_date : string) : json :=
  JObj [("title", JStr "API Test Project");
        ("description", JStr "Automated test project creation");
        ("clientId", JNum 1); ("budget", JNum 750000);
        ("city", JStr "Mumbai"); ("address", JStr "Test Address, Mumbai");
        ("areaSqft", JNum 1200); ("propertyType", JStr "apartment");
        ("startDate", JStr start_date); ("endDate", JStr end_date)].

(** [test_project_management], lines 205-229: create, then details and
    update when the creation answered with an id. *)
Definition project_chain (admin_token start_date end_date : string) : PyM unit :=
  create_project <- make_request "POST" "/projects" (Some (new_project start_date end_date))
                                 (Some admin_token) TIMEOUT;;
  log_test "Create Project" (o_ok create_project) (status_details create_project);;;
  c <- created_with_id create_project;;
  if c then
    d <- get_data create_project;;
    project_id <- py_index d "id";;
    project_details <- make_request "GET" ("/projects/" ++ py_str project_id) None
                                    (Some admin_token) TIMEOUT;;
    log_test "Get Project Details" (o_ok project_details) (status_details project_details);;;
    update_project <- make_request "PUT" ("/projects/" ++ py_str project_id)
                        (Some (JObj [("status", JStr "in_progress");
                                     ("progressPercentage", JNum 25);
                                     ("priority", JStr "high")]))
                        (Some admin_token) TIMEOUT;;
    log_test "Update Project" (o_ok update_project) (status_details update_project)
  else ret tt.

(** The lead payload of [test_lead_management]; [ts] is [int(time.time())]. *)
Definition new_lead (ts : Z) : json :=
  JObj [("source", JStr "api_test"); ("firstName", JStr "Test"); ("lastName", JStr "Lead");
        ("email", JStr ("testlead" ++ zstr ts ++ "@test.com"));
        ("phone", JStr "9876543210"); ("city", JStr "Mumbai");
        ("budgetMin", JNum 300000); ("budgetMax", JNum 1000000);
        ("projectType", JStr "full_home"); ("propertyType", JStr "apartment");
        ("timeline", JStr "1-3 months");
        ("description", JStr "Test lead from comprehensive API testing")].

(** [test_lead_management], lines 261-288 (the creation is public: no token). *)
Definition lead_chain (admin_token : string) (ts : Z) : PyM unit :=
  create_lead <- make_request "POST" "/leads" (Some (new_lead ts)) None TIMEOUT;;
  log_test "Create Lead (Public)" (o_ok create_lead) (status_details create_lead);;;
  c <- created_with_id create_lead;;
  if c then
    d <- get_data create_lead;;
    lead_id <- py_index d "id";;
    lead_details <- make_request "GET" ("/leads/" ++ py_str lead_id) None
                                 (Some admin_token) TIMEOUT;;
    log_test "Get Lead Details" (o_ok lead_details) (status_details lead_details);;;
    assign_lead <- make_request "POST" ("/leads/" ++ py_str lead_id ++ "/assign")
                     (Some (JObj [("assignedTo", JNum 1)])) (Some admin_token) TIMEOUT;;
    log_test "Assign Lead" (o_ok assign_lead) (status_details assign_lead);;;
    update_lead <- make_request "PUT" ("/leads/" ++ py_str lead_id)
                     (Some (JObj [("status", JStr "qualified"); ("score", JNum 85)]))
                     (Some admin_token) TIMEOUT;;
    log_test "Update Lead" (o_ok update_lead) (status_details update_lead)
  else ret tt.

(** ** The forged-token probe of [test_security_and_permissions],
    backend_test.py 461-465 *)
Definition invalid_token_probe : PyM unit :=
  invalid_token <- make_request "GET" "/users/profile" None (Some "invalid-token-123") TIMEOUT;;
  log_test "Invalid Token Rejected"
    (negb (o_ok invalid_token) && (o_status invalid_token =? 403))
    (status_details invalid_token).

(** ** Lifecycle chains of focused_backend_test.py
    ([FocusedAPITester.test_critical_failing_endpoints], lines 104-148) *)
Module Focused.

(** The details text of a result: [json.dumps(data, indent=2)] is the
    standard library's serializer and is taken as the parameter [dumps2]. *)
Definition response_details (dumps2 : pydata -> string) (o : outcome) : string :=
  "Status: " ++ zstr (o_status o) ++ ", Response: " ++
  match o_data o with
  | Some d => if pydata_truthy d then dumps2 d else "No data"
  | None => "No data"
  end.

Definition new_project (start_date end_date : string) : json :=
  JObj [("title", JStr "Critical Test Project");
        ("description", JStr "Project for testing update functionality");
        ("clientId", JNum 1); ("budget", JNum 500000);
        ("city", JStr "Mumbai"); ("address", JStr "Test Address, Mumbai");
        ("areaSqft", JNum 1000); ("propertyType", JStr "apartment");
        ("startDate", JStr start_date); ("endDate", JStr end_date)].

Definition project_chain (dumps2 : pydata -> string) (admin_token start_date end_date : string)
    : PyM unit :=
  create_response <- make_request "POST" "/projects" (Some (new_project start_date end_date))
                                  (Some admin_token) TIMEOUT;;
  c <- created_with_id create_response;;
  if c then
    d <- get_data create_response;;
    project_id <- py_index d "id";;
    update_response <- make_request "PUT" ("/projects/" ++ py_str project_id)
                         (Some (JObj [("title", JStr "Updated Critical Test Project");
                                      ("status", JStr "in_progress");
                                      ("progressPercentage", JNum 25);
                                      ("priority", JStr "high"); ("budget", JNum 600000)]))
                         (Some admin_token) TIMEOUT;;
    log_test "Update Project (PUT /projects/:id)" (o_ok update_response)
             (response_details dumps2 update_response)
  else
    log_test "Update Project (PUT /projects/:id)" false
             ("Failed to create test project: Status " ++ zstr (o_status create_response)).

Definition new_lead (ts : Z) : json :=
  JObj [("source", JStr "critical_test"); ("firstName", JStr "Critical");
        ("lastName", JStr "Test");
        ("email", JStr ("criticaltest" ++ zstr ts ++ "@test.com"));
        ("phone", JStr "9876543210"); ("city", JStr "Mumbai");
        ("budgetMin", JNum 300000); ("budgetMax", JNum 800000);
        ("projectType", JStr "full_home"); ("propertyType", JStr "apartment");
        ("timeline", JStr "1-3 months");
        ("description", JStr "Critical test lead for update functionality")].

Definition lead_chain (dumps2 : pydata -> string) (admin_token : string) (ts : Z) : PyM unit :=
  create_lead_response <- make_request "POST" "/leads" (Some (new_lead ts)) None TIMEOUT;;
  c <- created_with_id create_lead_response;;
  if c then
    d <- get_data create_lead_response;;
    lead_id <- py_index d "id";;
    update_lead_response <- make_request "PUT" ("/leads/" ++ py_str lead_id)
                              (Some (JObj [("status", JStr "qualified"); ("score", JNum 85);
                                           ("budgetMax", JNum 1000000);
                                           ("timeline", JStr "immediate")]))
                              (Some admin_token) TIMEOUT;;
    log_test "Update Lead (PUT /leads/:id)" (o_ok update_lead_response)
             (response_details dumps2 update_lead_response)
  else
    log_test "Update Lead (PUT /leads/:id)" false
             ("Failed to create test lead: Status " ++ zstr (o_status create_lead_response)).

End Focused.

(** ** Summary and verdict (backend_test.py 504-549) *)

Definition get_agg : PyM aggregate := fun w => (inr (w_agg w), w).

(** [passed / total_tests * 100 if total_tests > 0 else 0], computed exactly
    (the Python value is the float nearest to it). *)
Definition success_rate (a : aggregate) : Q :=
  let total := (passed a + failed a)%nat in
  if (0 <? total)%nat then (Z.of_nat (passed a) # Pos.of_nat total) * 100 else 0.

(** The nearest integer, ties to even, as float formatting rounds. *)
Definition round_half_even (q : Q) : Z :=
  let n := Qnum q in
  let d := Zpos (Qden q) in
  let fl := n / d in
  let r := n mod d in
  if 2 * r <? d then fl
  else if d <? 2 * r then fl + 1
  else if Z.even fl then fl else fl + 1.

(** [f"{x:.1f}"] for a nonnegative [x]. *)
Definition fmt_1f (q : Q) : string :=
  let t := round_half_even (q * 10) in
  zstr (t / 10) ++ "." ++ zstr (t mod 10).

(** [run_comprehensive_tests]: the body of its [try] block calls the ten
    suites in turn; that call sequence is the parameter [suites]. *)
Definition run_comprehensive_tests (suites : PyM unit) : PyM bool :=
  try_except
    (suites;;;
     a <- get_agg;;
     ret (Qle_bool 85 (success_rate a)))
    (fun e => if is_exception (exc_cls e) then ret false else raise e).

(** [main]: a fresh tester, then [sys.exit(0 if success else 1)]; an
    exception escaping (only [KeyboardInterrupt] can) ends the process with
    the signal's status 130. *)
Definition main_exit_code (suites : PyM unit) (server : list request -> request -> exc + response)
    : Z :=
  match fst (run_comprehensive_tests suites (mkWorld init_agg [] server)) with
  | inr true => 0
  | inr false => 1
  | inl _ => 130
  end.

(** ** src/marketplace_api_test.py: the endpoint coverage scanner *)
Module Marketplace.

Definition FRONTEND_ORIGIN := "http://localhost:5173".

(** The dict returned by [test_endpoint]; the failure dict has no
    "response_size" key and the success dict no "error" key. *)
Record ep_result := mkEp {
  ep_exists : bool;
  ep_status : Z;
  ep_accessible : bool;
  ep_size : option nat;
  ep_error : option string }.

(** [data or {}] *)
Definition or_empty (data : option json) : json :=
  match data with
  | Some j => if json_truthy j then j else JObj []
  | None => JObj []
  end.

(** [test_endpoint], lines 25-58.  A method outside the four leaves
    [response] unbound. *)
Definition test_endpoint (endpoint method : string) (token : option string)
    (data : option json) : PyM ep_result :=
  try_except
    (let url := API_BASE ++ endpoint in
     let headers :=
       app [("Content-Type", "application/json"); ("Origin", FRONTEND_ORIGIN)]
         (match token with
          | Some t => if String.eqb t "" then [] else [("Authorization", "Bearer " ++ t)]
          | None => []
          end) in
     response <-
       (if String.eqb method "GET" then send (mkRequest "GET" url headers None 5)
        else if String.eqb method "POST" then send (mkRequest "POST" url headers (Some (or_empty data)) 5)
        else if String.eqb method "PUT" then send (mkRequest "PUT" url headers (Some (or_empty data)) 5)
        else if String.eqb method "DELETE" then send (mkRequest "DELETE" url headers None 5)
        else raise (mkExc UnboundLocalError
               "cannot access local variable 'response' where it is not associated with a value"));;
     ret (mkEp (negb (status_code response =? 404)) (status_code response)
               (status_code response <? 500)
               (Some (if String.eqb (text response) "" then 0%nat else String.length (text response)))
               None))
    (fun e => if is_exception (exc_cls e) then ret (mkEp false 0 false None (Some (exc_msg e)))
              else raise e).

(** An EndpointSpec: (path, method, description). *)
Definition endpoint_spec : Type := string * string * string.

(** The loop of [main], lines 165-184: each endpoint is tested in order and
    filed as existing or missing by its "exists" flag. *)
Fixpoint scan (eps : list endpoint_spec) (token : string)
    : PyM (list (endpoint_spec * ep_result) * list endpoint_spec) :=
  match eps with
  | [] => ret ([], [])
  | (endpoint, method, description) :: rest =>
      result <- test_endpoint endpoint method (Some token) None;;
      acc <- scan rest token;;
      if ep_exists result
      then ret (((endpoint, method, description), result) :: fst acc, snd acc)
      else ret (fst acc, (endpoint, method, description) :: snd acc)
  end.

(** [f"Coverage: {(len(existing_endpoints)/len(marketplace_endpoints)*100):.1f}%"] *)
Definition coverage_line (n_existing n_total : nat) : PyM string :=
  if (n_total =? 0)%nat then raise (mkExc ZeroDivisionError "division by zero")
  else ret ("Coverage: " ++ fmt_1f ((Z.of_nat n_existing # Pos.of_nat n_total) * 100) ++ "%").

(** [main] from the scan on, for an endpoint list [eps] and the token
    obtained before: the existing and missing sets and the coverage line. *)
Definition scan_report (eps : list endpoint_spec) (token : string)
    : PyM (list (endpoint_spec * ep_result) * list endpoint_spec * string) :=
  acc <- scan eps token;;
  line <- coverage_line (length (fst acc)) (length eps);;
  ret (fst acc, snd acc, line).

End Marketplace.

(** ** src/backend_test_focused.py: the module-level [make_request]
    (lines 13-38), with a fixed timeout of 10 and no DELETE *)
Module BackendTestFocused.

Definition make_request (method endpoint : string) (data : option json)
    (token : option string) : PyM outcome :=
  try_except
    (let headers := auth_headers token in
     let url := API_BASE ++ endpoint in
     response <-
       (if String.eqb (upper method) "GET" then send (mkRequest "GET" url headers None 10)
        else if String.eqb (upper method) "POST" then send (mkRequest "POST" url headers data 10)
        else if String.eqb (upper method) "PUT" then send (mkRequest "PUT" url headers data 10)
        else raise (mkExc ValueError ("Unsupported method: " ++ method)));;
     d <- decode_body response;;
     ret (mkOutcome (status_code response) (resp_ok (status_code response)) (Some d) None
                    (Some (resp_headers response))))
    (fun e => if is_exception (exc_cls e) then ret (fail_outcome (exc_msg e)) else raise e).

End BackendTestFocused.

(** ** Further Python helpers used by the test suites *)

(** [resp.get('data', {})]: the failure dict has no "data" key. *)
Definition data_or_empty (o : outcome) : pydata :=
  match o_data o with Some d => d | None => PJson (JObj []) end.

(** [d.get(key, default)] *)
Definition py_get_default (d : pydata) (key : string) (default : json) : PyM json :=
  v <- py_get d key;;
  ret (match v with Some j => j | None => default end).

(** [resp["ok"] and resp["data"].get(key)], used as a condition. *)
Definition ok_and_get (o : outcome) (key : string) : PyM bool :=
  if o_ok o then (d <- get_data o;; v <- py_get d key;; ret (opt_truthy v)) else ret false.

(** [isinstance(v, list)] *)
Definition is_list (v : option json) : bool :=
  match v with Some (JArr _) => true | _ => false end.

(** [resp["ok"] and isinstance(resp["data"].get(key), list)] *)
Definition ok_and_list (o : outcome) (key : string) : PyM bool :=
  if o_ok o then (d <- get_data o;; v <- py_get d key;; ret (is_list v)) else ret false.

(** [len(v)] of a JSON value; the dict [json.loads] builds has one entry per
    distinct key.  (Strings are counted in bytes, which is Python's count
    for ASCII text.)  The [TypeError]s are filed as [OtherException]. *)
Definition py_len (j : json) : PyM nat :=
  match j with
  | JStr s => ret (String.length s)
  | JArr l => ret (length l)
  | JObj kvs => ret (length (nodup string_dec (map fst kvs)))
  | JNum _ => raise (mkExc OtherException "object of type 'int' has no len()")
  | JBool _ => raise (mkExc OtherException "object of type 'bool' has no len()")
  | JNull => raise (mkExc OtherException "object of type 'NoneType' has no len()")
  end.

(** [v[key]] for a string key. *)
Definition json_index_key (j : json) (key : string) : PyM json :=
  match j with
  | JObj kvs =>
      match dict_lookup key kvs with
      | Some v => ret v
      | None => raise (mkExc KeyError ("'" ++ key ++ "'"))
      end
  | JArr _ => raise (mkExc OtherException "list indices must be integers or slices, not str")
  | JStr _ => raise (mkExc OtherException "string indices must be integers, not 'str'")
  | JNum _ => raise (mkExc OtherException "'int' object is not subscriptable")
  | JBool _ => raise (mkExc OtherException "'bool' object is not subscriptable")
  | JNull => raise (mkExc OtherException "'NoneType' object is not subscriptable")
  end.

(** [resp["data"][key]] *)
Definition pydata_index_key (d : pydata) (key : string) : PyM json :=
  match d with
  | PJson j => json_index_key j key
  | PText _ => raise (mkExc OtherException "string indices must be integers, not 'str'")
  end.

(** [v[0]] *)
Definition json_index0 (j : json) : PyM json :=
  match j with
  | JArr (x :: _) => ret x
  | JArr [] => raise (mkExc OtherException "list index out of range")
  | JStr (String c _) => ret (JStr (String c EmptyString))
  | JStr EmptyString => raise (mkExc OtherException "string index out of range")
  | JObj _ => raise (mkExc KeyError "0")
  | JNum _ => raise (mkExc OtherException "'int' object is not subscriptable")
  | JBool _ => raise (mkExc OtherException "'bool' object is not subscriptable")
  | JNull => raise (mkExc OtherException "'NoneType' object is not subscriptable")
  end.

(** [len(resp.get('data', {}).get(key, []))] *)
Definition data_count (o : outcome) (key : string) : PyM nat :=
  l <- py_get_default (data_or_empty o) key (JArr []);;
  py_len l.

(** [{"email": ..., "password": ...}] *)
Definition credentials (email password : string) : json :=
  JObj [("email", JStr email); ("password", JStr password)].

(** [self.tokens]: user type to the token read from the login answer. *)
Definition tokens_t : Type := list (string * json).

(** [if token: ... token=token ...]: the body runs only for a truthy token,
    which [make_request] puts into the Authorization header as [str(token)]. *)
Definition with_token (token : option json) (body : string -> PyM unit) : PyM unit :=
  match token with
  | Some t => if json_truthy t then body (py_str t) else ret tt
  | None => ret tt
  end.

(** ** The test suites of backend_test.py (lines 71-480) *)
Module Suites.

(** The values read from the clock ([int(time.time())] and [datetime.now()])
    by the suites, one field per read. *)
Record clock := mkClock {
  register_ts : Z;
  new_user_ts : Z;
  project_start : string;
  project_end : string;
  lead_ts : Z;
  quotation_valid_until : string;
  attendance_date : string }.

(** [test_health_endpoints], lines 71-85. *)
Definition test_health_endpoints : PyM unit :=
  health <- make_request "GET" "/health" None None TIMEOUT;;
  p <- (if o_ok health then
          (d <- get_data health;; v <- py_get d "status";;
           ret (match v with Some (JStr s) => String.eqb s "ok" | _ => false end))
        else ret false);;
  st <- py_get_default (data_or_empty health) "status" (JStr "N/A");;
  log_test "System Health Check" p
    ("Status: " ++ zstr (o_status health) ++ ", Response: " ++ py_str st);;;
  db_health <- make_request "GET" "/health/db" None None TIMEOUT;;
  log_test "Database Health Check" (o_ok db_health) (status_details db_health).

Definition register_user (ts : Z) : json :=
  JObj [("email", JStr ("testuser" ++ zstr ts ++ "@test.com"));
        ("password", JStr "TestPass123!"); ("firstName", JStr "Test");
        ("lastName", JStr "User"); ("phone", JStr "9876543210"); ("city", JStr "Mumbai")].

(** [self.test_users], in insertion order. *)
Definition test_users : list (string * json) :=
  [("admin", credentials "admin@gharinto.com" "admin123");
   ("superadmin", credentials "superadmin@gharinto.com" "superadmin123");
   ("customer", credentials "customer@gharinto.com" "customer123");
   ("designer", credentials "designer@gharinto.com" "designer123");
   ("vendor", credentials "vendor@gharinto.com" "vendor123");
   ("pm", credentials "pm@gharinto.com" "pm123");
   ("finance", credentials "finance@gharinto.com" "finance123")].

(** The login loop of [test_authentication], lines 107-114.  A token is
    stored under the user type when the answer is ok and carries a truthy
    "token"; the error text of a failed login reads
    [login_response.get('data', {}).get('error', 'Unknown')]. *)
Fixpoint login_all (users : list (string * json)) (tokens : tokens_t) : PyM tokens_t :=
  match users with
  | [] => ret tokens
  | (user_type, creds) :: rest =>
      login_response <- make_request "POST" "/auth/login" (Some creds) None TIMEOUT;;
      c <- ok_and_get login_response "token";;
      tokens' <-
        (if c then
           d <- get_data login_response;;
           t <- pydata_index_key d "token";;
           log_test ("Login " ++ user_type) true "Token received";;;
           ret (app tokens [(user_type, t)])
         else
           err <- py_get_default (data_or_empty login_response) "error" (JStr "Unknown");;
           log_test ("Login " ++ user_type) false
             ("Status: " ++ zstr (o_status login_response) ++ ", Error: " ++ py_str err);;;
           ret tokens);;
      login_all rest tokens'
  end.

(** [test_authentication], lines 87-131; it returns the tokens it stored in
    [self.tokens] (initially empty).  "User Registration" records the
    truthiness of [register_response["ok"] and ...get("token")]. *)
Definition test_authentication (ts : Z) : PyM tokens_t :=
  register_response <- make_request "POST" "/auth/register" (Some (register_user ts)) None TIMEOUT;;
  p <- ok_and_get register_response "token";;
  log_test "User Registration" p (status_details register_response);;;
  tokens <- login_all test_users [];;
  invalid_login <- make_request "POST" "/auth/login"
                     (Some (credentials "invalid@test.com" "wrongpassword")) None TIMEOUT;;
  log_test "Invalid Login Rejection"
    (negb (o_ok invalid_login) && (o_status invalid_login =? 401)) (status_details invalid_login);;;
  forgot_password <- make_request "POST" "/auth/forgot-password"
                       (Some (JObj [("email", JStr "customer@gharinto.com")])) None TIMEOUT;;
  log_test "Forgot Password" (o_ok forgot_password) (status_details forgot_password);;;
  ret tokens.

Definition new_user (ts : Z) : json :=
  JObj [("email", JStr ("newuser" ++ zstr ts ++ "@test.com"));
        ("password", JStr "NewUser123!"); ("firstName", JStr "New");
        ("lastName", JStr "User"); ("phone", JStr "9876543211"); ("city", JStr "Delhi");
        ("roles", JArr [JStr "customer"])].

(** [test_user_management], lines 133-175. *)
Definition test_user_management (tokens : tokens_t) (ts : Z) : PyM unit :=
  with_token (dict_lookup "admin" tokens) (fun admin_token =>
    profile <- make_request "GET" "/users/profile" None (Some admin_token) TIMEOUT;;
    p1 <- ok_and_get profile "id";;
    log_test "Get User Profile" p1 (status_details profile);;;
    users <- make_request "GET" "/users" None (Some admin_token) TIMEOUT;;
    p2 <- ok_and_list users "users";;
    n <- data_count users "users";;
    log_test "Get Users List" p2
      ("Status: " ++ zstr (o_status users) ++ ", Count: " ++ zstr (Z.of_nat n));;;
    create_user <- make_request "POST" "/users" (Some (new_user ts)) (Some admin_token) TIMEOUT;;
    log_test "Create User" (o_ok create_user) (status_details create_user);;;
    c <- ok_and_get users "users";;
    if c then
      d <- get_data users;;
      l <- pydata_index_key d "users";;
      first <- json_index0 l;;
      user_id <- json_index_key first "id";;
      user_details <- make_request "GET" ("/users/" ++ py_str user_id) None (Some admin_token) TIMEOUT;;
      log_test "Get User Details" (o_ok user_details) (status_details user_details)
    else ret tt).

(** [test_project_management], lines 177-229: the list, then the chain. *)
Definition test_project_management (tokens : tokens_t) (start_date end_date : string) : PyM unit :=
  with_token (dict_lookup "admin" tokens) (fun admin_token =>
    projects <- make_request "GET" "/projects" None (Some admin_token) TIMEOUT;;
    p <- ok_and_list projects "projects";;
    n <- data_count projects "projects";;
    log_test "Get Projects List" p
      ("Status: " ++ zstr (o_status projects) ++ ", Count: " ++ zstr (Z.of_nat n));;;
    project_chain admin_token start_date end_date).

(** [test_lead_management], lines 231-288. *)
Definition test_lead_management (tokens : tokens_t) (ts : Z) : PyM unit :=
  with_token (dict_lookup "admin" tokens) (fun admin_token =>
    leads <- make_request "GET" "/leads" None (Some admin_token) TIMEOUT;;
    p <- ok_and_list leads "leads";;
    n <- data_count leads "leads";;
    log_test "Get Leads List" p
      ("Status: " ++ zstr (o_status leads) ++ ", Count: " ++ zstr (Z.of_nat n));;;
    lead_chain admin_token ts).

Definition new_quotation (valid_until : string) : json :=
  JObj [("clientId", JNum 1); ("title", JStr "API Test Quotation");
        ("items", JArr [JObj [("description", JStr "Interior Design Service");
                              ("quantity", JNum 1); ("unitPrice", JNum 75000)]]);
        ("validUntil", JStr valid_until)].

(** [test_financial_system], lines 290-339. *)
Definition test_financial_system (tokens : tokens_t) (valid_until : string) : PyM unit :=
  with_token (dict_lookup "customer" tokens) (fun customer_token =>
    wallet <- make_request "GET" "/wallet" None (Some customer_token) TIMEOUT;;
    log_test "Get User Wallet" (o_ok wallet) (status_details wallet);;;
    transactions <- make_request "GET" "/wallet/transactions" None (Some customer_token) TIMEOUT;;
    log_test "Get Wallet Transactions" (o_ok transactions) (status_details transactions));;;
  with_token (dict_lookup "admin" tokens) (fun admin_token =>
    quotations <- make_request "GET" "/quotations" None (Some admin_token) TIMEOUT;;
    log_test "Get Quotations List" (o_ok quotations) (status_details quotations);;;
    create_quotation <- make_request "POST" "/quotations" (Some (new_quotation valid_until))
                          (Some admin_token) TIMEOUT;;
    log_test "Create Quotation" (o_ok create_quotation) (status_details create_quotation);;;
    invoices <- make_request "GET" "/invoices" None (Some admin_token) TIMEOUT;;
    log_test "Get Invoices List" (o_ok invoices) (status_details invoices)).

Definition new_material : json :=
  JObj [("name", JStr "API Test Material"); ("category", JStr "Flooring");
        ("subcategory", JStr "Tiles"); ("brand", JStr "Test Brand"); ("unit", JStr "sqft");
        ("price", JNum 150); ("stockQuantity", JNum 1000);
        ("description", JStr "Test material from API testing")].

(** [test_materials_and_vendors], lines 341-390. *)
Definition test_materials_and_vendors (tokens : tokens_t) : PyM unit :=
  with_token (dict_lookup "admin" tokens) (fun admin_token =>
    materials <- make_request "GET" "/materials" None (Some admin_token) TIMEOUT;;
    log_test "Get Materials Catalog" (o_ok materials) (status_details materials);;;
    categories <- make_request "GET" "/materials/categories" None None TIMEOUT;;
    log_test "Get Material Categories" (o_ok categories) (status_details categories);;;
    vendors <- make_request "GET" "/vendors" None (Some admin_token) TIMEOUT;;
    log_test "Get Vendors List" (o_ok vendors) (status_details vendors);;;
    create_material <- make_request "POST" "/materials" (Some new_material) (Some admin_token) TIMEOUT;;
    log_test "Create Material" (o_ok create_material) (status_details create_material);;;
    c <- ok_and_get materials "materials";;
    if c then
      d <- get_data materials;;
      l <- pydata_index_key d "materials";;
      first <- json_index0 l;;
      material_id <- json_index_key first "id";;
      material_details <- make_request "GET" ("/materials/" ++ py_str material_id) None
                            (Some admin_token) TIMEOUT;;
      log_test "Get Material Details" (o_ok material_details) (status_details material_details)
    else ret tt).

Definition attendance_data (date : string) : json :=
  JObj [("date", JStr date); ("checkInTime", JStr "09:00"); ("checkOutTime", JStr "18:00");
        ("status", JStr "present")].

(** [test_employee_management], lines 392-417. *)
Definition test_employee_management (tokens : tokens_t) (date : string) : PyM unit :=
  with_token (dict_lookup "admin" tokens) (fun admin_token =>
    employees <- make_request "GET" "/employees" None (Some admin_token) TIMEOUT;;
    log_test "Get Employees List" (o_ok employees) (status_details employees);;;
    attendance <- make_request "POST" "/employees/attendance" (Some (attendance_data date))
                    (Some admin_token) TIMEOUT;;
    log_test "Mark Employee Attendance" (o_ok attendance) (status_details attendance)).

Definition new_complaint : json :=
  JObj [("title", JStr "API Test Complaint");
        ("description", JStr "This is a test complaint created via API testing");
        ("priority", JStr "medium")].

(** [test_communication_system], lines 419-449. *)
Definition test_communication_system (tokens : tokens_t) : PyM unit :=
  with_token (dict_lookup "admin" tokens) (fun admin_token =>
    complaints <- make_request "GET" "/complaints" None (Some admin_token) TIMEOUT;;
    log_test "Get Complaints List" (o_ok complaints) (status_details complaints));;;
  with_token (dict_lookup "customer" tokens) (fun customer_token =>
    create_complaint <- make_request "POST" "/complaints" (Some new_complaint)
                          (Some customer_token) TIMEOUT;;
    log_test "Create Complaint" (o_ok create_complaint) (status_details create_complaint);;;
    notifications <- make_request "GET" "/notifications" None (Some customer_token) TIMEOUT;;
    log_test "Get Notifications" (o_ok notifications) (status_details notifications)).

(** [test_security_and_permissions], lines 451-480. *)
Definition test_security_and_permissions : PyM unit :=
  unauthorized <- make_request "GET" "/users/profile" None None TIMEOUT;;
  log_test "Unauthorized Access Blocked"
    (negb (o_ok unauthorized) && (o_status unauthorized =? 401)) (status_details unauthorized);;;
  invalid_token_probe;;;
  sql_injection <- make_request "POST" "/auth/login"
                     (Some (credentials "admin'; DROP TABLE users; --" "test")) None TIMEOUT;;
  log_test "SQL Injection Blocked" (negb (o_ok sql_injection)) (status_details sql_injection);;;
  not_found <- make_request "GET" "/non-existent-endpoint" None None TIMEOUT;;
  log_test "404 Error Handling" (o_status not_found =? 404) (status_details not_found).

(** The body of the [try] of [run_comprehensive_tests], lines 492-501; the
    tokens stored by [test_authentication] are read by the later suites. *)
Definition comprehensive_suites (clk : clock) : PyM unit :=
  test_health_endpoints;;;
  tokens <- test_authentication (register_ts clk);;
  test_user_management tokens (new_user_ts clk);;;
  test_project_management tokens (project_start clk) (project_end clk);;;
  test_lead_management tokens (lead_ts clk);;;
  test_financial_system tokens (quotation_valid_until clk);;;
  test_materials_and_vendors tokens;;;
  test_employee_management tokens (attendance_date clk);;;
  test_communication_system tokens;;;
  test_security_and_permissions.

(** [main] of backend_test.py with this run. *)
Definition main (clk : clock) (server : list request -> request -> exc + response) : Z :=
  main_exit_code (comprehensive_suites clk) server.

End Suites.

(** ** focused_backend_test.py: [authenticate], the rest of
    [test_critical_failing_endpoints], [run_focused_tests] and [main] *)
Module FocusedRun.

Definition test_users : list (string * json) :=
  [("admin", credentials "admin@gharinto.com" "admin123");
   ("customer", credentials "customer@gharinto.com" "customer123")].

(** The loop of [authenticate], lines 68-74; the failure message evaluates
    [login_response.get('data', {}).get('error', 'Unknown')]. *)
Fixpoint authenticate_loop (users : list (string * json)) (tokens : tokens_t) : PyM tokens_t :=
  match users with
  | [] => ret tokens
  | (user_type, creds) :: rest =>
      login_response <- make_request "POST" "/auth/login" (Some creds) None TIMEOUT;;
      c <- ok_and_get login_response "token";;
      tokens' <-
        (if c then
           d <- get_data login_response;;
           t <- pydata_index_key d "token";;
           ret (app tokens [(user_type, t)])
         else
           _ <- py_get_default (data_or_empty login_response) "error" (JStr "Unknown");;
           ret tokens);;
      authenticate_loop rest tokens'
  end.

Definition authenticate : PyM tokens_t := authenticate_loop test_users [].

Record clock := mkClock {
  project_start : string;
  project_end : string;
  lead_ts : Z;
  quotation_valid_until : string;
  attendance_date : string }.

Definition quotation_data (valid_until : string) : json :=
  JObj [("clientId", JNum 1); ("title", JStr "Critical Test Quotation");
        ("items", JArr [JObj [("description", JStr "Interior Design Service - Critical Test");
                              ("quantity", JNum 1); ("unitPrice", JNum 75000)];
                        JObj [("description", JStr "Material Supply");
                              ("quantity", JNum 1); ("unitPrice", JNum 25000)]]);
        ("validUntil", JStr valid_until)].

Definition attendance_data (date : string) : json :=
  JObj [("date", JStr date); ("checkInTime", JStr "09:00:00"); ("checkOutTime", JStr "18:00:00");
        ("status", JStr "present")].

(** The details of "Get Employees List (GET /employees)". *)
Definition employees_details (dumps2 : pydata -> string) (o : outcome) (n : nat) : string :=
  "Status: " ++ zstr (o_status o) ++ ", Count: " ++ zstr (Z.of_nat n) ++ ", Response: " ++
  match o_data o with
  | Some d => if pydata_truthy d then dumps2 d else "No data"
  | None => "No data"
  end.

(** [test_critical_failing_endpoints], lines 76-220 (the two chains are
    [Focused.project_chain] and [Focused.lead_chain]). *)
Definition test_critical_failing_endpoints (dumps2 : pydata -> string) (tokens : tokens_t)
    (clk : clock) : PyM unit :=
  let customer_token := dict_lookup "customer" tokens in
  with_token (dict_lookup "admin" tokens) (fun admin_token =>
    Focused.project_chain dumps2 admin_token (project_start clk) (project_end clk);;;
    Focused.lead_chain dumps2 admin_token (lead_ts clk);;;
    (if opt_truthy customer_token then
       wallet_response <- make_request "GET" "/wallet" None
                            (option_map py_str customer_token) TIMEOUT;;
       log_test "Get User Wallet (GET /wallet)" (o_ok wallet_response)
                (Focused.response_details dumps2 wallet_response)
     else log_test "Get User Wallet (GET /wallet)" false "Customer token not available");;;
    quotation_response <- make_request "POST" "/quotations"
                            (Some (quotation_data (quotation_valid_until clk)))
                            (Some admin_token) TIMEOUT;;
    log_test "Create Quotation (POST /quotations)" (o_ok quotation_response)
             (Focused.response_details dumps2 quotation_response);;;
    employees_response <- make_request "GET" "/employees" None (Some admin_token) TIMEOUT;;
    n <- data_count employees_response "employees";;
    log_test "Get Employees List (GET /employees)" (o_ok employees_response)
             (employees_details dumps2 employees_response n);;;
    attendance_response <- make_request "POST" "/employees/attendance"
                             (Some (attendance_data (attendance_date clk)))
                             (Some admin_token) TIMEOUT;;
    log_test "Mark Employee Attendance (POST /employees/attendance)" (o_ok attendance_response)
             (Focused.response_details dumps2 attendance_response)).

(** [run_focused_tests], lines 222-273. *)
Definition run_focused_tests (dumps2 : pydata -> string) (clk : clock) : PyM bool :=
  try_except
    (tokens <- authenticate;;
     test_critical_failing_endpoints dumps2 tokens clk;;;
     a <- get_agg;;
     ret (Qle_bool 85 (success_rate a)))
    (fun e => if is_exception (exc_cls e) then ret false else raise e).

(** The process status of the script: [main] returns the verdict, which the
    module-level [main()] call discards; only an exception escaping
    ([KeyboardInterrupt]) ends it otherwise. *)
Definition main_exit_code (dumps2 : pydata -> string) (clk : clock)
    (server : list request -> request -> exc + response) : Z :=
  match fst (run_focused_tests dumps2 clk (mkWorld init_agg [] server)) with
  | inr _ => 0
  | inl _ => 130
  end.

End FocusedRun.

(** ** backend_test_focused.py: [get_admin_token] and [test_failing_endpoints] *)
Module BackendTestFocusedScript.

(** [get_admin_token], lines 40-48: the token value, or [None] ([JNull]). *)
Definition get_admin_token : PyM json :=
  login_response <- BackendTestFocused.make_request "POST" "/auth/login"
                      (Some (credentials "admin@gharinto.com" "admin123")) None;;
  if o_ok login_response then
    d <- get_data login_response;;
    t <- pydata_index_key d "token";;
    ret t
  else ret JNull.

(** The error print after a failed call:
    [x.get('data', {}).get('error', 'Unknown error')]. *)
Definition report_error (o : outcome) : PyM unit :=
  if o_ok o then ret tt
  else (_ <- py_get_default (data_or_empty o) "error" (JStr "Unknown error");; ret tt).

Record clock := mkClock {
  quotation_valid_until : string;
  attendance_date : string;
  check_in_iso : string;
  check_out_iso : string }.

(** [test_failing_endpoints], lines 50-158 (the prints are left out, but
    the expressions they evaluate are kept). *)
Definition test_failing_endpoints (clk : clock) : PyM unit :=
  admin_token <- get_admin_token;;
  if negb (json_truthy admin_token) then ret tt else
  let tok := Some (py_str admin_token) in
  projects <- BackendTestFocused.make_request "GET" "/projects" None tok;;
  c1 <- ok_and_get projects "projects";;
  (if c1 then
     d <- get_data projects;;
     l <- pydata_index_key d "projects";;
     first <- json_index0 l;;
     project_id <- json_index_key first "id";;
     update_result <- BackendTestFocused.make_request "PUT" ("/projects/" ++ py_str project_id)
                        (Some (JObj [("title", JStr "Updated Test Project");
                                     ("description", JStr "Updated description");
                                     ("status", JStr "in_progress")])) tok;;
     report_error update_result
   else ret tt);;;
  leads <- BackendTestFocused.make_request "GET" "/leads" None tok;;
  c2 <- ok_and_get leads "leads";;
  (if c2 then
     d <- get_data leads;;
     l <- pydata_index_key d "leads";;
     first <- json_index0 l;;
     lead_id <- json_index_key first "id";;
     update_result <- BackendTestFocused.make_request "PUT" ("/leads/" ++ py_str lead_id)
                        (Some (JObj [("firstName", JStr "Updated"); ("lastName", JStr "Lead");
                                     ("email", JStr "updated@test.com");
                                     ("phone", JStr "9876543210"); ("city", JStr "Mumbai");
                                     ("status", JStr "qualified")])) tok;;
     report_error update_result
   else ret tt);;;
  wallet <- BackendTestFocused.make_request "GET" "/wallet" None tok;;
  report_error wallet;;;
  quotation <- BackendTestFocused.make_request "POST" "/quotations"
                 (Some (JObj [("clientId", JNum 1); ("title", JStr "Test Quotation");
                              ("items", JArr [JObj [("description", JStr "Test Item");
                                                    ("quantity", JNum 1);
                                                    ("unitPrice", JNum 50000)]]);
                              ("validUntil", JStr (quotation_valid_until clk))])) tok;;
  report_error quotation;;;
  employees <- BackendTestFocused.make_request "GET" "/employees" None tok;;
  report_error employees;;;
  attendance <- BackendTestFocused.make_request "POST" "/employees/attendance"
                  (Some (JObj [("date", JStr (attendance_date clk));
                               ("checkInTime", JStr (check_in_iso clk));
                               ("checkOutTime", JStr (check_out_iso clk));
                               ("status", JStr "present")])) tok;;
  report_error attendance.

End BackendTestFocusedScript.

(** ** marketplace_api_test.py: [get_valid_token] and the rest of [main] *)
Module MarketplaceMain.

(** The login call of [get_valid_token], lines 16-23; it passes no timeout,
    written 0 here. *)
Definition login_request : request :=
  mkRequest "POST" (API_BASE ++ "/auth/login")
    [("Content-Type", "application/json"); ("Origin", Marketplace.FRONTEND_ORIGIN)]
    (Some (credentials "admin@test.com" "password123")) 0.

(** [response.json()] *)
Definition response_json (r : response) : PyM json :=
  match parsed r with
  | inr j => ret j
  | inl m => raise (mkExc JSONDecodeError m)
  end.

(** [get_valid_token]: nothing catches the exceptions of the call or of the
    decoding.  [None] is [JNull]. *)
Definition get_valid_token : PyM json :=
  response <- send login_request;;
  if resp_ok (status_code response) then
    j <- response_json response;;
    v <- py_get (PJson j) "token";;
    ret (match v with Some t => t | None => JNull end)
  else ret JNull.

(** [marketplace_endpoints], lines 74-159. *)
Definition marketplace_endpoints : list Marketplace.endpoint_spec :=
  [("/projects", "GET", "List all projects"); ("/projects", "POST", "Create new project");
   ("/projects/1", "GET", "Get specific project"); ("/projects/1", "PUT", "Update project");
   ("/projects/1", "DELETE", "Delete project");
   ("/leads", "POST", "Create new lead"); ("/leads/1", "GET", "Get specific lead");
   ("/leads/1", "PUT", "Update lead"); ("/leads/1/assign", "POST", "Assign lead to designer");
   ("/leads/1/convert", "POST", "Convert lead to project");
   ("/users", "GET", "List all users"); ("/users", "POST", "Create new user");
   ("/users/1", "GET", "Get specific user"); ("/users/1", "PUT", "Update user");
   ("/users/1", "DELETE", "Delete user");
   ("/materials", "GET", "List materials"); ("/materials", "POST", "Create material");
   ("/materials/categories", "GET", "Material categories");
   ("/materials/1", "GET", "Get specific material"); ("/materials/1", "PUT", "Update material");
   ("/vendors", "GET", "List vendors"); ("/vendors", "POST", "Create vendor");
   ("/vendors/1", "GET", "Get specific vendor"); ("/vendors/1", "PUT", "Update vendor");
   ("/vendors/1/materials", "GET", "Vendor materials");
   ("/wallet", "GET", "User wallet info"); ("/transactions", "GET", "Transaction history");
   ("/transactions", "POST", "Create transaction"); ("/payments", "GET", "Payment history");
   ("/payments", "POST", "Process payment");
   ("/files/upload", "POST", "Upload file"); ("/files", "GET", "List files");
   ("/files/1", "GET", "Get specific file"); ("/files/1", "DELETE", "Delete file");
   ("/messages", "GET", "List messages"); ("/messages", "POST", "Send message");
   ("/messages/1", "GET", "Get specific message"); ("/conversations", "GET", "List conversations");
   ("/conversations/1", "GET", "Get conversation");
   ("/notifications", "GET", "List notifications");
   ("/notifications/1", "PUT", "Mark notification as read");
   ("/notifications/mark-all-read", "POST", "Mark all as read");
   ("/analytics/leads", "GET", "Lead analytics"); ("/analytics/projects", "GET", "Project analytics");
   ("/analytics/revenue", "GET", "Revenue analytics"); ("/analytics/users", "GET", "User analytics");
   ("/analytics/export", "GET", "Export analytics");
   ("/settings", "GET", "Get settings"); ("/settings", "PUT", "Update settings");
   ("/settings/company", "GET", "Company settings");
   ("/settings/company", "PUT", "Update company settings");
   ("/search", "GET", "Global search"); ("/search/projects", "GET", "Search projects");
   ("/search/leads", "GET", "Search leads"); ("/search/users", "GET", "Search users");
   ("/reports", "GET", "List reports"); ("/reports/leads", "GET", "Lead reports");
   ("/reports/projects", "GET", "Project reports"); ("/reports/financial", "GET", "Financial reports")].

(** [keyword in path] *)
Definition py_in (sub s : string) : bool :=
  match String.index 0 sub s with Some _ => true | None => false end.

(** [critical_missing], lines 208-211. *)
Definition critical_missing (missing : list Marketplace.endpoint_spec) : list Marketplace.endpoint_spec :=
  filter (fun ep => existsb (fun keyword => py_in keyword (fst (fst ep)))
                            ["/projects"; "/materials"; "/vendors"; "/files"; "/messages"])
         missing.

(** What [main] reports (lines 60-226): [None] when no token was obtained,
    else the existing and missing endpoints, the coverage line and the
    critical missing endpoints. *)
Definition main : PyM (option (list (Marketplace.endpoint_spec * Marketplace.ep_result)
                               * list Marketplace.endpoint_spec * string
                               * list Marketplace.endpoint_spec)) :=
  token <- get_valid_token;;
  if negb (json_truthy token) then ret None else
  report <- Marketplace.scan_report marketplace_endpoints (py_str token);;
  ret (Some (fst (fst report), snd (fst report), snd report, critical_missing (snd (fst report)))).

End MarketplaceMain.

(** ** Concrete servers used by the examples below *)

(** A response with a JSON body. *)
Definition json_response (s : Z) (j : json) : response :=
  mkResponse s "{...}" (Some "application/json; charset=utf-8") "{...}" (inr j) [].

(** A server answering every request the same way. *)
Definition const_server (r : exc + response) : list request -> request -> exc + response :=
  fun _ _ => r.

Definition world0 (srv : list request -> request -> exc + response) : world :=
  mkWorld init_agg [] srv.

(** ** Notions used to state the properties *)

(** The [error] field [make_request] writes for a caught exception. *)
Definition transport_error_msg (e : exc) : string :=
  if is_timeout (exc_cls e) then "Request timeout"
  else if is_connection_error (exc_cls e) then "Connection error"
  else exc_msg e.

(** A server whose failures are all [Exception]s (every exception of
    [requests] is one). *)
Definition raises_only_exceptions (srv : list request -> request -> exc + response) : Prop :=
  forall calls r e, srv calls r = inl e -> is_exception (exc_cls e) = true.

(** [make_request] will call [response.json()] on this response. *)
Definition json_body_expected (r : response) : bool :=
  negb (String.eqb (content r) "") &&
  String.prefix "application/json" (match content_type r with Some c => c | None => "" end).

(** The [log_test] calls of a run, in order. *)
Fixpoint log_all (ops : list (string * bool * string)) : PyM unit :=
  match ops with
  | [] => ret tt
  | (name, ok, det) :: rest => log_test name ok det;;; log_all rest
  end.

Definition agg_inv (a : aggregate) : Prop := (passed a + failed a)%nat = length (details a).

(** Concrete servers for the examples. *)
Definition timeout_server : list request -> request -> exc + response :=
  const_server (inl (mkExc ReadTimeout "Read timed out."))%string.

(** A 200 answer announcing JSON whose body does not parse. *)
Definition broken_json_response : response :=
  mkResponse 200 "<html>oops</html>" (Some "application/json") "<html>oops</html>"
    (inl "Expecting value: line 1 column 1 (char 0)") [].

Definition SUPPORTED_METHODS : list string := ["GET"; "POST"; "PUT"; "DELETE"].

(** The request [make_request] sends for a method, if it sends one. *)
Definition method_request (method endpoint : string) (data : option json)
    (token : option string) (timeout : Z) : option request :=
  let headers := auth_headers token in
  let url := API_BASE ++ endpoint in
  if String.eqb (upper method) "GET" then Some (mkRequest "GET" url headers None timeout)
  else if String.eqb (upper method) "POST" then Some (mkRequest "POST" url headers data timeout)
  else if String.eqb (upper method) "PUT" then Some (mkRequest "PUT" url headers data timeout)
  else if String.eqb (upper method) "DELETE" then Some (mkRequest "DELETE" url headers None timeout)
  else None.

(** What [make_request_handler] does with an exception. *)
Definition handle (e : exc) : exc + outcome :=
  if is_timeout (exc_cls e) then inr (fail_outcome "Request timeout")
  else if is_connection_error (exc_cls e) then inr (fail_outcome "Connection error")
  else if is_exception (exc_cls e) then inr (fail_outcome (exc_msg e))
  else inl e.

(** The result of [make_request] once its call was answered with [ans]. *)
Definition outcome_of (ans : exc + response) : exc + outcome :=
  match ans with
  | inl e => handle e
  | inr r =>
      if json_body_expected r then
        match parsed r with
        | inr j => inr (mkOutcome (status_code r) (resp_ok (status_code r)) (Some (PJson j)) None
                                   (Some (resp_headers r)))
        | inl m => handle (mkExc JSONDecodeError m)
        end
      else inr (mkOutcome (status_code r) (resp_ok (status_code r)) (Some (PText (text r))) None
                          (Some (resp_headers r)))
  end.

Definition add_call (r : request) (w : world) : world :=
  mkWorld (w_agg w) (w_calls w ++ [r]) (w_server w).

(** The status a caller reads from the outcome of an answer. *)
Definition answer_status (ans : exc + response) : Z :=
  match outcome_of ans with inr o => o_status o | inl _ => 0 end.

(** A creation call that [requests] reports as not ok: a 4xx or 5xx status,
    or an exception. *)
Definition not_ok_answer (ans : exc + response) : Prop :=
  match ans with
  | inl e => is_exception (exc_cls e) = true
  | inr r => resp_ok (status_code r) = false
  end.

(** An ok creation answer whose JSON object has no (truthy) "id". *)
Definition ok_without_id (ans : exc + response) : Prop :=
  match ans with
  | inl _ => False
  | inr r =>
      resp_ok (status_code r) = true /\ json_body_expected r = true /\
      exists kvs, parsed r = inr (JObj kvs) /\ opt_truthy (dict_lookup "id" kvs) = false
  end.

Definition project_create_request (admin_token start_date end_date : string) : request :=
  mkRequest "POST" (API_BASE ++ "/projects") (auth_headers (Some admin_token))
            (Some (new_project start_date end_date)) TIMEOUT.

Definition lead_create_request (ts : Z) : request :=
  mkRequest "POST" (API_BASE ++ "/leads") (auth_headers None) (Some (new_lead ts)) TIMEOUT.

Definition focused_project_create_request (admin_token start_date end_date : string) : request :=
  mkRequest "POST" (API_BASE ++ "/projects") (auth_headers (Some admin_token))
            (Some (Focused.new_project start_date end_date)) TIMEOUT.

Definition focused_lead_create_request (ts : Z) : request :=
  mkRequest "POST" (API_BASE ++ "/leads") (auth_headers None) (Some (Focused.new_lead ts)) TIMEOUT.

Definition probe_request : request :=
  mkRequest "GET" (API_BASE ++ "/users/profile") (auth_headers (Some "invalid-token-123")) None TIMEOUT.

(** Following the spec's words: the success rate truncated to one decimal
    place (0 when no test ran). *)
Definition spec_success_rate_truncated (a : aggregate) : Q :=
  let total := (passed a + failed a)%nat in
  if (0 <? total)%nat then (Z.of_nat (passed a) * 1000 / Z.of_nat total) # 10 else 0.

(** A run of 19 passing checks followed by the forged-token probe. *)
Definition checks_then_probe : PyM unit :=
  log_all (repeat ("Check", true, "") 19);;; invalid_token_probe.

(** A server accepting every request with a 200 JSON answer. *)
Definition server_200 : list request -> request -> exc + response :=
  const_server (inr (json_response 200 (JObj [("id", JNum 1); ("email", JStr "admin@gharinto.com")]))).

(** Every call to [endpoint] with [method] is answered with status [s]. *)
Definition answers_with (srv : list request -> request -> exc + response)
    (endpoint method : string) (s : Z) : Prop :=
  forall calls r, req_url r = API_BASE ++ endpoint -> req_method r = method ->
    exists resp, srv calls r = inr resp /\ status_code resp = s.


Definition server_500 : list request -> request -> exc + response :=
  const_server (inr (json_response 500 (JObj [("error", JStr "Internal server error")]))).

Definition server_201_no_id : list request -> request -> exc + response :=
  const_server (inr (json_response 201 (JObj [("message", JStr "Lead received")]))).


(** Concrete servers and clocks for the properties of the suites. *)

Definition token_server : list request -> request -> exc + response :=
  const_server (inr (json_response 200 (JObj [("token", JStr "abc")]))).

Definition html_server : list request -> request -> exc + response :=
  const_server (inr (mkResponse 200 "<html></html>" (Some "text/html") "<html></html>"
    (inl "Expecting value: line 1 column 1 (char 0)") [])).

Definition suites_clock : Suites.clock :=
  Suites.mkClock 1760572800 1760572801 "2026-10-16" "2027-01-14" 1760572802 "2026-11-15" "2026-10-16".

Definition focused_clock : FocusedRun.clock :=
  FocusedRun.mkClock "2026-10-16" "2027-01-14" 1760572800 "2026-11-15" "2026-10-16".

(** ** Notions used to state the properties of the suites *)

(** A program whose raised exceptions are all [Exception]s when the server's
    are, and which leaves the server as it is. *)
Definition exc_safe {A} (m : PyM A) : Prop :=
  forall w, raises_only_exceptions (w_server w) ->
    w_server (snd (m w)) = w_server w /\
    (forall e, fst (m w) = inl e -> is_exception (exc_cls e) = true).

(** A server that cannot be reached: every call raises an [Exception]. *)
Definition offline (srv : list request -> request -> exc + response) : Prop :=
  forall calls r, exists e, srv calls r = inl e /\ is_exception (exc_cls e) = true.

(** With server [srv], [m] run on a tester holding [a] returns normally
    with a value satisfying [P], leaves [a'] and issues [n] calls. *)
Definition runs {A} (srv : list request -> request -> exc + response) (m : PyM A)
    (a a' : aggregate) (n : nat) (P : A -> Prop) : Prop :=
  forall w, w_server w = srv -> w_agg w = a ->
    exists x w', m w = (inr x, w') /\ w_server w' = srv /\ w_agg w' = a' /\
                 length (w_calls w') = (length (w_calls w) + n)%nat /\ P x.

(** For every server raising only [Exception]s, [m] returns normally after
    issuing [c] calls and recording [r] results. *)
Definition counts {A} (m : PyM A) (c r : nat) : Prop :=
  forall w, raises_only_exceptions (w_server w) ->
    exists x w', m w = (inr x, w') /\ w_server w' = w_server w /\
      length (w_calls w') = (length (w_calls w) + c)%nat /\
      length (details (w_agg w')) = (length (details (w_agg w)) + r)%nat.

(** The names of the recorded results. *)
Definition names_of (w : world) : list string := map tr_name (details (w_agg w)).

(** Whenever [m] returns normally, it has recorded results named [ns]. *)
Definition appends {A} (m : PyM A) (ns : list string) : Prop :=
  forall w x w', m w = (inr x, w') -> names_of w' = app (names_of w) ns.

(** A method [make_request] dispatches on. *)
Definition is_supported (method : string) : bool :=
  existsb (String.eqb (upper method)) SUPPORTED_METHODS.

(** The elements of [l] whose flag is [true]. *)
Fixpoint select {A} (flags : list bool) (l : list A) : list A :=
  match flags, l with
  | b :: fs, x :: r => if b then x :: select fs r else select fs r
  | _, _ => []
  end.

(** The results of a backend_test.py run against an unreachable server. *)
Definition offline_results : list test_result :=
  [mkResult "System Health Check" false "Status: 0, Response: N/A";
   mkResult "Database Health Check" false "Status: 0";
   mkResult "User Registration" false "Status: 0";
   mkResult "Login admin" false "Status: 0, Error: Unknown";
   mkResult "Login superadmin" false "Status: 0, Error: Unknown";
   mkResult "Login customer" false "Status: 0, Error: Unknown";
   mkResult "Login designer" false "Status: 0, Error: Unknown";
   mkResult "Login vendor" false "Status: 0, Error: Unknown";
   mkResult "Login pm" false "Status: 0, Error: Unknown";
   mkResult "Login finance" false "Status: 0, Error: Unknown";
   mkResult "Invalid Login Rejection" false "Status: 0";
   mkResult "Forgot Password" false "Status: 0";
   mkResult "Unauthorized Access Blocked" false "Status: 0";
   mkResult "Invalid Token Rejected" false "Status: 0";
   mkResult "SQL Injection Blocked" true "Status: 0";
   mkResult "404 Error Handling" false "Status: 0"].

(** The first call of backend_test.py. *)
Definition health_request : request :=
  mkRequest "GET" (API_BASE ++ "/health") (auth_headers None) None TIMEOUT.

(** The admin login, first call of focused_backend_test.py. *)
Definition focused_admin_login_request : request :=
  mkRequest "POST" (API_BASE ++ "/auth/login") (auth_headers None)
            (Some (credentials "admin@gharinto.com" "admin123")) TIMEOUT.

(** The login call of backend_test_focused.py. *)
Definition btf_login_request : request :=
  mkRequest "POST" (API_BASE ++ "/auth/login") (auth_headers None)
            (Some (credentials "admin@gharinto.com" "admin123")) 10.

(** The names of the six results of [test_critical_failing_endpoints]. *)
Definition critical_names : list string :=
  ["Update Project (PUT /projects/:id)"; "Update Lead (PUT /leads/:id)";
   "Get User Wallet (GET /wallet)"; "Create Quotation (POST /quotations)";
   "Get Employees List (GET /employees)";
   "Mark Employee Attendance (POST /employees/attendance)"].

(** Every call to [endpoint] raises [e]. *)
Definition fails_with (srv : list request -> request -> exc + response)
    (endpoint : string) (e : exc) : Prop :=
  forall calls r, req_url r = API_BASE ++ endpoint -> srv calls r = inl e.

(** The message Python gives when [test_endpoint] reads [response] unbound. *)
Definition unbound_response_msg : string :=
  "cannot access local variable 'response' where it is not associated with a value".

(** A method [test_endpoint] dispatches on (compared as written). *)
Definition marketplace_method (method : string) : bool :=
  existsb (String.eqb method) SUPPORTED_METHODS.

(** The number of calls a [with_token] block issues: [n] for a truthy
    token, none otherwise. *)
Definition token_count (tok : option json) (n : nat) : nat := if opt_truthy tok then n else 0.

(** * Properties *)

Lemma handler_exception e w :
  is_exception (exc_cls e) = true ->
  make_request_handler e w = (inr (fail_outcome (transport_error_msg e)), w).
Proof.
  intros H. unfold make_request_handler, transport_error_msg.
  destruct (is_timeout (exc_cls e)); [reflexivity|].
  destruct (is_connection_error (exc_cls e)); [reflexivity|].
  rewrite H. reflexivity.
Qed.

Lemma handler_world e w : snd (make_request_handler e w) = w.
Proof.
  unfold make_request_handler.
  destruct (is_timeout (exc_cls e)); [reflexivity|].
  destruct (is_connection_error (exc_cls e)); [reflexivity|].
  destruct (is_exception (exc_cls e)); reflexivity.
Qed.

Lemma record_inv a name ok det : agg_inv a -> agg_inv (record a name ok det).
Proof.
  unfold agg_inv, record. destruct ok; simpl; rewrite length_app; simpl; lia.
Qed.

Lemma log_all_inv ops w :
  agg_inv (w_agg w) -> agg_inv (w_agg (snd (log_all ops w))) /\ fst (log_all ops w) = inr tt.
Proof.
  revert w. induction ops as [|[[name ok] det] rest IH]; intros w Hw.
  - split; [exact Hw | reflexivity].
  - simpl. unfold bind, log_test. simpl. apply IH. simpl. apply record_inv, Hw.
Qed.

(** C3: from a fresh tester, every sequence of [log_test] calls keeps
    passed + failed equal to the number of recorded results; one call
    appends exactly one result and bumps exactly one counter. *)
Theorem log_test_count_invariant :
  (forall srv ops, agg_inv (w_agg (snd (log_all ops (world0 srv))))) /\
  (forall w name ok det,
     agg_inv (w_agg w) -> agg_inv (w_agg (snd (log_test name ok det w)))) /\
  (forall w name ok det,
     let a := w_agg w in
     let a' := w_agg (snd (log_test name ok det w)) in
     fst (log_test name ok det w) = inr tt /\
     details a' = (details a ++ [mkResult name ok det])%list /\
     (if ok then passed a' = S (passed a) /\ failed a' = failed a
      else passed a' = passed a /\ failed a' = S (failed a))).
Proof.
  split; [|split].
  - intros srv ops. apply log_all_inv. reflexivity.
  - intros w name ok det Hw. apply record_inv, Hw.
  - intros w name ok det. simpl. split; [reflexivity|].
    destruct ok; simpl; auto.
Qed.

Lemma app_inj_last_req (l : list request) (r r' : request) :
  (l ++ [r])%list = (l ++ [r'])%list -> r = r'.
Proof. intros H. apply app_inv_head in H. congruence. Qed.

(** The four cases of the method dispatch of [make_request], after the call
    to the server. *)
Ltac dispatch_cases :=
  unfold make_request, try_except, bind, send, ret, raise;
  repeat match goal with
         | |- context [if String.eqb ?a ?b then _ else _] => destruct (String.eqb a b) eqn:?
         end.

(** C2: [make_request] never raises for a server whose failures are
    exceptions; when the call it issued failed, the outcome is the failure
    dict: status 0, ok false and the message in "error". *)
Theorem make_request_never_raises w method endpoint data token timeout
    (Hsrv : raises_only_exceptions (w_server w)) :
  exists o,
    fst (make_request method endpoint data token timeout w) = inr o /\
    (forall r e,
       w_calls (snd (make_request method endpoint data token timeout w)) = (w_calls w ++ [r])%list ->
       w_server w (w_calls w) r = inl e ->
       o = fail_outcome (transport_error_msg e)).
Proof.
  dispatch_cases.
  all: try (eexists; split; [reflexivity|];
            intros r e Hc; simpl in Hc; rewrite <- app_nil_r in Hc at 1;
            apply app_inv_head in Hc; discriminate).
  all: match goal with
       | |- context [w_server ?W (w_calls ?W) ?R] =>
           destruct (w_server W (w_calls W) R) as [e0|resp] eqn:ES
       end.
  all: try (cbn -[make_request_handler API_BASE String.append auth_headers];
            rewrite handler_exception by (eapply Hsrv; exact ES);
            eexists; split; [reflexivity|];
            intros r e Hc He; apply app_inj_last_req in Hc; subst r;
            pose proof (eq_trans (eq_sym ES) He) as X; congruence).
  all: unfold decode_body, ret, raise; cbn -[make_request_handler API_BASE String.append auth_headers];
       destruct (_ && _); [destruct (parsed resp)|]; simpl;
       eexists; split; try reflexivity;
       intros r e Hc He; apply app_inj_last_req in Hc; subst r;
       pose proof (eq_trans (eq_sym ES) He) as X; discriminate X.
Qed.

Lemma timeout_server_exceptions : raises_only_exceptions timeout_server.
Proof. intros calls r e H. unfold timeout_server, const_server in H. injection H as <-. reflexivity. Qed.

Lemma make_request_never_raises_witness :
  raises_only_exceptions timeout_server /\
  exists o, fst (make_request "GET" "/health" None None TIMEOUT (world0 timeout_server)) = inr o.
Proof.
  split; [exact timeout_server_exceptions|].
  destruct (make_request_never_raises (world0 timeout_server) "GET" "/health" None None TIMEOUT
              timeout_server_exceptions) as [o [Ho _]].
  exists o. exact Ho.
Defined.

(** C10, counterexample: the dispatch compares [method.upper()], so the
    method string "get", outside {GET, POST, PUT, DELETE}, is sent as a GET
    and the real status comes back. *)
Lemma make_request_lowercase_method_sent :
  ~ In "get" SUPPORTED_METHODS /\
  fst (make_request "get" "/health" None None TIMEOUT
         (world0 (const_server (inr (json_response 200 (JObj [("status", JStr "ok")]))))))
  = inr (mkOutcome 200 true (Some (PJson (JObj [("status", JStr "ok")]))) None (Some [])).
Proof.
  split.
  - simpl. intros [H|[H|[H|[H|[]]]]]; discriminate H.
  - vm_compute. reflexivity.
Qed.

(** C10, as the code does it: for a method whose upper-cased form is none of
    GET, POST, PUT, DELETE, [make_request] of backend_test.py issues no call
    and returns the failure dict with status 0, ok false and "Unsupported
    method: <method>" as error; [make_request] of backend_test_focused.py does
    the same for every method whose upper-cased form is none of GET, POST,
    PUT, so DELETE included. *)
Theorem make_request_unsupported_method w method endpoint data token timeout :
  (~ In (upper method) SUPPORTED_METHODS ->
   make_request method endpoint data token timeout w
     = (inr (fail_outcome ("Unsupported method: " ++ method)), w)) /\
  (~ In (upper method) ["GET"; "POST"; "PUT"] ->
   BackendTestFocused.make_request method endpoint data token w
     = (inr (fail_outcome ("Unsupported method: " ++ method)), w)).
Proof.
  split; intros H.
  all: assert (HG : String.eqb (upper method) "GET" = false)
         by (apply String.eqb_neq; intros E; apply H; rewrite E; simpl; auto).
  all: assert (HP : String.eqb (upper method) "POST" = false)
         by (apply String.eqb_neq; intros E; apply H; rewrite E; simpl; auto).
  all: assert (HU : String.eqb (upper method) "PUT" = false)
         by (apply String.eqb_neq; intros E; apply H; rewrite E; simpl; auto).
  - assert (HD : String.eqb (upper method) "DELETE" = false)
      by (apply String.eqb_neq; intros E; apply H; rewrite E; simpl; auto).
    unfold make_request, try_except, bind, raise.
    rewrite HG, HP, HU, HD. reflexivity.
  - unfold BackendTestFocused.make_request, try_except, bind, raise.
    rewrite HG, HP, HU. reflexivity.
Qed.

Lemma make_request_unsupported_method_witness :
  ~ In (upper "PATCH") SUPPORTED_METHODS /\
  make_request "PATCH" "/projects/1" None None TIMEOUT (world0 timeout_server)
    = (inr (fail_outcome ("Unsupported method: " ++ "PATCH")), world0 timeout_server) /\
  ~ In (upper "delete") ["GET"; "POST"; "PUT"] /\
  BackendTestFocused.make_request "delete" "/projects/1" None None (world0 timeout_server)
    = (inr (fail_outcome ("Unsupported method: " ++ "delete")), world0 timeout_server).
Proof.
  assert (H1 : ~ In (upper "PATCH") SUPPORTED_METHODS)
    by (simpl; intros [E|[E|[E|[E|[]]]]]; discriminate E).
  assert (H2 : ~ In (upper "delete") ["GET"; "POST"; "PUT"])
    by (simpl; intros [E|[E|[E|[]]]]; discriminate E).
  split; [exact H1|]. split.
  - exact (proj1 (make_request_unsupported_method (world0 timeout_server) "PATCH" "/projects/1"
                    None None TIMEOUT) H1).
  - split; [exact H2|].
    exact (proj2 (make_request_unsupported_method (world0 timeout_server) "delete" "/projects/1"
                    None None TIMEOUT) H2).
Defined.

(** C4, counterexample: a 200 answer announcing JSON with a body that does
    not parse comes back as the failure dict with status 0, not as the raw
    text with status 200. *)
Lemma make_request_bad_json_is_failure :
  fst (make_request "GET" "/health" None None TIMEOUT
         (world0 (const_server (inr broken_json_response))))
  = inr (fail_outcome "Expecting value: line 1 column 1 (char 0)").
Proof. vm_compute. reflexivity. Qed.

(** C4, as the code does it: once the issued call answered [resp], a body
    announced as JSON that does not parse makes [make_request] return the
    failure dict (status 0, ok false, the decoder's message as error); the
    raw text with the real status is returned only when the body is empty or
    the content type is not JSON. *)
Theorem make_request_decode w method endpoint data token timeout r resp
    (Hc : w_calls (snd (make_request method endpoint data token timeout w)) = (w_calls w ++ [r])%list)
    (Hs : w_server w (w_calls w) r = inr resp) :
  (forall m, json_body_expected resp = true -> parsed resp = inl m ->
     fst (make_request method endpoint data token timeout w) = inr (fail_outcome m)) /\
  (json_body_expected resp = false ->
     fst (make_request method endpoint data token timeout w)
       = inr (mkOutcome (status_code resp) (resp_ok (status_code resp)) (Some (PText (text resp)))
                        None (Some (resp_headers resp)))).
Proof.
  revert Hc. dispatch_cases.
  all: try (intros Hc; exfalso; simpl in Hc; rewrite <- app_nil_r in Hc at 1;
            apply app_inv_head in Hc; discriminate).
  all: match goal with
       | |- context [w_server ?W (w_calls ?W) ?R] =>
           destruct (w_server W (w_calls W) R) as [e0|resp0] eqn:ES
       end.
  all: unfold decode_body, ret, raise;
       cbn -[make_request_handler API_BASE String.append auth_headers];
       try (destruct (_ && _) eqn:EJ; [destruct (parsed resp0) eqn:EP|]);
       cbn -[make_request_handler API_BASE String.append auth_headers]; intros Hc;
       try rewrite handler_world in Hc; apply app_inj_last_req in Hc; subst r;
       pose proof (eq_trans (eq_sym ES) Hs) as X; try discriminate X;
       injection X as <-.
  all: unfold json_body_expected; rewrite EJ; try rewrite EP;
       split; [intros m0 Hj Hp| intros Hj]; try discriminate Hj; try discriminate Hp;
       try (injection Hp as ->); reflexivity.
Qed.

Lemma make_request_decode_witness :
  w_calls (snd (make_request "GET" "/health" None None TIMEOUT
                  (world0 (const_server (inr broken_json_response)))))
    = (w_calls (world0 (const_server (inr broken_json_response)))
       ++ [mkRequest "GET" (API_BASE ++ "/health") (auth_headers None) None TIMEOUT])%list /\
  w_server (world0 (const_server (inr broken_json_response)))
           (w_calls (world0 (const_server (inr broken_json_response))))
           (mkRequest "GET" (API_BASE ++ "/health") (auth_headers None) None TIMEOUT)
    = inr broken_json_response /\
  fst (make_request "GET" "/health" None None TIMEOUT
         (world0 (const_server (inr broken_json_response))))
    = inr (fail_outcome "Expecting value: line 1 column 1 (char 0)").
Proof.
  assert (Hc : w_calls (snd (make_request "GET" "/health" None None TIMEOUT
                               (world0 (const_server (inr broken_json_response)))))
                 = (w_calls (world0 (const_server (inr broken_json_response)))
                    ++ [mkRequest "GET" (API_BASE ++ "/health") (auth_headers None) None TIMEOUT])%list)
    by reflexivity.
  assert (Hs : w_server (world0 (const_server (inr broken_json_response)))
                 (w_calls (world0 (const_server (inr broken_json_response))))
                 (mkRequest "GET" (API_BASE ++ "/health") (auth_headers None) None TIMEOUT)
               = inr broken_json_response) by reflexivity.
  split; [exact Hc|]. split; [exact Hs|].
  apply (proj1 (make_request_decode _ _ _ _ _ _ _ _ Hc Hs)); reflexivity.
Defined.

Lemma handler_handle e w : make_request_handler e w = (handle e, w).
Proof.
  unfold make_request_handler, handle.
  destruct (is_timeout (exc_cls e)); [reflexivity|].
  destruct (is_connection_error (exc_cls e)); [reflexivity|].
  destruct (is_exception (exc_cls e)); reflexivity.
Qed.

(** [make_request] is the dispatch followed by one call and the reading of
    its answer. *)
Lemma make_request_eval method endpoint data token timeout w :
  make_request method endpoint data token timeout w =
  match method_request method endpoint data token timeout with
  | Some req => (outcome_of (w_server w (w_calls w) req), add_call req w)
  | None => (inr (fail_outcome ("Unsupported method: " ++ method)), w)
  end.
Proof.
  unfold method_request. dispatch_cases; try reflexivity.
  all: match goal with
       | |- context [w_server ?W (w_calls ?W) ?R] =>
           destruct (w_server W (w_calls W) R) as [e0|resp0] eqn:ES
       end.
  all: unfold decode_body, outcome_of, json_body_expected, ret, raise;
       cbn -[make_request_handler API_BASE String.append auth_headers handle];
       try rewrite handler_handle; try reflexivity.
  all: destruct (_ && _); [destruct (parsed resp0)|]; cbn -[make_request_handler handle];
       try rewrite handler_handle; reflexivity.
Qed.

Lemma outcome_of_exception ans :
  (forall e, ans = inl e -> is_exception (exc_cls e) = true) ->
  exists o, outcome_of ans = inr o.
Proof.
  intros H. destruct ans as [e|r]; simpl.
  - specialize (H e eq_refl). unfold handle. rewrite H.
    destruct (is_timeout _); [eauto|]. destruct (is_connection_error _); eauto.
  - destruct (json_body_expected r); [destruct (parsed r)|]; unfold handle; simpl; eauto.
Qed.

Lemma outcome_of_ok ans o :
  outcome_of ans = inr o -> o_ok o = resp_ok (o_status o) \/ o_ok o = false.
Proof.
  destruct ans as [e|r]; simpl.
  - unfold handle. destruct (is_timeout _); [intros H; injection H as <-; auto|].
    destruct (is_connection_error _); [intros H; injection H as <-; auto|].
    destruct (is_exception _); [intros H; injection H as <-; auto|discriminate].
  - destruct (json_body_expected r); [destruct (parsed r)|]; unfold handle; simpl;
      intros H; injection H as <-; auto.
Qed.

(** C6, counterexample: a 401 answer to the forged token, a rejection, is
    recorded as a failed "Invalid Token Rejected" test. *)
Lemma invalid_token_probe_401_fails :
  details (w_agg (snd (invalid_token_probe
     (world0 (const_server (inr (json_response 401 (JObj [("error", JStr "Invalid token")]))))))))
  = [mkResult "Invalid Token Rejected" false "Status: 401"].
Proof. vm_compute. reflexivity. Qed.

(** C6, as the code does it: the forged-token probe issues its one call and
    records one "Invalid Token Rejected" result, passed exactly when the
    status read back is 403; any other status (a 2xx, a 401, or the 0 of a
    transport failure) is a failed test, and nothing else is recorded. *)
Theorem invalid_token_probe_403_only w
    (H : forall e, w_server w (w_calls w) probe_request = inl e -> is_exception (exc_cls e) = true) :
  invalid_token_probe w =
  (inr tt,
   set_agg (record (w_agg w) "Invalid Token Rejected"
              (answer_status (w_server w (w_calls w) probe_request) =? 403)
              ("Status: " ++ zstr (answer_status (w_server w (w_calls w) probe_request))))
           (add_call probe_request w)).
Proof.
  unfold invalid_token_probe, bind. rewrite make_request_eval.
  change (method_request "GET" "/users/profile" None (Some "invalid-token-123") TIMEOUT)
    with (Some probe_request).
  destruct (outcome_of_exception (w_server w (w_calls w) probe_request) H) as [o Ho].
  unfold answer_status. rewrite Ho. unfold log_test, status_details. simpl.
  destruct (outcome_of_ok _ _ Ho) as [Hok|Hok].
  - destruct (Z.eqb_spec (o_status o) 403) as [E|E].
    + rewrite Hok, E. reflexivity.
    + rewrite andb_false_r. reflexivity.
  - rewrite Hok. reflexivity.
Qed.

Lemma invalid_token_probe_403_only_witness :
  (forall e, w_server (world0 timeout_server) [] probe_request = inl e ->
             is_exception (exc_cls e) = true) /\
  invalid_token_probe (world0 timeout_server) =
  (inr tt,
   set_agg (record init_agg "Invalid Token Rejected"
              (answer_status (w_server (world0 timeout_server) [] probe_request) =? 403)
              ("Status: " ++ zstr (answer_status (w_server (world0 timeout_server) [] probe_request))))
           (add_call probe_request (world0 timeout_server))).
Proof.
  assert (H : forall e, w_server (world0 timeout_server) (w_calls (world0 timeout_server)) probe_request
                        = inl e -> is_exception (exc_cls e) = true)
    by (intros e; apply timeout_server_exceptions).
  split; [exact H|].
  exact (invalid_token_probe_403_only (world0 timeout_server) H).
Defined.

Lemma not_ok_outcome ans :
  not_ok_answer ans -> exists o, outcome_of ans = inr o /\ o_ok o = false.
Proof.
  intros H. destruct (outcome_of_exception ans) as [o Ho].
  - intros e ->. exact H.
  - exists o. split; [exact Ho|].
    destruct (outcome_of_ok _ _ Ho) as [Hok|Hok]; [|exact Hok].
    destruct ans as [e|r]; simpl in Ho.
    + unfold handle in Ho. rewrite H in Ho.
      destruct (is_timeout _); [injection Ho as <-; reflexivity|].
      destruct (is_connection_error _); injection Ho as <-; reflexivity.
    + simpl in H. destruct (json_body_expected r); [destruct (parsed r)|];
        unfold handle in Ho; simpl in Ho; injection Ho as <-; simpl; auto.
Qed.

(** The chain's creation call, the condition of its [if] being false. *)
Ltac chain_create_not_ok H req :=
  unfold bind; rewrite make_request_eval;
  match goal with
  | |- context [method_request ?m ?ep ?d ?t ?tm] =>
      change (method_request m ep d t tm) with (Some req)
  end;
  destruct (not_ok_outcome _ H) as [o [Ho Hok]];
  unfold answer_status; rewrite Ho; cbn [fst snd];
  unfold log_test, created_with_id; rewrite Hok; reflexivity.

(** C8, counterexample: a 300 answer (no Location header, so [requests]
    does not follow it) is not 2xx, but [response.ok] holds for it, so the
    project chain goes on with the detail fetch and the update. *)
Lemma project_chain_continues_after_300 :
  ~ (200 <= 300 < 300) /\
  length (w_calls (snd (project_chain "tok" "2026-10-16" "2027-01-14"
            (world0 (const_server (inr (json_response 300 (JObj [("id", JNum 7)])))))))) = 3%nat.
Proof. split; [lia | vm_compute; reflexivity]. Qed.

(** C8, as the code does it: when the creation call is not ok (a 4xx or 5xx
    status, or a transport failure), each chain issues no call after the
    creation and records exactly one failed result: "Create Project" /
    "Create Lead (Public)" in backend_test.py; in focused_backend_test.py the
    result is filed under the update step's name and reports the failed
    creation. *)
Theorem create_not_ok_stops_chain :
  (forall w tok sd ed,
     not_ok_answer (w_server w (w_calls w) (project_create_request tok sd ed)) ->
     project_chain tok sd ed w =
     (inr tt, set_agg (record (w_agg w) "Create Project" false
                 ("Status: " ++ zstr (answer_status (w_server w (w_calls w)
                                                      (project_create_request tok sd ed)))))
                      (add_call (project_create_request tok sd ed) w))) /\
  (forall w tok ts,
     not_ok_answer (w_server w (w_calls w) (lead_create_request ts)) ->
     lead_chain tok ts w =
     (inr tt, set_agg (record (w_agg w) "Create Lead (Public)" false
                 ("Status: " ++ zstr (answer_status (w_server w (w_calls w) (lead_create_request ts)))))
                      (add_call (lead_create_request ts) w))) /\
  (forall dumps2 w tok sd ed,
     not_ok_answer (w_server w (w_calls w) (focused_project_create_request tok sd ed)) ->
     Focused.project_chain dumps2 tok sd ed w =
     (inr tt, set_agg (record (w_agg w) "Update Project (PUT /projects/:id)" false
                 ("Failed to create test project: Status " ++
                  zstr (answer_status (w_server w (w_calls w) (focused_project_create_request tok sd ed)))))
                      (add_call (focused_project_create_request tok sd ed) w))) /\
  (forall dumps2 w tok ts,
     not_ok_answer (w_server w (w_calls w) (focused_lead_create_request ts)) ->
     Focused.lead_chain dumps2 tok ts w =
     (inr tt, set_agg (record (w_agg w) "Update Lead (PUT /leads/:id)" false
                 ("Failed to create test lead: Status " ++
                  zstr (answer_status (w_server w (w_calls w) (focused_lead_create_request ts)))))
                      (add_call (focused_lead_create_request ts) w))).
Proof.
  split; [|split; [|split]].
  - intros w tok sd ed H. unfold project_chain.
    chain_create_not_ok H (project_create_request tok sd ed).
  - intros w tok ts H. unfold lead_chain.
    chain_create_not_ok H (lead_create_request ts).
  - intros dumps2 w tok sd ed H. unfold Focused.project_chain.
    chain_create_not_ok H (focused_project_create_request tok sd ed).
  - intros dumps2 w tok ts H. unfold Focused.lead_chain.
    chain_create_not_ok H (focused_lead_create_request ts).
Qed.

Lemma create_not_ok_stops_chain_witness :
  not_ok_answer (server_500 [] (project_create_request "tok" "2026-10-16" "2027-01-14")) /\
  project_chain "tok" "2026-10-16" "2027-01-14" (world0 server_500) =
  (inr tt, set_agg (record init_agg "Create Project" false
              ("Status: " ++ zstr (answer_status (server_500 []
                                     (project_create_request "tok" "2026-10-16" "2027-01-14")))))
                   (add_call (project_create_request "tok" "2026-10-16" "2027-01-14") (world0 server_500))).
Proof.
  assert (H : not_ok_answer (server_500 [] (project_create_request "tok" "2026-10-16" "2027-01-14")))
    by reflexivity.
  split; [exact H|].
  exact (proj1 create_not_ok_stops_chain (world0 server_500) "tok" "2026-10-16" "2027-01-14" H).
Defined.

Lemma ok_without_id_outcome ans :
  ok_without_id ans ->
  exists o kvs, outcome_of ans = inr o /\ o_ok o = true /\ o_data o = Some (PJson (JObj kvs)) /\
                opt_truthy (dict_lookup "id" kvs) = false.
Proof.
  destruct ans as [e|r]; simpl; [intros []|].
  intros [Hok [Hj [kvs [Hp Hid]]]].
  rewrite Hj, Hp. eexists; exists kvs. simpl. auto.
Qed.

Ltac chain_create_without_id H req :=
  unfold bind; rewrite make_request_eval;
  match goal with
  | |- context [method_request ?m ?ep ?d ?t ?tm] =>
      change (method_request m ep d t tm) with (Some req)
  end;
  destruct (ok_without_id_outcome _ H) as [o [kvs [Ho [Hok [Hd Hid]]]]];
  unfold answer_status; rewrite Ho; cbn [fst snd];
  unfold log_test, created_with_id, get_data, py_get, bind, ret;
  rewrite Hok, Hd; cbn [fst snd w_agg]; rewrite Hid; reflexivity.

(** C5, counterexample: a 201 answer whose JSON body has no "id" ends the
    project chain after the creation with the creation's result alone; no
    failed result stands for the skipped detail fetch and update. *)
Lemma project_chain_without_id_records_nothing_more :
  let w' := snd (project_chain "tok" "2026-10-16" "2027-01-14"
                   (world0 (const_server (inr (json_response 201
                                                 (JObj [("title", JStr "API Test Project")])))))) in
  details (w_agg w') = [mkResult "Create Project" true "Status: 201"] /\
  length (w_calls w') = 1%nat.
Proof. vm_compute. split; reflexivity. Qed.

(** C5, as the code does it: when the creation call of a backend_test.py
    chain is ok but its JSON object carries no truthy "id", the chain issues
    no further call and records nothing besides the passed creation result:
    the skipped steps leave no result. *)
Theorem create_without_id_skips_silently :
  (forall w tok sd ed,
     ok_without_id (w_server w (w_calls w) (project_create_request tok sd ed)) ->
     project_chain tok sd ed w =
     (inr tt, set_agg (record (w_agg w) "Create Project" true
                 ("Status: " ++ zstr (answer_status (w_server w (w_calls w)
                                                      (project_create_request tok sd ed)))))
                      (add_call (project_create_request tok sd ed) w))) /\
  (forall w tok ts,
     ok_without_id (w_server w (w_calls w) (lead_create_request ts)) ->
     lead_chain tok ts w =
     (inr tt, set_agg (record (w_agg w) "Create Lead (Public)" true
                 ("Status: " ++ zstr (answer_status (w_server w (w_calls w) (lead_create_request ts)))))
                      (add_call (lead_create_request ts) w))).
Proof.
  split.
  - intros w tok sd ed H. unfold project_chain.
    chain_create_without_id H (project_create_request tok sd ed).
  - intros w tok ts H. unfold lead_chain.
    chain_create_without_id H (lead_create_request ts).
Qed.

Lemma create_without_id_skips_silently_witness :
  ok_without_id (server_201_no_id [] (lead_create_request 1760572800)) /\
  lead_chain "tok" 1760572800 (world0 server_201_no_id) =
  (inr tt, set_agg (record init_agg "Create Lead (Public)" true
              ("Status: " ++ zstr (answer_status (server_201_no_id [] (lead_create_request 1760572800)))))
                   (add_call (lead_create_request 1760572800) (world0 server_201_no_id))).
Proof.
  assert (H : ok_without_id (server_201_no_id [] (lead_create_request 1760572800))).
  { simpl. split; [reflexivity|]. split; [reflexivity|].
    eexists; split; reflexivity. }
  split; [exact H|].
  exact (proj2 create_without_id_skips_silently (world0 server_201_no_id) "tok" 1760572800 H).
Defined.

Lemma Zpos_of_nat n : (0 < n)%nat -> Zpos (Pos.of_nat n) = Z.of_nat n.
Proof.
  intros H. rewrite <- positive_nat_Z. rewrite Nat2Pos.id; [reflexivity|lia].
Qed.

Lemma success_rate_ge_85 a :
  Qle_bool 85 (success_rate a) = true <->
  (0 < passed a + failed a)%nat /\
  85 * Z.of_nat (passed a + failed a) <= 100 * Z.of_nat (passed a).
Proof.
  unfold success_rate.
  destruct (Nat.ltb_spec 0 (passed a + failed a)) as [Ht|Ht].
  - rewrite Qle_bool_iff. unfold Qle, Qmult. cbn [Qnum Qden].
    rewrite Pos2Z.inj_mul, Zpos_of_nat by exact Ht.
    split; [intros H; split; [exact Ht|lia]|lia].
  - split; [intros H; discriminate H|lia].
Qed.

(** C1, counterexample: in a run where the forged token is accepted with a
    200, the probe's failure is one failed test out of 20, the success rate
    is 95% and the process exits with 0. *)
Lemma forged_token_accepted_exit_zero :
  answer_status (server_200 [] probe_request) = 200 /\
  last (details (w_agg (snd (checks_then_probe (world0 server_200))))) (mkResult "" true "")
    = mkResult "Invalid Token Rejected" false "Status: 200" /\
  main_exit_code checks_then_probe server_200 = 0.
Proof. vm_compute. split; [reflexivity|split; reflexivity]. Qed.

(** C1, as the code does it: [main] exits with 0 exactly when the suites run
    to completion without raising and the (unrounded) success rate is at
    least 85%, that is at least one test ran and 100 * passed >= 85 * total;
    no vulnerability set takes part in the verdict. *)
Theorem main_exit_code_zero_iff suites srv :
  main_exit_code suites srv = 0 <->
  exists w', suites (world0 srv) = (inr tt, w') /\
             (0 < passed (w_agg w') + failed (w_agg w'))%nat /\
             85 * Z.of_nat (passed (w_agg w') + failed (w_agg w'))
               <= 100 * Z.of_nat (passed (w_agg w')).
Proof.
  unfold main_exit_code, run_comprehensive_tests, try_except, bind, get_agg, ret, raise.
  change (mkWorld init_agg [] srv) with (world0 srv).
  destruct (suites (world0 srv)) as [[e|[]] w'].
  - split.
    + intros H. destruct (is_exception (exc_cls e)); simpl in H; discriminate H.
    + intros [w'' [E _]]. discriminate E.
  - simpl. pose proof (success_rate_ge_85 (w_agg w')) as Hr.
    destruct (Qle_bool 85 (success_rate (w_agg w'))).
    + split; [intros _; exists w'; split; [reflexivity|apply Hr; reflexivity]|reflexivity].
    + split; [discriminate|intros [w'' [E H]]; injection E as <-].
      apply Hr in H. discriminate H.
Qed.

Lemma round_half_even_bounds q :
  (inject_Z (round_half_even q) - (1 # 2) <= q /\ q <= inject_Z (round_half_even q) + (1 # 2))%Q.
Proof.
  destruct q as [n d]. unfold round_half_even. cbn [Qnum Qden].
  pose proof (Z.div_mod n (Zpos d) ltac:(lia)) as Hdm.
  pose proof (Z.mod_pos_bound n (Zpos d) ltac:(lia)) as Hb.
  set (fl := n / Zpos d) in *. set (r := n mod Zpos d) in *.
  unfold Qle, Qminus, Qplus, Qopp, inject_Z; cbn [Qnum Qden].
  destruct (2 * r <? Zpos d) eqn:E1;
    [|destruct (Zpos d <? 2 * r) eqn:E2; [|destruct (Z.even fl)]];
    rewrite ?Z.ltb_lt, ?Z.ltb_ge in *; rewrite ?Pos2Z.inj_mul; split; nia.
Qed.

(** C7, counterexample: with 2 passed and 1 failed the rate is 200/3 %,
    printed "66.7" (rounded), while the rate truncated to one decimal place
    is 66.6. *)
Lemma success_rate_two_of_three_rounds :
  let a := w_agg (snd (log_all [("a", true, ""); ("b", true, ""); ("c", false, "")]
                                (world0 server_200))) in
  ~ (success_rate a == spec_success_rate_truncated a)%Q /\
  fmt_1f (success_rate a) = "66.7" /\ fmt_1f (spec_success_rate_truncated a) = "66.6".
Proof.
  vm_compute. split; [|split; reflexivity].
  intros H. discriminate H.
Qed.

(** C7, as the code does it: the success rate is 0 when no test ran (the
    division is guarded) and otherwise the unrounded passed / total * 100,
    between 0 and 100; the summary prints it to one decimal place by
    rounding to the nearest tenth ([fmt_1f] shows [round_half_even (rate * 10)]
    tenths), not by truncation. *)
Theorem success_rate_exact_and_rounded a :
  ((passed a + failed a)%nat = 0%nat -> success_rate a = 0%Q) /\
  ((0 < passed a + failed a)%nat ->
     (success_rate a * inject_Z (Z.of_nat (passed a + failed a))
        == inject_Z (100 * Z.of_nat (passed a)))%Q /\
     (0 <= success_rate a <= 100)%Q) /\
  (inject_Z (round_half_even (success_rate a * 10)) - (1 # 2) <= success_rate a * 10)%Q /\
  (success_rate a * 10 <= inject_Z (round_half_even (success_rate a * 10)) + (1 # 2))%Q.
Proof.
  split; [|split; [|apply round_half_even_bounds]].
  - intros H. unfold success_rate. rewrite H. reflexivity.
  - intros Ht. unfold success_rate.
    destruct (Nat.ltb_spec 0 (passed a + failed a)) as [_|Hn]; [|lia].
    unfold Qeq, Qle, Qmult, inject_Z; cbn [Qnum Qden].
    rewrite ?Pos2Z.inj_mul, Zpos_of_nat by exact Ht.
    split; [nia|split; nia].
Qed.

Lemma test_endpoint_status w endpoint method token data s :
  In method SUPPORTED_METHODS ->
  answers_with (w_server w) endpoint method s ->
  exists size w',
    Marketplace.test_endpoint endpoint method token data w
      = (inr (Marketplace.mkEp (negb (s =? 404)) s (s <? 500) size None), w') /\
    w_server w' = w_server w.
Proof.
  intros Hm Hs.
  unfold Marketplace.test_endpoint, try_except, bind, send, ret.
  simpl in Hm.
  destruct Hm as [<-|[<-|[<-|[<-|[]]]]]; cbn -[API_BASE String.append];
  match goal with
  | |- context [w_server ?W (w_calls ?W) ?R] =>
      destruct (Hs (w_calls W) R eq_refl eq_refl) as [resp [Er Es]]; rewrite Er
  end;
  rewrite Es; eexists; eexists; split; reflexivity.
Qed.

(** C9: a response's status alone decides the classification (not 404:
    exists; below 500: accessible), and a scan of three endpoints answered
    200, 200 and 404 in any order reports two existing endpoints, one missing
    endpoint and "Coverage: 66.7%". *)
Theorem endpoint_classification_and_coverage :
  (forall w endpoint method token data s,
     In method SUPPORTED_METHODS ->
     answers_with (w_server w) endpoint method s ->
     exists size w',
       Marketplace.test_endpoint endpoint method token data w
         = (inr (Marketplace.mkEp (negb (s =? 404)) s (s <? 500) size None), w')) /\
  (forall agg0 calls0 srv tok p1 m1 d1 p2 m2 d2 p3 m3 d3 s1 s2 s3,
     In m1 SUPPORTED_METHODS -> In m2 SUPPORTED_METHODS -> In m3 SUPPORTED_METHODS ->
     answers_with srv p1 m1 s1 -> answers_with srv p2 m2 s2 -> answers_with srv p3 m3 s3 ->
     (s1, s2, s3) = (200, 200, 404) \/ (s1, s2, s3) = (200, 404, 200) \/
     (s1, s2, s3) = (404, 200, 200) ->
     exists existing missing w',
       Marketplace.scan_report [(p1, m1, d1); (p2, m2, d2); (p3, m3, d3)] tok
                               (mkWorld agg0 calls0 srv)
         = (inr (existing, missing, "Coverage: 66.7%"), w') /\
       length existing = 2%nat /\ length missing = 1%nat).
Proof.
  split.
  - intros w endpoint method token data s Hm Hs.
    destruct (test_endpoint_status w endpoint method token data s Hm Hs) as [size [w' [E _]]].
    eauto.
  - intros agg0 calls0 srv tok p1 m1 d1 p2 m2 d2 p3 m3 d3 s1 s2 s3 H1 H2 H3 A1 A2 A3 Hs.
    unfold Marketplace.scan_report, Marketplace.scan, bind.
    destruct (test_endpoint_status (mkWorld agg0 calls0 srv) p1 m1 (Some tok) None s1 H1 A1)
      as [z1 [w1 [E1 S1]]].
    rewrite E1.
    destruct (test_endpoint_status w1 p2 m2 (Some tok) None s2 H2 ltac:(rewrite S1; exact A2))
      as [z2 [w2 [E2 S2]]].
    rewrite E2.
    destruct (test_endpoint_status w2 p3 m3 (Some tok) None s3 H3
                ltac:(rewrite S2, S1; exact A3))
      as [z3 [w3 [E3 S3]]].
    rewrite E3.
    destruct Hs as [Hs|[Hs|Hs]]; injection Hs as -> -> ->;
      do 3 eexists; (split; [reflexivity|split; reflexivity]).
Qed.

Lemma endpoint_classification_and_coverage_witness :
  exists existing missing w',
    Marketplace.scan_report [("/projects", "GET", "List all projects");
                             ("/projects", "POST", "Create new project");
                             ("/files", "GET", "List files")] "tok"
                            (world0 (fun _ r => if String.eqb (req_url r) (API_BASE ++ "/files")
                                                then inr (json_response 404 (JObj []))
                                                else inr (json_response 200 (JObj []))))
      = (inr (existing, missing, "Coverage: 66.7%"), w') /\
    length existing = 2%nat /\ length missing = 1%nat.
Proof.
  apply (proj2 endpoint_classification_and_coverage
           init_agg [] (fun _ r => if String.eqb (req_url r) (API_BASE ++ "/files")
                                   then inr (json_response 404 (JObj []))
                                   else inr (json_response 200 (JObj [])))
           "tok" "/projects" "GET" "List all projects" "/projects" "POST" "Create new project"
           "/files" "GET" "List files" 200 200 404).
  - simpl; auto.
  - simpl; auto.
  - simpl; auto.
  - intros calls r Hu Hm. rewrite Hu. eexists; split; reflexivity.
  - intros calls r Hu Hm. rewrite Hu. eexists; split; reflexivity.
  - intros calls r Hu Hm. rewrite Hu. eexists; split; reflexivity.
  - left. reflexivity.
Defined.

(** ** Properties of the test suites and entry points *)

Lemma safe_ret {A} (x : A) : exc_safe (ret x).
Proof. intros w _. split; [reflexivity | discriminate]. Qed.

Lemma safe_raise {A} e : is_exception (exc_cls e) = true -> exc_safe (A:=A) (raise e).
Proof. intros He w _. split; [reflexivity|]. intros e' H. injection H as <-. exact He. Qed.

Lemma safe_bind {A B} (m : PyM A) (k : A -> PyM B) :
  exc_safe m -> (forall x, exc_safe (k x)) -> exc_safe (bind m k).
Proof.
  intros Hm Hk w Hw. unfold bind. destruct (Hm w Hw) as [Hs He].
  destruct (m w) as [[e|x] w1]; simpl in *.
  - split; [exact Hs|]. intros e' H. injection H as <-. apply He. reflexivity.
  - destruct (Hk x w1) as [Hs' He']; [rewrite Hs; exact Hw|].
    split; [congruence | exact He'].
Qed.

Lemma safe_try {A} (m : PyM A) h :
  exc_safe m -> (forall e, is_exception (exc_cls e) = true -> exc_safe (h e)) ->
  exc_safe (try_except m h).
Proof.
  intros Hm Hh w Hw. unfold try_except. destruct (Hm w Hw) as [Hs He].
  destruct (m w) as [[e|x] w1]; simpl in *.
  - destruct (Hh e (He e eq_refl) w1) as [Hs' He']; [rewrite Hs; exact Hw|].
    split; [congruence | exact He'].
  - split; [exact Hs | discriminate].
Qed.

Lemma safe_send r : exc_safe (send r).
Proof.
  intros w Hw. split; [reflexivity|]. simpl. intros e H. exact (Hw _ _ _ H).
Qed.

Lemma safe_decode_body r : exc_safe (decode_body r).
Proof.
  unfold decode_body. destruct (_ && _); [destruct (parsed r)|].
  all: first [apply safe_ret | apply safe_raise; reflexivity].
Qed.

Lemma safe_log_test name ok det : exc_safe (log_test name ok det).
Proof. intros w _. split; [reflexivity | discriminate]. Qed.

Lemma safe_get_agg : exc_safe get_agg.
Proof. intros w _. split; [reflexivity | discriminate]. Qed.

Ltac safe_base :=
  first [ apply safe_ret | apply safe_raise; reflexivity | apply safe_send
        | apply safe_decode_body | apply safe_log_test | apply safe_get_agg ].

Ltac safe :=
  repeat first
    [ safe_base
    | apply safe_bind; [| intros ?; cbv beta]
    | apply safe_try; [| intros ? ?; cbv beta]
    | match goal with
      | |- exc_safe (if ?b then _ else _) => destruct b eqn:?
      end ].

Lemma safe_make_request method endpoint data token timeout :
  exc_safe (make_request method endpoint data token timeout).
Proof.
  unfold make_request. apply safe_try.
  - safe.
  - intros e He. unfold make_request_handler. rewrite He. safe.
Qed.

Lemma safe_btf_make_request method endpoint data token :
  exc_safe (BackendTestFocused.make_request method endpoint data token).
Proof.
  unfold BackendTestFocused.make_request. apply safe_try.
  - safe.
  - intros e He. rewrite He. safe.
Qed.

Lemma safe_get_data o : exc_safe (get_data o).
Proof. unfold get_data. destruct (o_data o); safe. Qed.

Lemma safe_py_get d key : exc_safe (py_get d key).
Proof. unfold py_get. destruct d as [[]|]; safe. Qed.

Lemma safe_py_index d key : exc_safe (py_index d key).
Proof. unfold py_index. apply safe_bind; [apply safe_py_get|]. intros [|]; safe. Qed.

Lemma safe_py_len j : exc_safe (py_len j).
Proof. unfold py_len. destruct j; safe. Qed.

Lemma safe_json_index_key j key : exc_safe (json_index_key j key).
Proof. unfold json_index_key. destruct j as [| | | | |kvs]; safe. destruct (dict_lookup key kvs); safe. Qed.

Lemma safe_pydata_index_key d key : exc_safe (pydata_index_key d key).
Proof. unfold pydata_index_key. destruct d; [apply safe_json_index_key | safe]. Qed.

Lemma safe_json_index0 j : exc_safe (json_index0 j).
Proof. unfold json_index0. destruct j as [| | |s|l|]; safe; [destruct s|destruct l]; safe. Qed.

Lemma safe_with_token tok body :
  (forall t, exc_safe (body t)) -> exc_safe (with_token tok body).
Proof. intros H. unfold with_token. destruct tok; safe; apply H. Qed.

Ltac safe_helper :=
  first [ apply safe_make_request | apply safe_btf_make_request | apply safe_get_data
        | apply safe_py_get | apply safe_py_index | apply safe_py_len
        | apply safe_json_index_key | apply safe_pydata_index_key | apply safe_json_index0 ].

Ltac safe_all :=
  repeat first
    [ safe_base
    | safe_helper
    | apply safe_bind; [| intros ?; cbv beta]
    | apply safe_try; [| intros ? ?; cbv beta]
    | apply safe_with_token; intros ?
    | match goal with
      | |- exc_safe (if ?b then _ else _) => destruct b eqn:?
      | |- exc_safe (match ?x with Some _ => _ | None => _ end) => destruct x
      end
    | progress unfold py_get_default, ok_and_get, ok_and_list, data_count, created_with_id ].

Lemma safe_login_all users tokens : exc_safe (Suites.login_all users tokens).
Proof.
  revert tokens. induction users as [|[u c] rest IH]; intros tokens; simpl; safe_all; apply IH.
Qed.

Lemma safe_suites clk : exc_safe (Suites.comprehensive_suites clk).
Proof.
  unfold Suites.comprehensive_suites, Suites.test_health_endpoints, Suites.test_authentication,
    Suites.test_user_management, Suites.test_project_management, Suites.test_lead_management,
    Suites.test_financial_system, Suites.test_materials_and_vendors,
    Suites.test_employee_management, Suites.test_communication_system,
    Suites.test_security_and_permissions, project_chain, lead_chain, invalid_token_probe.
  safe_all; apply safe_login_all.
Qed.

Lemma safe_authenticate_loop users tokens : exc_safe (FocusedRun.authenticate_loop users tokens).
Proof.
  revert tokens. induction users as [|[u c] rest IH]; intros tokens; simpl; safe_all; apply IH.
Qed.

Lemma safe_critical dumps2 tokens clk :
  exc_safe (FocusedRun.test_critical_failing_endpoints dumps2 tokens clk).
Proof.
  unfold FocusedRun.test_critical_failing_endpoints, Focused.project_chain, Focused.lead_chain.
  safe_all.
Qed.


Lemma try_exception_false_never_raises (m : PyM bool) w :
  exc_safe m -> raises_only_exceptions (w_server w) ->
  exists b, fst (try_except m (fun e => if is_exception (exc_cls e) then ret false else raise e) w)
            = inr b.
Proof.
  intros Hm Hw. unfold try_except. destruct (Hm w Hw) as [_ He].
  destruct (m w) as [[e|x] w1]; simpl in *.
  - rewrite (He e eq_refl). eexists; reflexivity.
  - eexists; reflexivity.
Qed.

(** X5: for every server raising only [Exception]s, backend_test.py's
    [main] exits with status 0 or 1: nothing escapes
    [run_comprehensive_tests]. *)
Theorem backend_main_exits_0_or_1 clk srv (Hsrv : raises_only_exceptions srv) :
  Suites.main clk srv = 0 \/ Suites.main clk srv = 1.
Proof.
  unfold Suites.main, main_exit_code, run_comprehensive_tests.
  destruct (try_exception_false_never_raises
              (Suites.comprehensive_suites clk;;; a <- get_agg;; ret (Qle_bool 85 (success_rate a)))
              (mkWorld init_agg [] srv)) as [b Hb].
  - apply safe_bind; [apply safe_suites|]. intros _. safe_all.
  - exact Hsrv.
  - rewrite Hb. destruct b; auto.
Qed.

Lemma backend_main_exits_0_or_1_witness :
  raises_only_exceptions timeout_server /\
  (Suites.main (Suites.mkClock 1 2 "2026-10-16" "2027-01-14" 3 "2026-11-15" "2026-10-16") timeout_server = 0 \/
   Suites.main (Suites.mkClock 1 2 "2026-10-16" "2027-01-14" 3 "2026-11-15" "2026-10-16") timeout_server = 1).
Proof.
  split; [exact timeout_server_exceptions|].
  apply backend_main_exits_0_or_1. exact timeout_server_exceptions.
Defined.

(** X6: for every server raising only [Exception]s,
    focused_backend_test.py ends normally: every exception of the run is
    caught by [run_focused_tests], whose verdict [main] discards. *)
Theorem focused_main_exits_0 dumps2 clk srv (Hsrv : raises_only_exceptions srv) :
  FocusedRun.main_exit_code dumps2 clk srv = 0.
Proof.
  unfold FocusedRun.main_exit_code, FocusedRun.run_focused_tests.
  destruct (try_exception_false_never_raises
              (tokens <- FocusedRun.authenticate;;
               FocusedRun.test_critical_failing_endpoints dumps2 tokens clk;;;
               a <- get_agg;; ret (Qle_bool 85 (success_rate a)))
              (mkWorld init_agg [] srv)) as [b Hb].
  - apply safe_bind; [apply safe_authenticate_loop|]. intros tokens.
    apply safe_bind; [apply safe_critical|]. intros _. safe_all.
  - exact Hsrv.
  - rewrite Hb. reflexivity.
Qed.

Section Offline.
Variable srv : list request -> request -> exc + response.
Hypothesis Hoff : offline srv.

Lemma runs_ret {A} (x : A) a : runs srv (ret x) a a 0 (eq x).
Proof. intros w Hs Ha. exists x, w. rewrite Nat.add_0_r. auto. Qed.

Lemma runs_ret_any {A} (x : A) a (P : A -> Prop) : P x -> runs srv (ret x) a a 0 P.
Proof. intros Hp w Hs Ha. exists x, w. rewrite Nat.add_0_r. auto. Qed.

Lemma runs_bind {A B} (m : PyM A) (k : A -> PyM B) a1 a2 a3 n1 n2 n P Q :
  runs srv m a1 a2 n1 P -> (forall x, P x -> runs srv (k x) a2 a3 n2 Q) -> n = (n1 + n2)%nat ->
  runs srv (bind m k) a1 a3 n Q.
Proof.
  intros Hm Hk -> w Hs Ha. destruct (Hm w Hs Ha) as [x [w1 [E [Hs1 [Ha1 [Hc1 Hp]]]]]].
  destruct (Hk x Hp w1 Hs1 Ha1) as [y [w2 [E2 [Hs2 [Ha2 [Hc2 Hq]]]]]].
  exists y, w2. unfold bind. rewrite E, E2. repeat split; auto. lia.
Qed.

Lemma runs_assoc {A B C} (m : PyM A) (f : A -> PyM B) (g : B -> PyM C) a a' n P :
  runs srv (bind m (fun x => bind (f x) g)) a a' n P -> runs srv (bind (bind m f) g) a a' n P.
Proof.
  intros H w Hs Ha. destruct (H w Hs Ha) as [y [w' [E R]]]. exists y, w'. split; [|exact R].
  rewrite <- E. unfold bind. destruct (m w) as [[e|x] w1]; reflexivity.
Qed.

Lemma runs_log name ok det a a' :
  a' = record a name ok det -> runs srv (log_test name ok det) a a' 0 (fun _ => True).
Proof. intros -> w Hs Ha. eexists _, _. split; [reflexivity|]. simpl. rewrite Ha. auto. Qed.

Lemma runs_make_request method endpoint data token timeout a :
  is_supported method = true ->
  runs srv (make_request method endpoint data token timeout) a a 1
       (fun o => exists msg, o = fail_outcome msg).
Proof.
  intros Hm w Hs Ha. rewrite make_request_eval.
  assert (exists req, method_request method endpoint data token timeout = Some req) as [req ->].
  { unfold is_supported, SUPPORTED_METHODS in Hm. simpl in Hm. unfold method_request.
    destruct (String.eqb (upper method) "GET"); [eauto|].
    destruct (String.eqb (upper method) "POST"); [eauto|].
    destruct (String.eqb (upper method) "PUT"); [eauto|].
    destruct (String.eqb (upper method) "DELETE"); [eauto|discriminate]. }
  destruct (Hoff (w_calls w) req) as [e [Ee He]]. rewrite Hs, Ee. simpl.
  unfold handle. rewrite He.
  exists (fail_outcome (transport_error_msg e)), (add_call req w).
  split; [unfold transport_error_msg; destruct (is_timeout _); [|destruct (is_connection_error _)]; reflexivity|].
  simpl. rewrite length_app. simpl. repeat split; eauto.
Qed.

End Offline.

Ltac off_red :=
  unfold ok_and_get, ok_and_list, data_or_empty, py_get_default, py_get, data_count, get_data,
    created_with_id, with_token;
  cbn beta iota delta [dict_lookup o_ok o_status o_data fail_outcome].

Ltac off_step :=
  off_red;
  match goal with
  | |- runs _ (bind (make_request _ _ _ _ _) _) _ _ _ _ =>
      eapply runs_bind;
        [ apply runs_make_request; [assumption | reflexivity]
        | let m := fresh "msg" in intros ? [m ->]
        | ]
  | |- runs _ (bind (log_test _ _ _) _) _ _ _ _ =>
      eapply runs_bind; [ apply runs_log; reflexivity | intros ? _ | ]
  | |- runs _ (bind (ret _) _) _ _ _ _ =>
      eapply runs_bind; [ apply runs_ret | intros ? <- | ]
  | |- runs _ (bind (bind _ _) _) _ _ _ _ => apply runs_assoc
  | |- runs _ (log_test _ _ _) _ _ _ _ => apply runs_log; reflexivity
  | |- runs _ (ret _) _ _ _ _ => apply runs_ret_any; first [exact I | reflexivity]
  end.

Lemma off_login_all srv users tokens a :
  offline srv ->
  runs srv (Suites.login_all users tokens) a
    (fold_left (fun a u => record a ("Login " ++ fst u) false "Status: 0, Error: Unknown") users a)
    (length users) (eq tokens).
Proof.
  intros Hoff. revert a. induction users as [|[u c] rest IH]; intros a.
  - apply runs_ret.
  - cbn [Suites.login_all fold_left length fst]. repeat off_step.
    1: change ("Status: " ++ zstr 0 ++ ", Error: " ++ py_str (JStr "Unknown"))
         with "Status: 0, Error: Unknown"; apply IH.
    all: reflexivity.
Qed.


Ltac off_step' :=
  first [ off_step
        | eapply runs_bind; [ apply off_login_all; assumption | intros ? <- | ] ].

(** X1: against an unreachable server (every call raises an [Exception]),
    a backend_test.py run issues 16 calls and records exactly the 16 results
    of [offline_results]: only "SQL Injection Blocked" passes, every later
    suite is skipped for want of a token, and the process exits with 1. *)
Theorem offline_run_records_fixed_results srv clk (Hoff : offline srv) :
  exists w', Suites.comprehensive_suites clk (world0 srv) = (inr tt, w') /\
             details (w_agg w') = offline_results /\ length (w_calls w') = 16%nat /\
             Suites.main clk srv = 1.
Proof.
  assert (H : runs srv (Suites.comprehensive_suites clk) init_agg (mkAgg 1 15 offline_results) 16
                (fun _ => True)).
  { unfold Suites.comprehensive_suites, Suites.test_health_endpoints, Suites.test_authentication,
      Suites.test_user_management, Suites.test_project_management, Suites.test_lead_management,
      Suites.test_financial_system, Suites.test_materials_and_vendors,
      Suites.test_employee_management, Suites.test_communication_system,
      Suites.test_security_and_permissions, invalid_token_probe.
    repeat off_step'.
    all: reflexivity. }
  destruct (H (world0 srv) eq_refl eq_refl) as [x [w' [E [Hs [Ha [Hc _]]]]]].
  destruct x. exists w'. split; [exact E|]. rewrite Ha. split; [reflexivity|]. split; [exact Hc|].
  unfold Suites.main, main_exit_code, run_comprehensive_tests, try_except, bind.
  change (mkWorld init_agg [] srv) with (world0 srv). rewrite E.
  unfold get_agg, ret. rewrite Ha. vm_compute. reflexivity.
Qed.

(** X2: when the first call, GET /health, is answered with a body that is
    not read as JSON (an HTML page, an empty body), reading its "status"
    raises [AttributeError] on the text: the whole run stops after that one
    call with no result recorded, returns [False], and the exit status is 1. *)
Theorem health_text_answer_aborts_run clk srv r
    (Hr : srv [] health_request = inr r) (Hj : json_body_expected r = false) :
  run_comprehensive_tests (Suites.comprehensive_suites clk) (world0 srv) =
  (inr false, add_call health_request (world0 srv)) /\ Suites.main clk srv = 1.
Proof.
  assert (E : run_comprehensive_tests (Suites.comprehensive_suites clk) (world0 srv) =
              (inr false, add_call health_request (world0 srv))).
  { unfold run_comprehensive_tests, try_except, Suites.comprehensive_suites,
      Suites.test_health_endpoints.
    unfold bind at 1 2 3. rewrite make_request_eval.
    change (method_request "GET" "/health" None None TIMEOUT) with (Some health_request).
    cbn [w_server w_calls world0]. rewrite Hr. unfold outcome_of. rewrite Hj.
    destruct (resp_ok (status_code r)); reflexivity. }
  split; [exact E|].
  unfold Suites.main, main_exit_code. change (mkWorld init_agg [] srv) with (world0 srv).
  rewrite E. reflexivity.
Qed.

Section Counts.

Lemma counts_ret {A} (x : A) : counts (ret x) 0 0.
Proof. intros w _. exists x, w. rewrite !Nat.add_0_r. auto. Qed.

Lemma counts_bind {A B} (m : PyM A) (k : A -> PyM B) c1 r1 c2 r2 c r :
  counts m c1 r1 -> (forall x, counts (k x) c2 r2) -> c = (c1 + c2)%nat -> r = (r1 + r2)%nat ->
  counts (bind m k) c r.
Proof.
  intros Hm Hk -> -> w Hw. destruct (Hm w Hw) as [x [w1 [E [Hs1 [Hc1 Hr1]]]]].
  destruct (Hk x w1) as [y [w2 [E2 [Hs2 [Hc2 Hr2]]]]]; [rewrite Hs1; exact Hw|].
  exists y, w2. unfold bind. rewrite E, E2. repeat split; lia || congruence.
Qed.

Lemma counts_log name ok det : counts (log_test name ok det) 0 1.
Proof.
  intros w _. eexists _, _. split; [reflexivity|]. cbn. unfold record.
  destruct ok; cbn; rewrite length_app; cbn; repeat split; lia.
Qed.

Lemma counts_make_request method endpoint data token timeout :
  is_supported method = true -> counts (make_request method endpoint data token timeout) 1 0.
Proof.
  intros Hm w Hw. rewrite make_request_eval.
  assert (exists req, method_request method endpoint data token timeout = Some req) as [req ->].
  { unfold is_supported, SUPPORTED_METHODS in Hm. simpl in Hm. unfold method_request.
    destruct (String.eqb (upper method) "GET"); [eauto|].
    destruct (String.eqb (upper method) "POST"); [eauto|].
    destruct (String.eqb (upper method) "PUT"); [eauto|].
    destruct (String.eqb (upper method) "DELETE"); [eauto|discriminate]. }
  destruct (outcome_of_exception (w_server w (w_calls w) req)) as [o Ho].
  { intros e He. exact (Hw _ _ _ He). }
  rewrite Ho. exists o, (add_call req w). cbn. rewrite length_app. cbn. repeat split; lia.
Qed.

Lemma counts_with_token tok n (body : string -> PyM unit) :
  (forall t, counts (body t) n n) ->
  counts (with_token tok body) (if opt_truthy tok then n else 0) (if opt_truthy tok then n else 0).
Proof.
  intros H. unfold with_token, opt_truthy. destruct tok as [t|]; [destruct (json_truthy t)|];
    first [apply H | apply counts_ret].
Qed.

End Counts.

Ltac count_step :=
  match goal with
  | |- counts (bind (make_request _ _ _ _ _) _) _ _ =>
      eapply counts_bind; [apply counts_make_request; reflexivity | intros ? | | ]
  | |- counts (bind (log_test _ _ _) _) _ _ =>
      eapply counts_bind; [apply counts_log | intros ? | | ]
  | |- counts (bind (with_token _ _) _) _ _ =>
      eapply counts_bind; [apply counts_with_token; intros ? | intros ? | | ]
  | |- counts (bind invalid_token_probe _) _ _ =>
      eapply counts_bind; [unfold invalid_token_probe | intros ? | | ]
  | |- counts (log_test _ _ _) _ _ => apply counts_log
  | |- counts (with_token _ _) _ _ => apply counts_with_token; intros ?
  end.

(** X3: for every server raising only [Exception]s, the financial,
    employee, communication and security suites never raise and record
    exactly one result per call: 2 calls for a truthy customer token and 3
    for a truthy admin token (financial), 2 for the admin token (employee),
    1 for the admin and 2 for the customer token (communication), and always
    4 (security). *)
Theorem robust_suites_one_result_per_call tokens valid_until date :
  counts (Suites.test_financial_system tokens valid_until)
    (token_count (dict_lookup "customer" tokens) 2 + token_count (dict_lookup "admin" tokens) 3)
    (token_count (dict_lookup "customer" tokens) 2 + token_count (dict_lookup "admin" tokens) 3) /\
  counts (Suites.test_employee_management tokens date)
    (token_count (dict_lookup "admin" tokens) 2) (token_count (dict_lookup "admin" tokens) 2) /\
  counts (Suites.test_communication_system tokens)
    (token_count (dict_lookup "admin" tokens) 1 + token_count (dict_lookup "customer" tokens) 2)
    (token_count (dict_lookup "admin" tokens) 1 + token_count (dict_lookup "customer" tokens) 2) /\
  counts Suites.test_security_and_permissions 4 4.
Proof.
  unfold token_count, Suites.test_financial_system, Suites.test_employee_management,
    Suites.test_communication_system, Suites.test_security_and_permissions.
  repeat split; repeat count_step; reflexivity.
Qed.

Lemma bind_inr {A B} (m : PyM A) (k : A -> PyM B) w y w' :
  bind m k w = (inr y, w') -> exists x w1, m w = (inr x, w1) /\ k x w1 = (inr y, w').
Proof. unfold bind. destruct (m w) as [[e|x] w1]; [discriminate|eauto]. Qed.

Lemma make_request_agg method endpoint data token timeout w :
  w_agg (snd (make_request method endpoint data token timeout w)) = w_agg w.
Proof. rewrite make_request_eval. destruct (method_request _ _ _ _ _); reflexivity. Qed.

Lemma ok_and_get_inr o key w c w' :
  ok_and_get o key w = (inr c, w') ->
  w' = w /\ (c = true -> exists kvs v, o_data o = Some (PJson (JObj kvs)) /\
                                       dict_lookup key kvs = Some v /\ json_truthy v = true).
Proof.
  unfold ok_and_get, get_data, py_get, bind, ret, raise.
  destruct (o_ok o); [|intros H; injection H as <- <-; split; [reflexivity|discriminate]].
  destruct (o_data o) as [[[| | | | |kvs]|]|]; intros H; try discriminate.
  injection H as <- <-. split; [reflexivity|]. intros Hc.
  unfold opt_truthy in Hc. destruct (dict_lookup key kvs) as [v|] eqn:Ev; [|discriminate].
  eauto.
Qed.

Lemma py_get_default_world d key dflt w x w' :
  py_get_default d key dflt w = (inr x, w') -> w' = w.
Proof.
  unfold py_get_default, py_get, bind, ret, raise.
  destruct d as [[]|]; intros H; try discriminate; congruence.
Qed.

(** X4: when the login loop of [test_authentication] completes, it has
    appended one result "Login <user>" per user, in order, and appended to
    the tokens exactly the users whose result passed, in the same order,
    each with a truthy token. *)
Theorem login_all_tokens_match_results users tokens w tokens' w'
    (E : Suites.login_all users tokens w = (inr tokens', w')) :
  exists added rs,
    tokens' = app tokens added /\
    details (w_agg w') = app (details (w_agg w)) rs /\
    map tr_name rs = map (fun u => "Login " ++ fst u) users /\
    map fst added = map fst (select (map tr_passed rs) users) /\
    Forall (fun p => json_truthy (snd p) = true) added.
Proof.
  revert tokens w E. induction users as [|[u creds] rest IH]; intros tokens w E.
  - injection E as <- <-. exists [], []. rewrite !app_nil_r. repeat split; constructor.
  - cbn [Suites.login_all] in E.
    apply bind_inr in E as [o [w1 [E1 E]]].
    apply bind_inr in E as [c [w2 [E2 E]]].
    apply bind_inr in E as [tk [w3 [E3 E]]].
    pose proof (make_request_agg "POST" "/auth/login" (Some creds) None TIMEOUT w) as A1.
    rewrite E1 in A1. cbn in A1.
    apply ok_and_get_inr in E2 as [-> Hc].
    destruct (IH _ _ E) as [added [rs [Ht [Hd [Hn [Hs Hf]]]]]].
    destruct c.
    + destruct (Hc eq_refl) as [kvs [v [Hdata [Hv Htv]]]].
      unfold get_data, pydata_index_key, json_index_key, bind, ret in E3.
      rewrite Hdata, Hv in E3. cbn in E3. injection E3 as <- <-.
      exists ((u, v) :: added), (mkResult ("Login " ++ u) true "Token received" :: rs).
      cbn [set_agg w_agg record details passed failed] in Hd.
      rewrite A1 in Hd. rewrite <- app_assoc in Hd.
      repeat split.
      * rewrite Ht, <- app_assoc. reflexivity.
      * exact Hd.
      * cbn. f_equal. exact Hn.
      * cbn. f_equal. exact Hs.
      * constructor; [exact Htv | exact Hf].
    + apply bind_inr in E3 as [err [w4 [E4 E3]]].
      apply py_get_default_world in E4 as ->.
      apply bind_inr in E3 as [[] [w5 [E5 E3]]].
      injection E5 as <-. injection E3 as <- <-.
      exists added, (mkResult ("Login " ++ u) false
               ("Status: " ++ zstr (o_status o) ++ ", Error: " ++ py_str err) :: rs).
      cbn [set_agg w_agg record details passed failed] in Hd.
      rewrite A1 in Hd. rewrite <- app_assoc in Hd.
      repeat split.
      * exact Ht.
      * exact Hd.
      * cbn. f_equal. exact Hn.
      * exact Hs.
      * exact Hf.
Qed.

Section Appends.

Lemma appends_ret {A} (x : A) : appends (ret x) [].
Proof. intros w y w' H. injection H as _ <-. rewrite app_nil_r. reflexivity. Qed.

Lemma appends_raise {A} e ns : appends (A:=A) (raise e) ns.
Proof. intros w y w' H. discriminate. Qed.

Lemma appends_bind {A B} (m : PyM A) (k : A -> PyM B) ns1 ns2 ns :
  appends m ns1 -> (forall x, appends (k x) ns2) -> ns = app ns1 ns2 -> appends (bind m k) ns.
Proof.
  intros Hm Hk -> w y w' E. apply bind_inr in E as [x [w1 [E1 E2]]].
  rewrite (Hk x _ _ _ E2), (Hm _ _ _ E1), app_assoc. reflexivity.
Qed.

Lemma appends_log name ok det : appends (log_test name ok det) [name].
Proof.
  intros w y w' H. injection H as _ <-. unfold names_of. cbn. unfold record.
  destruct ok; cbn; rewrite map_app; reflexivity.
Qed.

Lemma appends_make_request method endpoint data token timeout :
  appends (make_request method endpoint data token timeout) [].
Proof.
  intros w y w' H. rewrite app_nil_r. unfold names_of.
  pose proof (make_request_agg method endpoint data token timeout w) as A. rewrite H in A.
  cbn in A. rewrite A. reflexivity.
Qed.

Lemma appends_pure {A} (m : PyM A) : (forall w, snd (m w) = w) -> appends m [].
Proof. intros Hp w y w' H. rewrite app_nil_r. pose proof (Hp w) as P. rewrite H in P. cbn in P. congruence. Qed.

End Appends.

Lemma get_data_pure o w : snd (get_data o w) = w.
Proof. unfold get_data. destruct (o_data o); reflexivity. Qed.

Lemma py_get_pure d k w : snd (py_get d k w) = w.
Proof. unfold py_get. destruct d as [[]|]; reflexivity. Qed.

Lemma py_index_pure d k w : snd (py_index d k w) = w.
Proof.
  unfold py_index, bind. pose proof (py_get_pure d k w) as P.
  destruct (py_get d k w) as [[e|[v|]] w1]; cbn in *; congruence.
Qed.

Lemma created_with_id_pure o w : snd (created_with_id o w) = w.
Proof.
  unfold created_with_id, bind, ret. destruct (o_ok o); [|reflexivity].
  pose proof (get_data_pure o w) as P.
  destruct (get_data o w) as [[e|d] w1]; cbn in *; [congruence|].
  pose proof (py_get_pure d "id" w1) as P2.
  destruct (py_get d "id" w1) as [[e|v] w2]; cbn in *; congruence.
Qed.

Lemma data_count_pure o k w : snd (data_count o k w) = w.
Proof.
  unfold data_count, py_get_default, bind, ret.
  pose proof (py_get_pure (data_or_empty o) k w) as P.
  destruct (py_get (data_or_empty o) k w) as [[e|v] w1]; cbn in *; [congruence|].
  subst w1. destruct (match v with Some j => j | None => JArr [] end); reflexivity.
Qed.

Ltac app_step :=
  match goal with
  | |- appends (bind (make_request _ _ _ _ _) _) _ =>
      eapply appends_bind; [apply appends_make_request | intros ? | ]
  | |- appends (bind (log_test _ _ _) _) _ =>
      eapply appends_bind; [apply appends_log | intros ? | ]
  | |- appends (bind (get_data _) _) _ =>
      eapply appends_bind; [apply appends_pure, get_data_pure | intros ? | ]
  | |- appends (bind (py_index _ _) _) _ =>
      eapply appends_bind; [apply appends_pure, py_index_pure | intros ? | ]
  | |- appends (bind (created_with_id _) _) _ =>
      eapply appends_bind; [apply appends_pure, created_with_id_pure | intros ? | ]
  | |- appends (bind (data_count _ _) _) _ =>
      eapply appends_bind; [apply appends_pure, data_count_pure | intros ? | ]
  | |- appends (bind (if ?b then _ else _) _) _ =>
      eapply appends_bind; [destruct b | intros ? | ]
  | |- appends (bind (Focused.project_chain _ _ _ _) _) _ =>
      eapply appends_bind; [unfold Focused.project_chain | intros ? | ]
  | |- appends (bind (Focused.lead_chain _ _ _) _) _ =>
      eapply appends_bind; [unfold Focused.lead_chain | intros ? | ]
  | |- appends (if ?b then _ else _) _ => destruct b
  | |- appends (log_test _ _ _) _ => apply appends_log
  end.

(** X8: with a truthy admin token, whenever
    [test_critical_failing_endpoints] returns normally it has recorded
    exactly six results, named as in [critical_names], in that order
    (whether or not the creations and the customer token succeed). *)
Theorem critical_endpoints_record_six_names dumps2 tokens clk t w w'
    (Ht : dict_lookup "admin" tokens = Some t) (Htr : json_truthy t = true)
    (E : FocusedRun.test_critical_failing_endpoints dumps2 tokens clk w = (inr tt, w')) :
  names_of w' = app (names_of w) critical_names.
Proof.
  assert (H : appends (FocusedRun.test_critical_failing_endpoints dumps2 tokens clk) critical_names).
  { unfold FocusedRun.test_critical_failing_endpoints, with_token. cbv zeta.
    rewrite Ht, Htr. repeat app_step. all: reflexivity. }
  exact (H _ _ _ E).
Qed.

Lemma bind_keeps_agg {A B} (m : PyM A) (k : A -> PyM B) :
  (forall w, w_agg (snd (m w)) = w_agg w) -> (forall x w, w_agg (snd (k x w)) = w_agg w) ->
  forall w, w_agg (snd (bind m k w)) = w_agg w.
Proof.
  intros Hm Hk w. unfold bind. pose proof (Hm w) as H.
  destruct (m w) as [[e|x] w1]; cbn in *; [exact H | rewrite Hk; exact H].
Qed.

Lemma authenticate_loop_keeps_agg users tokens w :
  w_agg (snd (FocusedRun.authenticate_loop users tokens w)) = w_agg w.
Proof.
  revert tokens w. induction users as [|[u c] rest IH]; intros tokens w; [reflexivity|].
  cbn [FocusedRun.authenticate_loop].
  apply bind_keeps_agg; [intros; apply make_request_agg|]. intros o.
  apply bind_keeps_agg.
  { intros w1. unfold ok_and_get. destruct (o_ok o); [|reflexivity].
    apply bind_keeps_agg; [intros; rewrite get_data_pure; reflexivity|]. intros d.
    apply bind_keeps_agg; [intros; rewrite py_get_pure; reflexivity|reflexivity]. }
  intros b. apply bind_keeps_agg; [|intros; apply IH].
  intros w1. destruct b.
  - apply bind_keeps_agg; [intros; rewrite get_data_pure; reflexivity|]. intros d.
    apply bind_keeps_agg; [|reflexivity].
    intros w2. unfold pydata_index_key, json_index_key.
    destruct d as [[| | | | |kvs]|]; try reflexivity. destruct (dict_lookup "token" kvs); reflexivity.
  - apply bind_keeps_agg; [|reflexivity].
    intros w2. unfold py_get_default. apply bind_keeps_agg; [intros; rewrite py_get_pure|]; reflexivity.
Qed.

Lemma dict_lookup_app_none k kvs kvs' :
  dict_lookup k kvs = None -> dict_lookup k kvs' = None -> dict_lookup k (app kvs kvs') = None.
Proof.
  induction kvs as [|[k' v] rest IH]; intros H1 H2; [exact H2|].
  cbn in *. destruct (dict_lookup k rest); [discriminate|]. rewrite (IH eq_refl H2).
  exact H1.
Qed.

Lemma authenticate_loop_keys users tokens w tokens' w' k :
  FocusedRun.authenticate_loop users tokens w = (inr tokens', w') ->
  dict_lookup k tokens = None -> ~ In k (map fst users) -> dict_lookup k tokens' = None.
Proof.
  revert tokens w. induction users as [|[u c] rest IH]; intros tokens w E Hk Hu.
  - injection E as <- _. exact Hk.
  - cbn [FocusedRun.authenticate_loop] in E.
    apply bind_inr in E as [o [w1 [_ E]]].
    apply bind_inr in E as [b [w2 [_ E]]].
    apply bind_inr in E as [tk [w3 [E3 E]]].
    apply (IH _ _ E); [|intros Hin; apply Hu; right; exact Hin].
    destruct b.
    + apply bind_inr in E3 as [d [w4 [_ E3]]].
      apply bind_inr in E3 as [t [w5 [_ E3]]].
      injection E3 as <- _. apply dict_lookup_app_none; [exact Hk|].
      cbn. destruct (String.eqb_spec k u) as [->|]; [|reflexivity].
      exfalso. apply Hu. left. reflexivity.
    + apply bind_inr in E3 as [err [w4 [_ E3]]]. injection E3 as <- _. exact Hk.
Qed.

Lemma success_rate_empty : Qle_bool 85 (success_rate init_agg) = false.
Proof. reflexivity. Qed.

(** A failed admin login stores no admin token. *)
Lemma focused_admin_login_failure_no_token srv tokens w1
    (Hadm : not_ok_answer (srv [] focused_admin_login_request))
    (E : FocusedRun.authenticate (world0 srv) = (inr tokens, w1)) :
  dict_lookup "admin" tokens = None.
Proof.
  unfold FocusedRun.authenticate in E.
  cbn [FocusedRun.test_users FocusedRun.authenticate_loop] in E.
  apply bind_inr in E as [o [w2 [E1 E]]].
  apply bind_inr in E as [b [w3 [E2 E]]].
  apply bind_inr in E as [tk [w4 [E3 E]]].
  rewrite make_request_eval in E1.
  change (method_request "POST" "/auth/login" (Some (credentials "admin@gharinto.com" "admin123"))
            None TIMEOUT) with (Some focused_admin_login_request) in E1.
  cbn [w_server w_calls world0] in E1.
  destruct (not_ok_outcome _ Hadm) as [o0 [Ho Hok]].
  rewrite Ho in E1. injection E1 as <- _.
  unfold ok_and_get in E2. rewrite Hok in E2. injection E2 as <- _.
  apply bind_inr in E3 as [err [w5 [_ E3]]]. injection E3 as <- _.
  change (FocusedRun.authenticate_loop
            [("customer", credentials "customer@gharinto.com" "customer123")] [] w4
          = (inr tokens, w1)) in E.
  apply (authenticate_loop_keys _ _ _ _ _ _ E); [reflexivity|].
  cbn. intros [H|[]]. discriminate H.
Qed.

(** X7: when the admin login of focused_backend_test.py is answered with
    a 4xx/5xx status or an exception, [authenticate] stores no token for
    admin, no test result is recorded, and [run_focused_tests] returns
    [False]. *)
Theorem focused_admin_login_failure_records_nothing dumps2 clk srv
    (Hsrv : raises_only_exceptions srv)
    (Hadm : not_ok_answer (srv [] focused_admin_login_request)) :
  (forall tokens w1, FocusedRun.authenticate (world0 srv) = (inr tokens, w1) ->
     dict_lookup "admin" tokens = None) /\
  exists w', FocusedRun.run_focused_tests dumps2 clk (world0 srv) = (inr false, w') /\
             details (w_agg w') = [].
Proof.
  split; [intros tokens w1; exact (focused_admin_login_failure_no_token srv tokens w1 Hadm)|].
  pose proof (authenticate_loop_keeps_agg FocusedRun.test_users [] (world0 srv)) as Hagg.
  destruct (safe_authenticate_loop FocusedRun.test_users [] (world0 srv) Hsrv) as [_ Hexc].
  unfold FocusedRun.run_focused_tests, try_except. unfold bind at 1.
  destruct (FocusedRun.authenticate (world0 srv)) as [[e|tokens] w1] eqn:E;
    unfold FocusedRun.authenticate in E; rewrite E in Hagg, Hexc; cbn in Hagg, Hexc.
  - rewrite (Hexc e eq_refl). exists w1. split; [reflexivity|]. rewrite Hagg. reflexivity.
  - assert (Hnone : dict_lookup "admin" tokens = None)
      by exact (focused_admin_login_failure_no_token srv tokens w1 Hadm E).
    unfold bind, FocusedRun.test_critical_failing_endpoints, with_token. cbv zeta.
    rewrite Hnone. unfold get_agg, ret. cbn. rewrite Hagg.
    exists w1. split; [reflexivity|]. rewrite Hagg. reflexivity.
Qed.


Lemma decode_body_eq r :
  decode_body r =
  if json_body_expected r then
    match parsed r with
    | inr j => ret (PJson j)
    | inl m => raise (mkExc JSONDecodeError m)
    end
  else ret (PText (text r)).
Proof. reflexivity. Qed.

Ltac btf_login_unfold :=
  unfold BackendTestFocusedScript.get_admin_token, BackendTestFocused.make_request, try_except,
    bind, send;
  change (upper "POST") with "POST";
  cbn -[API_BASE String.append auth_headers credentials decode_body pydata_index_key];
  change (mkRequest "POST" (API_BASE ++ "/auth/login") (auth_headers None)
            (Some (credentials "admin@gharinto.com" "admin123")) 10) with btf_login_request.

Lemma get_admin_token_not_ok w :
  not_ok_answer (w_server w (w_calls w) btf_login_request) ->
  BackendTestFocusedScript.get_admin_token w = (inr JNull, add_call btf_login_request w).
Proof.
  intros Hn. btf_login_unfold.
  destruct (w_server w (w_calls w) btf_login_request) as [e|r]; cbn in Hn.
  - rewrite Hn. reflexivity.
  - rewrite decode_body_eq.
    destruct (json_body_expected r); [destruct (parsed r)|]; cbn; try rewrite Hn; reflexivity.
Qed.

Lemma get_admin_token_ok_json w r kvs :
  w_server w (w_calls w) btf_login_request = inr r ->
  resp_ok (status_code r) = true -> json_body_expected r = true -> parsed r = inr (JObj kvs) ->
  BackendTestFocusedScript.get_admin_token w =
  (match dict_lookup "token" kvs with
   | Some t => inr t
   | None => inl (mkExc KeyError "'token'")
   end, add_call btf_login_request w).
Proof.
  intros Hs Hok Hj Hp. btf_login_unfold. rewrite Hs, decode_body_eq, Hj, Hp. cbn.
  rewrite Hok. cbn. destruct (dict_lookup "token" kvs); reflexivity.
Qed.

(** X9: [get_admin_token] of backend_test_focused.py issues one login
    call; for a 4xx/5xx answer or an exception it returns [None]; for an ok
    JSON object answer it returns the value under "token", or raises
    [KeyError] when that key is absent. *)
Theorem get_admin_token_cases w :
  (not_ok_answer (w_server w (w_calls w) btf_login_request) ->
   BackendTestFocusedScript.get_admin_token w = (inr JNull, add_call btf_login_request w)) /\
  (forall r kvs,
     w_server w (w_calls w) btf_login_request = inr r ->
     resp_ok (status_code r) = true -> json_body_expected r = true -> parsed r = inr (JObj kvs) ->
     BackendTestFocusedScript.get_admin_token w =
     (match dict_lookup "token" kvs with
      | Some t => inr t
      | None => inl (mkExc KeyError "'token'")
      end, add_call btf_login_request w)).
Proof.
  split; [apply get_admin_token_not_ok | intros r kvs; apply get_admin_token_ok_json].
Qed.

(** X10: [test_failing_endpoints] stops right after the login call when
    that login fails, or answers an ok JSON object whose "token" is falsy;
    when the key is absent, the [KeyError] escapes the script. *)
Theorem failing_endpoints_needs_token clk w :
  (not_ok_answer (w_server w (w_calls w) btf_login_request) ->
   BackendTestFocusedScript.test_failing_endpoints clk w = (inr tt, add_call btf_login_request w)) /\
  (forall r kvs,
     w_server w (w_calls w) btf_login_request = inr r ->
     resp_ok (status_code r) = true -> json_body_expected r = true -> parsed r = inr (JObj kvs) ->
     opt_truthy (dict_lookup "token" kvs) = false ->
     BackendTestFocusedScript.test_failing_endpoints clk w =
     (match dict_lookup "token" kvs with
      | Some _ => inr tt
      | None => inl (mkExc KeyError "'token'")
      end, add_call btf_login_request w)).
Proof.
  split.
  - intros Hn. unfold BackendTestFocusedScript.test_failing_endpoints, bind at 1.
    rewrite (get_admin_token_not_ok w Hn). reflexivity.
  - intros r kvs Hs Hok Hj Hp Ht. unfold BackendTestFocusedScript.test_failing_endpoints, bind at 1.
    rewrite (get_admin_token_ok_json w r kvs Hs Hok Hj Hp).
    unfold opt_truthy in Ht. destruct (dict_lookup "token" kvs) as [t|]; [|reflexivity].
    rewrite Ht. reflexivity.
Qed.


Ltac te_cases :=
  unfold Marketplace.test_endpoint, try_except, bind, send, ret, raise;
  repeat match goal with
         | |- context [if String.eqb ?a ?b then _ else _] => destruct (String.eqb a b) eqn:?
         end.

(** X11: in marketplace_api_test.py, when the call of [test_endpoint]
    (method GET, POST, PUT or DELETE, as written) raises an [Exception] [e],
    the endpoint is reported as not existing, status 0, not accessible, with
    [str(e)] as its error; one call was issued. *)
Theorem test_endpoint_transport_failure w endpoint method token data e
    (Hm : marketplace_method method = true)
    (Hf : fails_with (w_server w) endpoint e) (He : is_exception (exc_cls e) = true) :
  exists req,
    Marketplace.test_endpoint endpoint method token data w =
    (inr (Marketplace.mkEp false 0 false None (Some (exc_msg e))), add_call req w) /\
    req_url req = API_BASE ++ endpoint /\ req_method req = method.
Proof.
  unfold marketplace_method, SUPPORTED_METHODS in Hm. cbn [existsb] in Hm.
  te_cases; cbn [orb] in Hm; try discriminate.
  all: match goal with
       | |- context [w_server ?W (w_calls ?W) ?R] =>
           exists R; rewrite (Hf (w_calls W) R eq_refl); cbn; rewrite He;
           split; [reflexivity|]; split; [reflexivity|]
       end.
  all: symmetry; apply String.eqb_eq; assumption.
Qed.

(** X12: [test_endpoint] with a method other than exactly "GET", "POST",
    "PUT" or "DELETE" (e.g. "get") issues no call and reports the endpoint
    as missing, status 0, with the [UnboundLocalError] message. *)
Theorem test_endpoint_unsupported_method w endpoint method token data
    (Hm : marketplace_method method = false) :
  Marketplace.test_endpoint endpoint method token data w =
  (inr (Marketplace.mkEp false 0 false None (Some unbound_response_msg)), w).
Proof.
  unfold marketplace_method, SUPPORTED_METHODS in Hm. cbn [existsb] in Hm.
  te_cases; cbn [orb] in Hm; try discriminate. reflexivity.
Qed.

Lemma test_endpoint_total w endpoint method token data :
  raises_only_exceptions (w_server w) ->
  exists res w', Marketplace.test_endpoint endpoint method token data w = (inr res, w') /\
    w_server w' = w_server w /\
    length (w_calls w') = (length (w_calls w) + (if marketplace_method method then 1 else 0))%nat.
Proof.
  intros Hw. unfold marketplace_method, SUPPORTED_METHODS. cbn [existsb].
  te_cases; cbn [orb].
  all: try (eexists _, _; split; [reflexivity|]; split; [reflexivity|]; cbn; lia).
  all: match goal with
       | |- context [w_server ?W (w_calls ?W) ?R] =>
           destruct (w_server W (w_calls W) R) as [e|r] eqn:ES
       end.
  all: cbn; try rewrite (Hw _ _ _ ES).
  all: eexists _, _; split; [reflexivity|]; split; [reflexivity|]; cbn; rewrite length_app; cbn; lia.
Qed.

Lemma length_filter_cons {A} (f : A -> bool) x l :
  length (filter f (x :: l)) = ((if f x then 1 else 0) + length (filter f l))%nat.
Proof. cbn. destruct (f x); reflexivity. Qed.

Lemma scan_total eps token w :
  raises_only_exceptions (w_server w) ->
  exists existing missing w',
    Marketplace.scan eps token w = (inr (existing, missing), w') /\
    w_server w' = w_server w /\
    Permutation (app (map fst existing) missing) eps /\
    Forall (fun p => Marketplace.ep_exists (snd p) = true) existing /\
    length (w_calls w') =
      (length (w_calls w) + length (filter (fun ep => marketplace_method (snd (fst ep))) eps))%nat.
Proof.
  revert w. induction eps as [|[[endpoint method] descr] rest IH]; intros w Hw.
  - exists [], [], w. repeat split; auto; cbn; lia.
  - destruct (test_endpoint_total w endpoint method (Some token) None Hw) as [res [w1 [E1 [S1 C1]]]].
    destruct (IH w1) as [ex [mi [w2 [E2 [S2 [P2 [F2 C2]]]]]]]; [rewrite S1; exact Hw|].
    cbn [Marketplace.scan]. unfold bind at 1. rewrite E1. unfold bind. rewrite E2.
    cbn [fst snd].
    destruct (Marketplace.ep_exists res) eqn:Hex.
    + exists (((endpoint, method, descr), res) :: ex), mi, w2. repeat split.
      * congruence.
      * cbn [map app fst]. constructor. exact P2.
      * constructor; [exact Hex | exact F2].
      * rewrite C2, C1, length_filter_cons. cbv beta. cbn [fst snd]. destruct (marketplace_method method); lia.
    + exists ex, (((endpoint, method, descr)) :: mi), w2. repeat split.
      * congruence.
      * apply Permutation_sym, Permutation_cons_app, Permutation_sym. exact P2.
      * exact F2.
      * rewrite C2, C1, length_filter_cons. cbv beta. cbn [fst snd]. destruct (marketplace_method method); lia.
Qed.

(** X13: for every server raising only [Exception]s, the endpoint scan of
    marketplace_api_test.py never raises; the existing and missing lists
    together are a rearrangement of the scanned endpoints, every existing
    one has "exists" true, and one call is issued per endpoint with a
    supported method. *)
Theorem scan_partitions_endpoints eps token w (Hw : raises_only_exceptions (w_server w)) :
  exists existing missing w',
    Marketplace.scan eps token w = (inr (existing, missing), w') /\
    Permutation (app (map fst existing) missing) eps /\
    Forall (fun p => Marketplace.ep_exists (snd p) = true) existing /\
    length (w_calls w') =
      (length (w_calls w) + length (filter (fun ep => marketplace_method (snd (fst ep))) eps))%nat.
Proof.
  destruct (scan_total eps token w Hw) as [ex [mi [w' [E [_ R]]]]]. exists ex, mi, w'. auto.
Qed.

Ltac mm_unfold Hs :=
  unfold MarketplaceMain.main, MarketplaceMain.get_valid_token, bind at 1;
  unfold bind at 1; unfold send at 1; rewrite Hs; cbn [fst snd].

(** X14: the [main] of marketplace_api_test.py: a login call raising
    [e] lets [e] escape; a 4xx/5xx login answer ends [main] after that one
    call with nothing tested; an ok answer whose body does not parse raises
    [JSONDecodeError] with the decoder's message; an ok JSON object with a truthy "token" (and a server
    raising only [Exception]s) leads to the scan of all 59 endpoints, 60
    calls in all. *)
Theorem marketplace_main_login_cases w :
  (forall e, w_server w (w_calls w) MarketplaceMain.login_request = inl e ->
     MarketplaceMain.main w = (inl e, add_call MarketplaceMain.login_request w)) /\
  (forall r, w_server w (w_calls w) MarketplaceMain.login_request = inr r ->
     resp_ok (status_code r) = false ->
     MarketplaceMain.main w = (inr None, add_call MarketplaceMain.login_request w)) /\
  (forall r m, w_server w (w_calls w) MarketplaceMain.login_request = inr r ->
     resp_ok (status_code r) = true -> parsed r = inl m ->
     MarketplaceMain.main w =
     (inl (mkExc JSONDecodeError m), add_call MarketplaceMain.login_request w)) /\
  (forall r kvs t, w_server w (w_calls w) MarketplaceMain.login_request = inr r ->
     resp_ok (status_code r) = true -> parsed r = inr (JObj kvs) ->
     dict_lookup "token" kvs = Some t -> json_truthy t = true ->
     raises_only_exceptions (w_server w) ->
     exists existing missing line critical w',
       MarketplaceMain.main w = (inr (Some (existing, missing, line, critical)), w') /\
       length (w_calls w') = (length (w_calls w) + 60)%nat /\
       (length existing + length missing)%nat = 59%nat).
Proof.
  split; [|split; [|split]].
  - intros e Hs. mm_unfold Hs. reflexivity.
  - intros r Hs Hok. mm_unfold Hs. rewrite Hok. reflexivity.
  - intros r m Hs Hok Hp. mm_unfold Hs. rewrite Hok.
    unfold MarketplaceMain.response_json. rewrite Hp. reflexivity.
  - intros r kvs t Hs Hok Hp Ht Htr Hw. mm_unfold Hs. rewrite Hok.
    unfold MarketplaceMain.response_json, bind at 1. rewrite Hp. cbn [ret].
    unfold bind at 1, py_get, ret at 1. rewrite Ht. cbn [ret].
    rewrite Htr. cbn [negb].
    destruct (scan_total MarketplaceMain.marketplace_endpoints (py_str t)
                (add_call MarketplaceMain.login_request w) Hw)
      as [ex [mi [w2 [E [_ [P [_ C]]]]]]].
    unfold Marketplace.scan_report, bind.
    change (mkWorld (w_agg w) (w_calls w ++ [MarketplaceMain.login_request]) (w_server w))
      with (add_call MarketplaceMain.login_request w).
    rewrite E. cbn [fst snd].
    unfold Marketplace.coverage_line. cbn [Nat.eqb length MarketplaceMain.marketplace_endpoints].
    eexists ex, mi, _, _, w2. split; [reflexivity|]. split.
    + rewrite C. unfold add_call. cbn [w_calls]. rewrite length_app.
      replace (length (filter (fun ep => marketplace_method (snd (fst ep)))
                              MarketplaceMain.marketplace_endpoints)) with 59%nat by reflexivity.
      cbn [length]. lia.
    + pose proof (Permutation_length P) as L. rewrite length_app, length_map in L.
      rewrite L. reflexivity.
Qed.


Lemma login_all_tokens_match_results_witness :
  exists tokens' w',
    Suites.login_all Suites.test_users [] (world0 token_server) = (inr tokens', w') /\
    exists added rs,
      tokens' = app [] added /\
      details (w_agg w') = app [] rs /\
      map tr_name rs = map (fun u => "Login " ++ fst u) Suites.test_users /\
      map fst added = map fst (select (map tr_passed rs) Suites.test_users) /\
      Forall (fun p => json_truthy (snd p) = true) added.
Proof.
  destruct (Suites.login_all Suites.test_users [] (world0 token_server)) as [[e|tokens'] w'] eqn:E.
  - exfalso. vm_compute in E. congruence.
  - exists tokens', w'. split; [reflexivity|].
    exact (login_all_tokens_match_results _ _ _ _ _ E).
Defined.

Lemma timeout_server_offline : offline timeout_server.
Proof. intros calls r. eexists. split; reflexivity. Qed.

Lemma server_500_exceptions : raises_only_exceptions server_500.
Proof. intros calls r e H. discriminate H. Qed.

Lemma offline_run_records_fixed_results_witness :
  offline timeout_server /\
  exists w', Suites.comprehensive_suites suites_clock (world0 timeout_server) = (inr tt, w') /\
             details (w_agg w') = offline_results /\ length (w_calls w') = 16%nat /\
             Suites.main suites_clock timeout_server = 1.
Proof.
  split; [exact timeout_server_offline|].
  apply offline_run_records_fixed_results. exact timeout_server_offline.
Defined.

Lemma health_text_answer_aborts_run_witness :
  html_server [] health_request = inr (mkResponse 200 "<html></html>" (Some "text/html") "<html></html>"
    (inl "Expecting value: line 1 column 1 (char 0)") []) /\
  json_body_expected (mkResponse 200 "<html></html>" (Some "text/html") "<html></html>"
    (inl "Expecting value: line 1 column 1 (char 0)") []) = false /\
  run_comprehensive_tests (Suites.comprehensive_suites suites_clock) (world0 html_server) =
  (inr false, add_call health_request (world0 html_server)) /\ Suites.main suites_clock html_server = 1.
Proof.
  split; [reflexivity|]. split; [reflexivity|].
  apply (health_text_answer_aborts_run suites_clock html_server
           (mkResponse 200 "<html></html>" (Some "text/html") "<html></html>"
    (inl "Expecting value: line 1 column 1 (char 0)") [])); reflexivity.
Defined.

Lemma focused_main_exits_0_witness :
  raises_only_exceptions timeout_server /\
  FocusedRun.main_exit_code (fun _ => "{}") focused_clock timeout_server = 0.
Proof.
  split; [exact timeout_server_exceptions|].
  apply focused_main_exits_0. exact timeout_server_exceptions.
Defined.

Lemma focused_admin_login_failure_records_nothing_witness :
  raises_only_exceptions server_500 /\ not_ok_answer (server_500 [] focused_admin_login_request) /\
  (forall tokens w1, FocusedRun.authenticate (world0 server_500) = (inr tokens, w1) ->
     dict_lookup "admin" tokens = None) /\
  exists w', FocusedRun.run_focused_tests (fun _ => "{}") focused_clock (world0 server_500) = (inr false, w') /\
             details (w_agg w') = [].
Proof.
  split; [exact server_500_exceptions|]. split; [reflexivity|].
  apply (focused_admin_login_failure_records_nothing (fun _ => "{}") focused_clock server_500);
    [exact server_500_exceptions | reflexivity].
Defined.

Lemma critical_endpoints_record_six_names_witness :
  exists w',
    FocusedRun.test_critical_failing_endpoints (fun _ => "{}") [("admin", JStr "abc")] focused_clock
      (world0 server_200) = (inr tt, w') /\
    names_of w' = app (names_of (world0 server_200)) critical_names.
Proof.
  destruct (FocusedRun.test_critical_failing_endpoints (fun _ => "{}") [("admin", JStr "abc")]
              focused_clock (world0 server_200)) as [[e|[]] w'] eqn:E.
  - exfalso. vm_compute in E. congruence.
  - exists w'. split; [reflexivity|].
    exact (critical_endpoints_record_six_names (fun _ => "{}") [("admin", JStr "abc")] focused_clock
             (JStr "abc") _ _ eq_refl eq_refl E).
Defined.

Lemma get_admin_token_cases_witness :
  not_ok_answer (server_500 [] btf_login_request) /\
  BackendTestFocusedScript.get_admin_token (world0 server_500) =
  (inr JNull, add_call btf_login_request (world0 server_500)).
Proof.
  split; [reflexivity|].
  apply (proj1 (get_admin_token_cases (world0 server_500))). reflexivity.
Defined.

Lemma failing_endpoints_needs_token_witness :
  not_ok_answer (server_500 [] btf_login_request) /\
  BackendTestFocusedScript.test_failing_endpoints
    (BackendTestFocusedScript.mkClock "2026-11-15" "2026-10-16" "2026-10-16T09:00:00"
       "2026-10-16T18:00:00") (world0 server_500) =
  (inr tt, add_call btf_login_request (world0 server_500)).
Proof.
  split; [reflexivity|].
  apply (proj1 (failing_endpoints_needs_token _ (world0 server_500))). reflexivity.
Defined.

Lemma test_endpoint_transport_failure_witness :
  marketplace_method "GET" = true /\ fails_with timeout_server "/projects" (mkExc ReadTimeout "Read timed out.") /\
  exists req,
    Marketplace.test_endpoint "/projects" "GET" (Some "abc") None (world0 timeout_server) =
    (inr (Marketplace.mkEp false 0 false None (Some "Read timed out.")), add_call req (world0 timeout_server)) /\
    req_url req = API_BASE ++ "/projects" /\ req_method req = "GET".
Proof.
  assert (Hf : fails_with timeout_server "/projects" (mkExc ReadTimeout "Read timed out."))
    by (intros calls r _; reflexivity).
  split; [reflexivity|]. split; [exact Hf|].
  exact (test_endpoint_transport_failure (world0 timeout_server) "/projects" "GET" (Some "abc") None
           (mkExc ReadTimeout "Read timed out.") eq_refl Hf eq_refl).
Defined.

Lemma test_endpoint_unsupported_method_witness :
  marketplace_method "get" = false /\
  Marketplace.test_endpoint "/projects" "get" (Some "abc") None (world0 server_200) =
  (inr (Marketplace.mkEp false 0 false None (Some unbound_response_msg)), world0 server_200).
Proof.
  split; [reflexivity|]. apply test_endpoint_unsupported_method. reflexivity.
Defined.

Lemma scan_partitions_endpoints_witness :
  raises_only_exceptions (w_server (world0 timeout_server)) /\
  exists existing missing w',
    Marketplace.scan MarketplaceMain.marketplace_endpoints "abc" (world0 timeout_server) =
      (inr (existing, missing), w') /\
    Permutation (app (map fst existing) missing) MarketplaceMain.marketplace_endpoints /\
    Forall (fun p => Marketplace.ep_exists (snd p) = true) existing /\
    length (w_calls w') =
      (length (w_calls (world0 timeout_server)) +
       length (filter (fun ep => marketplace_method (snd (fst ep))) MarketplaceMain.marketplace_endpoints))%nat.
Proof.
  split; [exact timeout_server_exceptions|].
  apply scan_partitions_endpoints. exact timeout_server_exceptions.
Defined.

Lemma marketplace_main_login_cases_witness :
  (exists r, server_500 [] MarketplaceMain.login_request = inr r /\ resp_ok (status_code r) = false) /\
  MarketplaceMain.main (world0 server_500) =
  (inr None, add_call MarketplaceMain.login_request (world0 server_500)).
Proof.
  split; [eexists; split; reflexivity|].
  apply (proj1 (proj2 (marketplace_main_login_cases (world0 server_500)))
           (json_response 500 (JObj [("error", JStr "Internal server error")])));
    reflexivity.
Defined.
